(** * ezbackup: snapshot rotation around an external mirroring engine

    A shallow embedding of [ezbackup.py] and the properties of its snapshot
    life cycle: staging, promotion, the [current] link, eviction into the
    run-wide [junk] directory and its purge at the end of the run.

    What is modelled
    - the file system as a tree of directories, regular files and symbolic
      links, with the POSIX behaviour of the calls the script makes
      ([os.makedirs], [os.listdir], [os.rename], [os.remove], [os.symlink],
      [os.chdir], [os.getcwd], [shutil.rmtree]); path strings are resolved
      against the working directory, component by component;
    - the module-level list [rsync_flags] as an object in a small heap: the
      names [flags] in the main block and in [run_rsync] are references to it,
      and [+=] extends the object in place;
    - exceptions, as the second outcome of a state-and-exception monad;
    - the world outside the script (the rsync process, the clock, the mail
      server) as oracles, and what the script asks of it as a trace of events.

    What is left out
    - logging (the log file is only read back as the body of the mail);
    - the resolution of symbolic links inside a path: a path that runs through
      a link is reported as missing;
    - the kernel's walk through [.] and [..]: a path string is resolved on
      its names, as [os.path.normpath] resolves it, which is the path the
      kernel walks where the string has no such component;
    - the contents of regular files. *)

From stdpp Require Import gmap strings list fin_maps.
From Stdlib Require Import ZArith Ascii String.

Set Warnings "-register-all".
Local Open Scope string_scope.
Local Open Scope Z_scope.
Local Open Scope list_scope.

(** ** Python strings *)

(** [a < b] on [str]: lexicographic on code units. *)
Definition str_lt (a b : string) : bool := String.ltb a b.

(** [a > b] on [str]. *)
Definition str_gt (a b : string) : bool := str_lt b a.

Definition str_le (a b : string) : bool := String.leb a b.

(** [s.replace(c, d)] for single characters. *)
Fixpoint str_replace (c d : ascii) (s : string) : string :=
  match s with
  | EmptyString => EmptyString
  | String x s' => String (if Ascii.eqb x c then d else x) (str_replace c d s')
  end.

(** The double quote character, as a one-character string. *)
Definition dquote : string := String (ascii_of_nat 34) EmptyString.

(** ['--exclude="%s"' % e] *)
Definition exclude_flag (e : string) : string :=
  "--exclude=" +:+ dquote +:+ e +:+ dquote.

(** ['--link-dest=%s/%s' % (base_dir, newest_backup)] *)
Definition link_dest_path (base_dir newest_backup : string) : string :=
  base_dir +:+ "/" +:+ newest_backup.

Definition link_dest_flag (base_dir newest_backup : string) : string :=
  "--link-dest=" +:+ link_dest_path base_dir newest_backup.

(** ** [datetime] and [strftime] *)

Record datetime := {
  year : Z; month : Z; day : Z;
  hour : Z; minute : Z; second : Z; microsecond : Z
}.

Definition is_leap (y : Z) : bool :=
  (y mod 4 =? 0) && negb (y mod 100 =? 0) || (y mod 400 =? 0).

Definition days_in_month (y m : Z) : Z :=
  if m =? 2 then (if is_leap y then 29 else 28)
  else if (m =? 4) || (m =? 6) || (m =? 9) || (m =? 11) then 30
  else 31.

(** The values a [datetime] object can hold (MINYEAR = 1, MAXYEAR = 9999). *)
Definition valid_datetime (t : datetime) : Prop :=
  1 <= year t <= 9999 /\ 1 <= month t <= 12 /\
  1 <= day t <= days_in_month (year t) (month t) /\
  0 <= hour t < 24 /\ 0 <= minute t < 60 /\ 0 <= second t < 60 /\
  0 <= microsecond t < 1000000.

(** All the fields of a [datetime], most significant first. *)
Definition dt_fields (t : datetime) : list Z :=
  [year t; month t; day t; hour t; minute t; second t; microsecond t].

(** The fields that [%Y-%m-%d__%H-%M-%S] prints. *)
Definition dt_seconds (t : datetime) : list Z :=
  [year t; month t; day t; hour t; minute t; second t].

Fixpoint lex_lt (a b : list Z) : bool :=
  match a, b with
  | x :: a', y :: b' => (x <? y) || ((x =? y) && lex_lt a' b')
  | [], _ :: _ => true
  | _, [] => false
  end.

(** [t1 < t2] on naive [datetime] objects: field by field, microseconds last. *)
Definition dt_lt (t1 t2 : datetime) : bool := lex_lt (dt_fields t1) (dt_fields t2).

Definition digit (n : Z) : ascii := ascii_of_N (Z.to_N (48 + n mod 10)).

Definition digit_str (n : Z) : string := String (digit n) EmptyString.

(** [%m], [%d], [%H], [%M], [%S]: two digits, zero padded. *)
Definition pad2 (n : Z) : string :=
  digit_str (n / 10) +:+ digit_str n.

(** [%Y] as the C library prints it: the decimal number, four digits from
    year 1000 on. *)
Definition fmt_Y (y : Z) : string :=
  (if 1000 <=? y then digit_str (y / 1000) else "") +:+
  (if 100 <=? y then digit_str (y / 100) else "") +:+
  (if 10 <=? y then digit_str (y / 10) else "") +:+
  digit_str y.

(** [utcnow.strftime('%Y-%m-%d__%H-%M-%S')] *)
Definition strftime (t : datetime) : string :=
  fmt_Y (year t) +:+ "-" +:+ pad2 (month t) +:+ "-" +:+ pad2 (day t) +:+ "__" +:+
  pad2 (hour t) +:+ "-" +:+ pad2 (minute t) +:+ "-" +:+ pad2 (second t).

(** ** [backup_stats], on the listing *)

(** One turn of the loop [for dir in dirs]. *)
Definition stats_step (acc : Z * string * string) (dir : string)
  : Z * string * string :=
  let '(count, newest, oldest) := acc in
  if String.eqb dir "incomplete" || String.eqb dir "current" then acc
  else (count + 1,
        if str_gt dir newest then dir else newest,
        if str_lt dir oldest then dir else oldest).

(** The body of [backup_stats] after [dirs = os.listdir(base_dir)]. *)
Definition stats_of (dirs : list string) : Z * string * string :=
  fold_left stats_step dirs (0, "", "Z").

(** ** The file system *)

Inductive node :=
| File
| Dir (kids : gmap string node)
| Symlink (target : string).

(** A resolved path: the names from the root down. *)
Definition path := list string.

Inductive errno :=
| ENOENT | EEXIST | ENOTDIR | EISDIR | ENOTEMPTY | EINVAL | EBUSY.

Definition errno_eqb (a b : errno) : bool :=
  match a, b with
  | ENOENT, ENOENT | EEXIST, EEXIST | ENOTDIR, ENOTDIR | EISDIR, EISDIR
  | ENOTEMPTY, ENOTEMPTY | EINVAL, EINVAL | EBUSY, EBUSY => true
  | _, _ => false
  end.

(** [s.split('/')] *)
Fixpoint split_slash (s : string) : list string :=
  match s with
  | EmptyString => [EmptyString]
  | String c s' =>
      if Ascii.eqb c "/" then EmptyString :: split_slash s'
      else match split_slash s' with
           | h :: t => String c h :: t
           | [] => [String c EmptyString]
           end
  end.

(** One component of a path string applied to the path walked so far: empty
    components and [.] stay, [..] steps up. The step is taken on the names
    alone, as [os.path.normpath] takes it; the kernel looks every component
    up instead, and reaches the same path where the string holds neither
    [.] nor [..], which is the case of every path the program builds from a
    configuration without them. Statements about [mkdir_p] on a string of
    the caller's choice are made for such strings ([plain] below). *)
Definition norm_step (acc : path) (c : string) : path :=
  if String.eqb c "" then acc
  else if String.eqb c "." then acc
  else if String.eqb c ".." then removelast acc
  else acc ++ [c].

Definition is_absolute (s : string) : bool :=
  match s with
  | String c _ => Ascii.eqb c "/"
  | EmptyString => false
  end.

(** The path a string names when the working directory is [cwd]. *)
Definition resolve (cwd : path) (s : string) : path :=
  fold_left norm_step (split_slash s) (if is_absolute s then [] else cwd).

(** The string [os.getcwd()] returns for a working directory. *)
Definition render (p : path) : string :=
  match p with
  | [] => "/"
  | _ => fold_right (fun c acc => "/" +:+ c +:+ acc) "" p
  end.

(** A name a directory entry can have. *)
Definition valid_name (n : string) : bool :=
  match split_slash n with
  | [c] => negb (String.eqb c "") && negb (String.eqb c ".") && negb (String.eqb c "..")
  | _ => false
  end.

Fixpoint lookup_path (p : path) (n : node) : option node :=
  match p with
  | [] => Some n
  | c :: p' =>
      match n with
      | Dir kids => match kids !! c with
                    | Some m => lookup_path p' m
                    | None => None
                    end
      | _ => None
      end
  end.

(** The entries of the directory at [p]. *)
Definition dir_at (p : path) (r : node) : option (gmap string node) :=
  match lookup_path p r with
  | Some (Dir kids) => Some kids
  | _ => None
  end.

(** Rewrite the entries of the directory at [p]. *)
Fixpoint alter_dir (p : path) (f : gmap string node -> gmap string node)
    (n : node) : option node :=
  match n with
  | Dir kids =>
      match p with
      | [] => Some (Dir (f kids))
      | c :: p' =>
          match kids !! c with
          | Some m => match alter_dir p' f m with
                      | Some m' => Some (Dir (<[c := m']> kids))
                      | None => None
                      end
          | None => None
          end
      end
  | _ => None
  end.

(** A path as its directory and the name in it; the root has none. *)
Fixpoint unsnoc (p : path) : option (path * string) :=
  match p with
  | [] => None
  | c :: p' =>
      match unsnoc p' with
      | Some (q, x) => Some (c :: q, x)
      | None => Some ([], c)
      end
  end.

Fixpoint is_prefix (p q : path) : bool :=
  match p, q with
  | [], _ => true
  | c :: p', d :: q' => String.eqb c d && is_prefix p' q'
  | _ :: _, [] => false
  end.

Definition path_eqb (p q : path) : bool := is_prefix p q && is_prefix q p.

Definition is_dir (n : node) : bool :=
  match n with Dir _ => true | _ => false end.

(** Why the directory at [p] cannot be used. *)
Definition dir_errno (p : path) (r : node) : errno :=
  match lookup_path p r with
  | Some _ => ENOTDIR
  | None => ENOENT
  end.

(** [mkdir(2)] *)
Definition fs_mkdir (p : path) (r : node) : errno + node :=
  match unsnoc p with
  | None => inl EEXIST
  | Some (d, x) =>
      match dir_at d r with
      | None => inl (dir_errno d r)
      | Some kids =>
          match kids !! x with
          | Some _ => inl EEXIST
          | None => match alter_dir d (<[x := Dir ∅]>) r with
                    | Some r' => inr r'
                    | None => inl ENOENT
                    end
          end
      end
  end.

(** [os.makedirs]: the missing directories above the leaf are created from
    the top down, then the leaf, which must not exist. [above] is the part of
    the path already walked. *)
Fixpoint fs_makedirs (above todo : path) (r : node) : errno + node :=
  match todo with
  | [] => inl EEXIST
  | [x] => fs_mkdir (above ++ [x]) r
  | c :: todo' =>
      match lookup_path (above ++ [c]) r with
      | Some _ => fs_makedirs (above ++ [c]) todo' r
      | None =>
          match fs_mkdir (above ++ [c]) r with
          | inr r' => fs_makedirs (above ++ [c]) todo' r'
          | inl e => inl e
          end
      end
  end.

(** [rename(2)]: an existing destination is replaced when it is an empty
    directory (for a directory) or not a directory (for a file or a link). *)
Definition fs_rename (src dst : path) (r : node) : errno + node :=
  match lookup_path src r, unsnoc src, unsnoc dst with
  | None, _, _ => inl ENOENT
  | Some _, None, _ => inl EBUSY
  | Some _, Some _, None => inl EBUSY
  | Some n, Some (sd, sx), Some (dd, dx) =>
      match dir_at dd r with
      | None => inl (dir_errno dd r)
      | Some dkids =>
          if path_eqb src dst then inr r
          else if is_dir n && is_prefix src dst then inl EINVAL
          else
            let move :=
              match alter_dir sd (delete sx) r with
              | Some r1 => match alter_dir dd (<[dx := n]>) r1 with
                           | Some r2 => inr r2
                           | None => inl ENOENT
                           end
              | None => inl ENOENT
              end in
            match dkids !! dx with
            | None => move
            | Some (Dir k) =>
                if is_dir n
                then (if bool_decide (size k = 0%nat) then move else inl ENOTEMPTY)
                else inl EISDIR
            | Some _ => if is_dir n then inl ENOTDIR else move
            end
      end
  end.

(** [unlink(2)], behind [os.remove] *)
Definition fs_remove (p : path) (r : node) : errno + node :=
  match unsnoc p with
  | None => inl EISDIR
  | Some (d, x) =>
      match dir_at d r with
      | None => inl (dir_errno d r)
      | Some kids =>
          match kids !! x with
          | None => inl ENOENT
          | Some (Dir _) => inl EISDIR
          | Some _ => match alter_dir d (delete x) r with
                      | Some r' => inr r'
                      | None => inl ENOENT
                      end
          end
      end
  end.

(** [symlink(2)] *)
Definition fs_symlink (target : string) (p : path) (r : node) : errno + node :=
  match unsnoc p with
  | None => inl EEXIST
  | Some (d, x) =>
      match dir_at d r with
      | None => inl (dir_errno d r)
      | Some kids =>
          match kids !! x with
          | Some _ => inl EEXIST
          | None => match alter_dir d (<[x := Symlink target]>) r with
                    | Some r' => inr r'
                    | None => inl ENOENT
                    end
          end
      end
  end.

(** [shutil.rmtree]: a directory goes with all it holds; a link or a file is
    refused. *)
Definition fs_rmtree (p : path) (r : node) : errno + node :=
  match unsnoc p with
  | None => inl EBUSY
  | Some (d, x) =>
      match dir_at d r with
      | None => inl (dir_errno d r)
      | Some kids =>
          match kids !! x with
          | None => inl ENOENT
          | Some (Dir _) => match alter_dir d (delete x) r with
                            | Some r' => inr r'
                            | None => inl ENOENT
                            end
          | Some File => inl ENOTDIR
          | Some (Symlink _) => inl EINVAL
          end
      end
  end.

(** ** Configuration and command line *)

(** [config['email']]: the login of the mail account. *)
Record Login := {
  login_user : string; login_password : string;
  login_server : string; login_port : option Z
}.

(** One entry of [config['profiles']]; [excludes] is optional. *)
Record Profile := {
  username : string;
  hostname : string;
  dirs : list string;
  profile_excludes : option (list string)
}.

(** [config.json]; [excludes] and [email] are optional. *)
Record Config := {
  backup_path : string;
  backup_count : Z;
  excludes : option (list string);
  email : option Login;
  profiles : list Profile
}.

(** The result of [parse_args]. *)
Record Args := {
  arg_username : option string;
  arg_email : option string;
  arg_dry : bool;
  arg_verbose : bool
}.

(** ** The world and the monad of the script *)

(** The two module-level list objects. *)
Record pyheap := {
  obj_rsync_flags : list string;
  obj_rsync_flags_verbose : list string
}.

(** A reference to a list object: what a Python name of a list holds. *)
Inductive listref := ref_rsync_flags | ref_rsync_flags_verbose.

(** The heap when the module has been loaded. *)
Definition module_heap : pyheap := {|
  obj_rsync_flags :=
    ["--archive"; "--one-file-system"; "--hard-links"; "--human-readable";
     "--inplace"; "--numeric-ids"; "--delete"; "--delete-excluded"];
  obj_rsync_flags_verbose := ["--verbose"; "--progress"; "--itemize-changes"]
|}.

(** What the script asks of the outside. *)
Inductive event :=
| EvCall (argv : list string) (returncode : Z)
| EvSendmail (to subject : string)
| EvRmtree (p : path).

Inductive exn :=
| OSError (e : errno)
| KeyError (key : string)
| SMTPException.

Record world := {
  fs : node;
  cwd : path;
  heap : pyheap;
  tick : nat;
  trace : list event
}.

(** The outside of the script: the [n]-th external interaction is the run of
    the engine on an argument vector and the entries of its destination
    (giving the exit status and the new entries), or a reading of the clock;
    the mail server accepts or refuses a message. *)
Record extern := {
  engine : nat -> list string -> gmap string node -> Z * gmap string node;
  clock : nat -> datetime;
  smtp : string -> string -> bool
}.

Inductive outcome (A : Type) :=
| Ret (a : A)
| Raise (e : exn).
Arguments Ret {A} a.
Arguments Raise {A} e.

Definition M (A : Type) : Type := world -> outcome A * world.

Definition ret {A} (a : A) : M A := fun w => (Ret a, w).

Definition raise {A} (e : exn) : M A := fun w => (Raise e, w).

Definition bind {A B} (m : M A) (k : A -> M B) : M B := fun w =>
  match m w with
  | (Ret a, w') => k a w'
  | (Raise e, w') => (Raise e, w')
  end.

(** [try: m / except: h] *)
Definition try_except {A} (m : M A) (h : exn -> M A) : M A := fun w =>
  match m w with
  | (Ret a, w') => (Ret a, w')
  | (Raise e, w') => h e w'
  end.

Notation "'let*' x := c 'in' k" := (bind c (fun x => k))
  (at level 10, x name, c at level 100, k at level 200).
Notation "'let*' ' p := c 'in' k" := (bind c (fun x => match x with p => k end))
  (at level 10, p pattern, c at level 100, k at level 200).
Notation "c >> k" := (bind c (fun _ => k))
  (at level 100, k at level 200, right associativity).

Definition set_fs (r : node) (w : world) : world :=
  {| fs := r; cwd := cwd w; heap := heap w; tick := tick w; trace := trace w |}.

Definition set_cwd (p : path) (w : world) : world :=
  {| fs := fs w; cwd := p; heap := heap w; tick := tick w; trace := trace w |}.

Definition set_heap (h : pyheap) (w : world) : world :=
  {| fs := fs w; cwd := cwd w; heap := h; tick := tick w; trace := trace w |}.

Definition next_tick (w : world) : world :=
  {| fs := fs w; cwd := cwd w; heap := heap w; tick := S (tick w); trace := trace w |}.

Definition emit (e : event) (w : world) : world :=
  {| fs := fs w; cwd := cwd w; heap := heap w; tick := tick w;
     trace := trace w ++ [e] |}.

(** The world at the start of the script: a file system, a working directory,
    the module just loaded. *)
Definition boot (r : node) (d : path) : world :=
  {| fs := r; cwd := d; heap := module_heap; tick := 0%nat; trace := [] |}.

(** *** Lists by reference *)

Definition deref (h : pyheap) (r : listref) : list string :=
  match r with
  | ref_rsync_flags => obj_rsync_flags h
  | ref_rsync_flags_verbose => obj_rsync_flags_verbose h
  end.

Definition store (r : listref) (l : list string) (h : pyheap) : pyheap :=
  match r with
  | ref_rsync_flags =>
      {| obj_rsync_flags := l; obj_rsync_flags_verbose := obj_rsync_flags_verbose h |}
  | ref_rsync_flags_verbose =>
      {| obj_rsync_flags := obj_rsync_flags h; obj_rsync_flags_verbose := l |}
  end.

(** The elements of the list [r] names. *)
Definition list_read (r : listref) : M (list string) := fun w =>
  (Ret (deref (heap w) r), w).

(** [r += xs]: the object [r] names is extended in place. *)
Definition list_iadd (r : listref) (xs : list string) : M unit := fun w =>
  (Ret tt, set_heap (store r (deref (heap w) r ++ xs) (heap w)) w).

(** *** The calls into [os] and [shutil] *)

(** A call that changes the file system at the path a string names; the empty
    string names nothing. *)
Definition fs_call (s : string) (op : path -> node -> errno + node) : M unit :=
  fun w =>
    if String.eqb s "" then (Raise (OSError ENOENT), w)
    else match op (resolve (cwd w) s) (fs w) with
         | inr r => (Ret tt, set_fs r w)
         | inl e => (Raise (OSError e), w)
         end.

Definition os_makedirs (name : string) : M unit :=
  fs_call name (fs_makedirs []).

Definition os_path_isdir (name : string) : M bool := fun w =>
  (Ret (match dir_at (resolve (cwd w) name) (fs w) with
        | Some _ => negb (String.eqb name "")
        | None => false
        end), w).

Definition os_listdir (name : string) : M (list string) := fun w =>
  if String.eqb name "" then (Raise (OSError ENOENT), w)
  else match dir_at (resolve (cwd w) name) (fs w) with
       | Some kids => (Ret (map fst (map_to_list kids)), w)
       | None => (Raise (OSError (dir_errno (resolve (cwd w) name) (fs w))), w)
       end.

Definition os_rename (src dst : string) : M unit := fun w =>
  if String.eqb src "" || String.eqb dst "" then (Raise (OSError ENOENT), w)
  else match fs_rename (resolve (cwd w) src) (resolve (cwd w) dst) (fs w) with
       | inr r => (Ret tt, set_fs r w)
       | inl e => (Raise (OSError e), w)
       end.

Definition os_remove (name : string) : M unit :=
  fs_call name fs_remove.

Definition os_symlink (target name : string) : M unit :=
  fs_call name (fs_symlink target).

Definition os_getcwd : M string := fun w => (Ret (render (cwd w)), w).

Definition os_chdir (name : string) : M unit := fun w =>
  if String.eqb name "" then (Raise (OSError ENOENT), w)
  else match dir_at (resolve (cwd w) name) (fs w) with
       | Some _ => (Ret tt, set_cwd (resolve (cwd w) name) w)
       | None => (Raise (OSError (dir_errno (resolve (cwd w) name) (fs w))), w)
       end.

Definition shutil_rmtree (name : string) : M unit := fun w =>
  if String.eqb name "" then (Raise (OSError ENOENT), w)
  else match fs_rmtree (resolve (cwd w) name) (fs w) with
       | inr r => (Ret tt, emit (EvRmtree (resolve (cwd w) name)) (set_fs r w))
       | inl e => (Raise (OSError e), w)
       end.

(** ** The script *)

Section Script.

Variable E : extern.

(** [datetime.utcnow()] *)
Definition datetime_utcnow : M datetime := fun w =>
  (Ret (clock E (tick w)), next_tick w).

(** [subprocess.call(argv)] for the engine: it reads and writes the entries of
    its destination, the last argument, and exits with a status. *)
Definition subprocess_call (argv : list string) : M Z := fun w =>
  let dst := resolve (cwd w) (List.last argv "") in
  let before := default ∅ (dir_at dst (fs w)) in
  let '(returncode, after) := engine E (tick w) argv before in
  let r := default (fs w) (alter_dir dst (fun _ => after) (fs w)) in
  (Ret returncode, emit (EvCall argv returncode) (next_tick (set_fs r w))).

(** [send_email]: the message leaves or the SMTP client raises. *)
Definition send_email (login : Login) (to subject : string) : M unit := fun w =>
  if smtp E to subject then (Ret tt, emit (EvSendmail to subject) w)
  else (Raise SMTPException, w).

(** ['mkdir -p' : create the dir if it doesn't exist] *)
Definition mkdir_p (path : string) : M unit :=
  try_except (os_makedirs path)
    (fun exc =>
       match exc with
       | OSError e =>
           let* d := os_path_isdir path in
           if errno_eqb e EEXIST && d then ret tt else raise exc
       | _ => raise exc
       end).

(** [returns = ( count, newest, oldest )] *)
Definition backup_stats (base_dir : string) : M (Z * string * string) :=
  let* dirs := os_listdir base_dir in
  ret (stats_of dirs).

Definition run_rsync (config : Config) (profile : Profile) (flags : listref)
    (path : string) : M bool :=
  let source := username profile +:+ "@" +:+ hostname profile +:+ ":" +:+ path in
  let base_dir :=
    backup_path config +:+ username profile +:+ "/" +:+ hostname profile +:+ "/"
      +:+ str_replace "/" "_" path +:+ "/" in
  let target := base_dir +:+ "incomplete" +:+ "/" in
  mkdir_p target >>
  let excludes := map exclude_flag (default [] (profile_excludes profile)) in
  list_iadd flags excludes >>
  (* find latest and oldest backup to be used for link-dest *)
  let* '(backup_count_, newest_backup, oldest_backup) := backup_stats base_dir in
  list_iadd flags [link_dest_flag base_dir newest_backup] >>
  let* flags_now := list_read flags in
  let command := ["rsync"] ++ flags_now ++ [source; target] in
  let* returncode := subprocess_call command in
  (if returncode =? 0 then
     let* cwd := os_getcwd in
     os_chdir base_dir >>
     (* rename incomplete *)
     let* utcnow := datetime_utcnow in
     let timestr := strftime utcnow in
     os_rename "incomplete" timestr >>
     (* create symlink *)
     try_except (os_remove "current") (fun _ => ret tt) >>
     os_symlink timestr "current" >>
     (* purge oldest backup *)
     (if backup_count_ >=? backup_count config then
        let junk_path := backup_path config +:+ "junk/" +:+ oldest_backup in
        os_rename oldest_backup junk_path
      else ret tt) >>
     os_chdir cwd
   else ret tt) >>
  ret (returncode =? 0).

(** [for path in profile['dirs']] *)
Fixpoint for_dirs (config : Config) (profile : Profile) (flags : listref)
    (paths : list string) (success : bool) : M bool :=
  match paths with
  | [] => ret success
  | path :: rest =>
      let* ok := run_rsync config profile flags path in
      for_dirs config profile flags rest (ok && success)
  end.

(** [for profile in profiles] *)
Fixpoint for_profiles (config : Config) (flags : listref)
    (ps : list Profile) (success : bool) : M bool :=
  match ps with
  | [] => ret success
  | profile :: rest =>
      let* success' := for_dirs config profile flags (dirs profile) success in
      for_profiles config flags rest success'
  end.

(** [if args.email]: [None] and the empty string are false. *)
Definition truthy (s : option string) : bool :=
  match s with
  | Some x => negb (String.eqb x "")
  | None => false
  end.

(** The main block; the value is the final [success]. *)
Definition main (config : Config) (args : Args) : M bool :=
  (* Build list of flags. *)
  let flags := ref_rsync_flags in
  match excludes config with
  | Some es => list_iadd flags (map exclude_flag es)
  | None => ret tt
  end >>
  (if arg_verbose args
   then let* v := list_read ref_rsync_flags_verbose in list_iadd flags v
   else ret tt) >>
  (if arg_dry args then list_iadd flags ["-n"] else ret tt) >>
  (* Create junk dir *)
  let junkDirPath := backup_path config +:+ "junk" in
  mkdir_p junkDirPath >>
  (* Now, do it! *)
  let* success := for_profiles config flags (profiles config) true in
  (if truthy (arg_email args) then
     match email config with
     | Some login =>
         send_email login (default "" (arg_email args))
           ((if success then "[OK]" else "[FAIL]") +:+ " ezbackup complete.")
     | None => raise (KeyError "email")
     end
   else ret tt) >>
  (* Delete junk dir with all the purged backups *)
  shutil_rmtree junkDirPath >>
  ret success.

End Script.

(** ** Vocabulary of the properties *)

(** The strings the script builds for one target. *)
Definition base_dir_of (config : Config) (profile : Profile) (path : string) : string :=
  backup_path config +:+ username profile +:+ "/" +:+ hostname profile +:+ "/"
    +:+ str_replace "/" "_" path +:+ "/".

Definition target_of (config : Config) (profile : Profile) (path : string) : string :=
  base_dir_of config profile path +:+ "incomplete" +:+ "/".

Definition source_of (profile : Profile) (path : string) : string :=
  username profile +:+ "@" +:+ hostname profile +:+ ":" +:+ path.

Definition junk_dir_of (config : Config) : string := backup_path config +:+ "junk".

(** The names in the directory at [p]; none when there is no such directory. *)
Definition names_at (p : path) (r : node) : gset string :=
  match dir_at p r with
  | Some kids => dom kids
  | None => ∅
  end.

(** The entries [backup_stats] counts: all but the staging area and the link. *)
Definition is_snapshot_name (x : string) : bool :=
  negb (String.eqb x "incomplete" || String.eqb x "current").

(** The named snapshots of the store at [p]. *)
Definition snapshots (p : path) (r : node) : gset string :=
  filter (fun x => is_snapshot_name x = true) (names_at p r).

(** The store of a target and the junk directory do not contain one another,
    and the junk directory is not the staging area of the store. *)
Definition apart (store junk : path) : Prop :=
  is_prefix store junk = false /\ is_prefix junk (store ++ ["incomplete"]) = false.

(** The targets of a run, in the order the two loops visit them. *)
Definition targets (ps : list Profile) : list (Profile * string) :=
  flat_map (fun p => map (fun d => (p, d)) (dirs p)) ps.

(** The engine runs recorded in a trace: argument vector and exit status. *)
Definition calls (tr : list event) : list (list string * Z) :=
  flat_map (fun e => match e with EvCall a rc => [(a, rc)] | _ => [] end) tr.

(** The directories a trace records as deleted. *)
Definition rmtrees (tr : list event) : list path :=
  flat_map (fun e => match e with EvRmtree p => [p] | _ => [] end) tr.

(** A list of flags without the flag [-n]. *)
Definition without_dry (l : list string) : list string :=
  List.filter (fun x => negb (String.eqb x "-n")) l.

(** Two worlds that differ at most in the trace and in the places of [-n] in
    the lists of flags. *)
Definition same_outside (w1 w2 : world) : Prop :=
  fs w1 = fs w2 /\ cwd w1 = cwd w2 /\ tick w1 = tick w2 /\
  forall r, without_dry (deref (heap w1) r) = without_dry (deref (heap w2) r).

(** The entries of a listing that [backup_stats] counts. *)
Definition snapshot_entries (dirs : list string) : list string :=
  List.filter is_snapshot_name dirs.

(** Field by field comparison, most significant first. *)
Fixpoint lex_compare (a b : list Z) : comparison :=
  match a, b with
  | x :: a', y :: b' => match x ?= y with Eq => lex_compare a' b' | c => c end
  | [], [] => Eq
  | [], _ :: _ => Lt
  | _ :: _, [] => Gt
  end.

(** A string without a slash is one component. *)
Fixpoint no_slash (s : string) : bool :=
  match s with
  | EmptyString => true
  | String c s' => negb (Ascii.eqb c "/") && no_slash s'
  end.

(** The block of [run_rsync] under [if returncode == 0]. *)
Definition promote (E : extern) (config : Config) (base_dir : string)
    (backup_count_ : Z) (oldest_backup : string) : M unit :=
  let* cwd := os_getcwd in
  os_chdir base_dir >>
  let* utcnow := datetime_utcnow E in
  let timestr := strftime utcnow in
  os_rename "incomplete" timestr >>
  try_except (os_remove "current") (fun _ => ret tt) >>
  os_symlink timestr "current" >>
  (if backup_count_ >=? backup_count config then
     let junk_path := backup_path config +:+ "junk/" +:+ oldest_backup in
     os_rename oldest_backup junk_path
   else ret tt) >>
  os_chdir cwd.

(** The entries of the directory at [p], none if there is no such directory. *)
Definition entries_at (p : path) (r : node) : gmap string node :=
  default ∅ (dir_at p r).

(** The flag list after [run_rsync] has extended it. *)
Definition flags_after (config : Config) (profile : Profile) (path : string)
    (before : list string) (newest : string) : list string :=
  (before ++ map exclude_flag (default [] (profile_excludes profile)))
    ++ [link_dest_flag (base_dir_of config profile path) newest].

(** The argument vector of the engine for a target. *)
Definition command_of (config : Config) (profile : Profile) (path : string)
    (flags_now : list string) : list string :=
  ["rsync"] ++ flags_now ++ [source_of profile path; target_of config profile path].

(** The world when the engine has run: [w1] is the world after [mkdir_p]. *)
Definition after_call (config : Config) (profile : Profile) (flags : listref)
    (path : string) (w1 : world) (flags_now : list string) (rc : Z)
    (r : node) : world :=
  {| fs := r; cwd := cwd w1; heap := store flags flags_now (heap w1);
     tick := S (tick w1);
     trace := trace w1 ++ [EvCall (command_of config profile path flags_now) rc] |}.

(** Two computations that, from worlds with the same file system, working
    directory and clock, and with the same lists of flags but for [-n], end
    alike, in such worlds again: both return, with values related by [R], or
    both raise the same exception. *)
Definition sim {A} (R : A -> A -> Prop) (m1 m2 : M A) : Prop :=
  forall w1 w2, same_outside w1 w2 ->
    match m1 w1, m2 w2 with
    | (Ret a1, w1'), (Ret a2, w2') => R a1 a2 /\ same_outside w1' w2'
    | (Raise e1, w1'), (Raise e2, w2') => e1 = e2 /\ same_outside w1' w2'
    | _, _ => False
    end.


(** ** Examples *)

Definition t_midnight : datetime :=
  {| year := 2020; month := 1; day := 1;
     hour := 0; minute := 0; second := 0; microsecond := 0 |}.

Definition t_midnight_later : datetime :=
  {| year := 2020; month := 1; day := 1;
     hour := 0; minute := 0; second := 0; microsecond := 500000 |}.

Definition t_next_second : datetime :=
  {| year := 2020; month := 1; day := 1;
     hour := 0; minute := 0; second := 1; microsecond := 0 |}.

(** The [n]-th interaction happens [n] seconds after midnight. *)
Definition ex_clock (n : nat) : datetime :=
  {| year := 2020; month := 1; day := 1;
     hour := 0; minute := 0; second := Z.of_nat n; microsecond := 0 |}.

(** An outside where the engine copies a file and exits with 0. *)
Definition ex_ok : extern :=
  {| engine := fun _ _ before => (0, <["passwd" := File]> before);
     clock := ex_clock;
     smtp := fun _ _ => true |}.

(** An outside where the engine exits with 23 and writes nothing. *)
Definition ex_fail : extern :=
  {| engine := fun _ _ before => (23, before);
     clock := ex_clock;
     smtp := fun _ _ => true |}.

(** An outside where the first run of the engine fails and the others do not. *)
Definition ex_first_fails : extern :=
  {| engine := fun n _ before =>
       match n with
       | O => (23, before)
       | _ => (0, <["passwd" := File]> before)
       end;
     clock := ex_clock;
     smtp := fun _ _ => true |}.

(** An outside where the mail server refuses the message. *)
Definition ex_no_mail : extern :=
  {| engine := fun _ _ before => (0, <["passwd" := File]> before);
     clock := ex_clock;
     smtp := fun _ _ => false |}.

Definition ex_bob : Profile :=
  {| username := "bob"; hostname := "box"; dirs := ["/etc"];
     profile_excludes := Some ["*.tmp"] |}.

Definition ex_eve : Profile :=
  {| username := "eve"; hostname := "lap"; dirs := ["/home"];
     profile_excludes := None |}.

Definition ex_login : Login :=
  {| login_user := "backup"; login_password := "secret";
     login_server := "mail"; login_port := None |}.

Definition ex_config : Config :=
  {| backup_path := "/backup/"; backup_count := 2; excludes := None;
     email := Some ex_login; profiles := [ex_bob; ex_eve] |}.

Definition ex_args : Args :=
  {| arg_username := None; arg_email := None; arg_dry := false; arg_verbose := false |}.

Definition ex_args_mail : Args :=
  {| arg_username := None; arg_email := Some "root@box"; arg_dry := false;
     arg_verbose := false |}.

Definition ex_args_dry : Args :=
  {| arg_username := None; arg_email := None; arg_dry := true; arg_verbose := false |}.

(** A disk without backups. *)
Definition ex_blank : world := boot (Dir ∅) [].

(** A snapshot directory. *)
Definition ex_snapshot : node := Dir {["passwd" := File]}.

(** The store of [bob@box:/etc] with two snapshots and the link, and an empty
    junk directory. *)
Definition ex_store : gmap string node :=
  <["2019-12-30__00-00-00" := ex_snapshot]>
  (<["2019-12-31__00-00-00" := ex_snapshot]>
  (<["current" := Symlink "2019-12-31__00-00-00"]> ∅)).

Definition ex_disk : node :=
  Dir {["backup" := Dir (<["junk" := Dir ∅]>
         {["bob" := Dir {["box" := Dir {["_etc" := Dir ex_store]}]}]})]}.

(** The run is about to start on the disk with two snapshots. *)
Definition ex_full : world := boot ex_disk [].

(** A store with the staging area and the link only. *)
Definition ex_no_snapshot : world :=
  boot (Dir {["store" := Dir (<["incomplete" := Dir ∅]>
                               {["current" := Symlink "gone"]})]}) [].

(** A disk where the junk directory cannot be made: a regular file has its
    name. *)
Definition ex_junk_file : world :=
  boot (Dir {["backup" := Dir {["junk" := File]}]}) [].

(** A store of [bob@box:/etc] that holds the snapshot the next promotion will
    name: the clock of the examples reads one second past midnight then. *)
Definition ex_taken : world :=
  boot (Dir {["backup" := Dir
          {["bob" := Dir {["box" := Dir {["_etc" := Dir
              {["2020-01-01__00-00-01" := ex_snapshot]}]}]}]}]}) [].

(** A store of [bob@box:/etc] where [current] is a directory. *)
Definition ex_current_dir : world :=
  boot (Dir {["backup" := Dir
          {["bob" := Dir {["box" := Dir {["_etc" := Dir
              {["current" := Dir ∅]}]}]}]}]}) [].

(** A configuration that keeps no snapshot. *)
Definition ex_config_zero : Config :=
  {| backup_path := "/backup/"; backup_count := 0; excludes := None;
     email := None; profiles := [ex_bob] |}.

(** ** Vocabulary of the run *)

(** The flag list when the loops of the main block start, from the heap [h]
    the main block starts in. *)
Definition initial_flags (config : Config) (args : Args) (h : pyheap) : list string :=
  ((deref h ref_rsync_flags
      ++ match excludes config with Some es => map exclude_flag es | None => [] end)
     ++ (if arg_verbose args then deref h ref_rsync_flags_verbose else []))
    ++ (if arg_dry args then ["-n"] else []).

(** The main block from [# Create junk dir] on. *)
Definition main_loop (E : extern) (config : Config) (args : Args) : M bool :=
  let flags := ref_rsync_flags in
  let junkDirPath := backup_path config +:+ "junk" in
  mkdir_p junkDirPath >>
  let* success := for_profiles E config flags (profiles config) true in
  (if truthy (arg_email args) then
     match email config with
     | Some login =>
         send_email E login (default "" (arg_email args))
           ((if success then "[OK]" else "[FAIL]") +:+ " ezbackup complete.")
     | None => raise (KeyError "email")
     end
   else ret tt) >>
  shutil_rmtree junkDirPath >>
  ret success.

(** The argument vectors of consecutive runs of the engine, from the flag
    list before the first and the newest snapshot name each run finds. *)
Fixpoint command_lines (config : Config) (before : list string)
    (tgs : list (Profile * string)) (newests : list string) : list (list string) :=
  match tgs, newests with
  | tg :: tgs', n :: ns' =>
      let fl := flags_after config tg.1 tg.2 before n in
      command_of config tg.1 tg.2 fl :: command_lines config fl tgs' ns'
  | _, _ => []
  end.

(** The flag list after these runs. *)
Fixpoint flags_end (config : Config) (before : list string)
    (tgs : list (Profile * string)) (newests : list string) : list string :=
  match tgs, newests with
  | tg :: tgs', n :: ns' =>
      flags_end config (flags_after config tg.1 tg.2 before n) tgs' ns'
  | _, _ => before
  end.

(** The mail event of a run, if the run sends one. *)
Definition mail_events (args : Args) (success : bool) : list event :=
  if truthy (arg_email args)
  then [EvSendmail (default "" (arg_email args))
          ((if success then "[OK]" else "[FAIL]") +:+ " ezbackup complete.")]
  else [].

(** A profile of the user [junk]. *)
Definition ex_junk_user : Profile :=
  {| username := "junk"; hostname := "box"; dirs := ["/etc"];
     profile_excludes := None |}.

Definition ex_config_junk : Config :=
  {| backup_path := "/backup/"; backup_count := 2; excludes := Some ["*.bak"];
     email := None; profiles := [ex_junk_user] |}.

Definition ex_args_all : Args :=
  {| arg_username := None; arg_email := Some "root@box"; arg_dry := true;
     arg_verbose := true |}.

(** The disk of [ex_full] when another target has already evicted a snapshot
    of the same name in this run. *)
Definition ex_junk_taken : world :=
  boot (Dir {["backup" := Dir (<["junk" := Dir {["2019-12-30__00-00-00" := ex_snapshot]}]>
          {["bob" := Dir {["box" := Dir {["_etc" := Dir ex_store]}]}]})]}) [].

(** A path at which [os.makedirs] has nothing in its way: the directories
    down to some depth are there and the next name is free. *)
Definition creatable (p : path) (r : node) : Prop :=
  exists ex c rest, p = ex ++ c :: rest /\
    is_Some (dir_at ex r) /\ lookup_path (ex ++ [c]) r = None.

(** A path at which [mkdir_p] returns. *)
Definition makeable (p : path) (r : node) : Prop :=
  is_Some (dir_at p r) \/ creatable p r.

(** No symbolic link on the way down the path [p] from [n], as far as the
    path exists. *)
Fixpoint link_free (p : path) (n : node) : bool :=
  match n with
  | Symlink _ => false
  | File => true
  | Dir kids =>
      match p with
      | [] => true
      | c :: p' => match kids !! c with
                   | Some m => link_free p' m
                   | None => true
                   end
      end
  end.

(** The disk of [ex_full] with the store of [eve@lap:/home] beside the store
    of [bob@box:/etc]. *)
Definition ex_two_stores : world :=
  boot (Dir {["backup" := Dir (<["junk" := Dir ∅]>
          (<["eve" := Dir {["lap" := Dir {["_home" := Dir
               {["2019-12-31__00-00-00" := ex_snapshot]}]}]}]>
          {["bob" := Dir {["box" := Dir {["_etc" := Dir ex_store]}]}]}))]}) [].

(** A path string without [.] and [..] among its components: [resolve]
    cancels nothing in it, and the kernel walks the same path. *)
Definition plain (s : string) : bool :=
  forallb (fun c => negb (String.eqb c ".") && negb (String.eqb c ".."))
    (split_slash s).

(** A configuration whose [backup_path] is relative to the directory the
    program is started in. *)
Definition ex_config_rel : Config :=
  {| backup_path := "backup/"; backup_count := 2; excludes := None;
     email := None; profiles := [ex_bob] |}.

(** The disk of [ex_full] when the store of [eve@lap:/home] holds snapshots
    of the same names as the store of [bob@box:/etc]. *)
Definition ex_twins : world :=
  boot (Dir {["backup" := Dir (<["junk" := Dir ∅]>
          (<["eve" := Dir {["lap" := Dir {["_home" := Dir ex_store]}]}]>
          {["bob" := Dir {["box" := Dir {["_etc" := Dir ex_store]}]}]}))]}) [].

(** An outside where the engine honours [-n]: with the flag it writes
    nothing, without it it copies a file; it exits with 0 either way. *)
Definition ex_dry : extern :=
  {| engine := fun _ argv before =>
       if bool_decide ("-n" ∈ argv) then (0, before)
       else (0, <["passwd" := File]> before);
     clock := ex_clock;
     smtp := fun _ _ => true |}.

(** The world of [ex_full] when the main block, started with [--dry], has
    built the flag list. *)
Definition ex_full_dry : world :=
  set_heap (store ref_rsync_flags
              (initial_flags ex_config ex_args_dry module_heap) module_heap)
    ex_full.

(** * Properties *)

(** ** Order on strings *)

Lemma ascii_compare_refl (a : ascii) : Ascii.compare a a = Eq.
Proof. unfold Ascii.compare. apply N.compare_refl. Qed.

Lemma str_compare_refl (s : string) : String.compare s s = Eq.
Proof.
  induction s as [|a s IH]; simpl; [reflexivity|].
  by rewrite ascii_compare_refl.
Qed.

Lemma str_compare_eq (a b : string) : String.compare a b = Eq <-> a = b.
Proof.
  split; [apply String.compare_eq_iff|].
  intros ->. apply str_compare_refl.
Qed.

Lemma str_compare_lt_trans (a b c : string) :
  String.compare a b = Lt -> String.compare b c = Lt -> String.compare a c = Lt.
Proof.
  revert b c. induction a as [|x a IH]; intros [|y b] [|z c]; simpl; try done.
  unfold Ascii.compare.
  destruct (N.compare_spec (N_of_ascii x) (N_of_ascii y)) as [Hxy|Hxy|Hxy];
    destruct (N.compare_spec (N_of_ascii y) (N_of_ascii z)) as [Hyz|Hyz|Hyz];
    try done; intros H1 H2.
  - rewrite Hxy, Hyz, N.compare_refl. eauto.
  - rewrite Hxy. by apply N.compare_lt_iff in Hyz as ->.
  - rewrite <- Hyz. by apply N.compare_lt_iff in Hxy as ->.
  - assert (N_of_ascii x < N_of_ascii z)%N as Hxz by lia.
    by apply N.compare_lt_iff in Hxz as ->.
Qed.

Lemma str_lt_irrefl (a : string) : str_lt a a = false.
Proof. unfold str_lt, String.ltb. by rewrite str_compare_refl. Qed.

Lemma str_lt_trans (a b c : string) :
  str_lt a b = true -> str_lt b c = true -> str_lt a c = true.
Proof.
  unfold str_lt, String.ltb.
  destruct (String.compare a b) eqn:Hab; try done.
  destruct (String.compare b c) eqn:Hbc; try done.
  by rewrite (str_compare_lt_trans _ _ _ Hab Hbc).
Qed.

Lemma str_le_lt (a b : string) : str_le a b = negb (str_lt b a).
Proof.
  unfold str_le, str_lt, String.leb, String.ltb.
  rewrite (String.compare_antisym b a).
  by destruct (String.compare a b).
Qed.

Lemma str_le_refl (a : string) : str_le a a = true.
Proof. by rewrite str_le_lt, str_lt_irrefl. Qed.

Lemma str_lt_le (a b : string) : str_lt a b = true -> str_le a b = true.
Proof.
  unfold str_le, str_lt, String.leb, String.ltb.
  by destruct (String.compare a b).
Qed.

Lemma str_le_cases (a b : string) : str_le a b = true <-> str_lt a b = true \/ a = b.
Proof.
  unfold str_le, str_lt, String.leb, String.ltb.
  destruct (String.compare a b) eqn:H; split; try done; eauto.
  - intros _. right. by apply str_compare_eq.
  - intros [?| ->]; [done|]. by rewrite str_compare_refl in H.
Qed.

Lemma str_le_trans (a b c : string) :
  str_le a b = true -> str_le b c = true -> str_le a c = true.
Proof.
  rewrite !str_le_cases. intros [H1| ->] [H2| ->]; eauto.
  left. eapply str_lt_trans; eauto.
Qed.

Lemma str_lt_le_trans (a b c : string) :
  str_lt a b = true -> str_le b c = true -> str_lt a c = true.
Proof.
  rewrite str_le_cases. intros H1 [H2| ->]; [|done].
  eapply str_lt_trans; eauto.
Qed.

Lemma str_le_total (a b : string) : str_le a b = true \/ str_le b a = true.
Proof. apply String.leb_total. Qed.

Lemma str_le_antisym (a b : string) :
  str_le a b = true -> str_le b a = true -> a = b.
Proof. apply String.leb_antisym. Qed.

Lemma str_empty_le (a : string) : str_le "" a = true.
Proof. by destruct a. Qed.

(** ** [backup_stats] on a listing *)

Lemma stats_step_skip acc d :
  is_snapshot_name d = false -> stats_step acc d = acc.
Proof.
  unfold stats_step, is_snapshot_name. destruct acc as [[c n] o].
  by destruct (_ || _).
Qed.

Lemma stats_step_count acc d :
  is_snapshot_name d = true ->
  stats_step acc d =
    (acc.1.1 + 1,
     if str_gt d acc.1.2 then d else acc.1.2,
     if str_lt d acc.2 then d else acc.2).
Proof.
  unfold stats_step, is_snapshot_name. destruct acc as [[c n] o].
  by destruct (_ || _).
Qed.

(** The loop, from any starting values: the count grows by the number of
    snapshot entries, [newest] is the greatest of the start and the entries,
    [oldest] the least. *)
Lemma stats_fold (dirs : list string) (c : Z) (n o : string) :
  let r := fold_left stats_step dirs (c, n, o) in
  r.1.1 = c + Z.of_nat (List.length (snapshot_entries dirs)) /\
  (r.1.2 = n \/ In r.1.2 (snapshot_entries dirs)) /\
  str_le n r.1.2 = true /\
  (forall x, In x (snapshot_entries dirs) -> str_le x r.1.2 = true) /\
  (r.2 = o \/ In r.2 (snapshot_entries dirs)) /\
  str_le r.2 o = true /\
  (forall x, In x (snapshot_entries dirs) -> str_le r.2 x = true).
Proof.
  revert c n o. induction dirs as [|d dirs IH]; intros c n o.
  { simpl. rewrite !str_le_refl. repeat split; eauto; try done. lia. }
  unfold snapshot_entries in *. cbn [fold_left List.filter].
  destruct (is_snapshot_name d) eqn:Hd.
  2: { rewrite stats_step_skip by done. apply IH. }
  rewrite stats_step_count by done. cbn [fst snd].
  set (n' := if str_gt d n then d else n).
  set (o' := if str_lt d o then d else o).
  destruct (IH (c + 1) n' o') as (Hc & Hn & Hnle & Hmax & Ho & Hole & Hmin).
  assert (str_le n n' = true /\ str_le d n' = true /\ (n' = n \/ n' = d)) as (Hn1 & Hn2 & Hn3).
  { unfold n', str_gt. destruct (str_lt n d) eqn:Hlt.
    - rewrite str_le_refl. eauto using str_lt_le.
    - rewrite str_le_refl, str_le_lt, Hlt. eauto. }
  assert (str_le o' o = true /\ str_le o' d = true /\ (o' = o \/ o' = d)) as (Ho1 & Ho2 & Ho3).
  { unfold o'. destruct (str_lt d o) eqn:Hlt.
    - rewrite str_le_refl. eauto using str_lt_le.
    - rewrite str_le_refl, str_le_lt, Hlt. eauto. }
  split; [|split; [|split; [|split; [|split; [|split]]]]].
  - rewrite Hc. simpl List.length. lia.
  - destruct Hn as [->|?]; [|by right; right].
    destruct Hn3 as [->| ->]; [by left|by right; left].
  - eauto using str_le_trans.
  - intros x [<-|Hx]; eauto using str_le_trans.
  - destruct Ho as [->|?]; [|by right; right].
    destruct Ho3 as [->| ->]; [by left|by right; left].
  - eauto using str_le_trans.
  - intros x [<-|Hx]; eauto using str_le_trans.
Qed.

Lemma stats_of_spec (dirs : list string) :
  let r := stats_of dirs in
  r.1.1 = Z.of_nat (List.length (snapshot_entries dirs)) /\
  (r.1.2 = "" \/ In r.1.2 (snapshot_entries dirs)) /\
  (forall x, In x (snapshot_entries dirs) -> str_le x r.1.2 = true) /\
  (r.2 = "Z" \/ In r.2 (snapshot_entries dirs)) /\
  str_le r.2 "Z" = true /\
  (forall x, In x (snapshot_entries dirs) -> str_le r.2 x = true).
Proof.
  destruct (stats_fold dirs 0 "" "Z") as (Hc & Hn & _ & Hmax & Ho & Hole & Hmin).
  unfold stats_of. cbv zeta in *. rewrite Hc. auto 10.
Qed.

Lemma stats_of_no_snapshot (dirs : list string) :
  snapshot_entries dirs = [] -> stats_of dirs = (0, "", "Z").
Proof.
  intros He. destruct (stats_of_spec dirs) as (Hc & Hn & _ & Ho & _).
  rewrite He in *. simpl in *.
  destruct (stats_of dirs) as [[c n] o]. simpl in *.
  destruct Hn as [->|[]], Ho as [->|[]]. by rewrite Hc.
Qed.

(** ** Snapshot names *)

Ltac zdiv := Z.div_mod_to_equations; lia.

Lemma str_compare_app (a b s t : string) :
  String.length a = String.length b ->
  String.compare (a +:+ s) (b +:+ t) =
    match String.compare a b with
    | Eq => String.compare s t
    | c => c
    end.
Proof.
  revert b. induction a as [|x a IH]; intros [|y b] Hlen; simpl in *; try done.
  destruct (Ascii.compare x y); try done.
  apply IH. congruence.
Qed.

Lemma digit_code (n : Z) : N_of_ascii (digit n) = Z.to_N (48 + n mod 10).
Proof.
  unfold digit. apply N_ascii_embedding.
  pose proof (Z.mod_pos_bound n 10). lia.
Qed.

Lemma digit_compare (x y : Z) :
  Ascii.compare (digit x) (digit y) = (x mod 10 ?= y mod 10).
Proof.
  unfold Ascii.compare. rewrite !digit_code.
  pose proof (Z.mod_pos_bound x 10). pose proof (Z.mod_pos_bound y 10).
  rewrite Z2N.inj_compare by lia.
  rewrite Z.add_compare_mono_l. done.
Qed.

Lemma compare_cases (x y : Z) (c : comparison) :
  (x < y -> c = Lt) -> (x = y -> c = Eq) -> (y < x -> c = Gt) -> c = (x ?= y).
Proof. destruct (Z.compare_spec x y); eauto. Qed.

Lemma pad2_compare (x y : Z) :
  0 <= x < 100 -> 0 <= y < 100 ->
  String.compare (pad2 x) (pad2 y) = (x ?= y).
Proof.
  intros Hx Hy. unfold pad2, digit_str. simpl. rewrite !digit_compare.
  assert (x / 10 mod 10 = x / 10) as -> by (apply Z.mod_small; zdiv).
  assert (y / 10 mod 10 = y / 10) as -> by (apply Z.mod_small; zdiv).
  apply compare_cases; intros H;
    destruct (Z.compare_spec (x / 10) (y / 10));
    destruct (Z.compare_spec (x mod 10) (y mod 10)); try done; zdiv.
Qed.

Lemma fmt_Y_four (y : Z) :
  1000 <= y ->
  fmt_Y y = String (digit (y / 1000)) (String (digit (y / 100))
              (String (digit (y / 10)) (String (digit y) EmptyString))).
Proof.
  intros Hy. unfold fmt_Y, digit_str.
  by rewrite !(proj2 (Z.leb_le _ _)) by lia.
Qed.

Lemma fmt_Y_compare (x y : Z) :
  1000 <= x <= 9999 -> 1000 <= y <= 9999 ->
  String.compare (fmt_Y x) (fmt_Y y) = (x ?= y).
Proof.
  intros Hx Hy. rewrite !fmt_Y_four by lia. simpl. rewrite !digit_compare.
  assert (x / 1000 mod 10 = x / 1000) as -> by (apply Z.mod_small; zdiv).
  assert (y / 1000 mod 10 = y / 1000) as -> by (apply Z.mod_small; zdiv).
  apply compare_cases; intros H;
    destruct (Z.compare_spec (x / 1000) (y / 1000));
    destruct (Z.compare_spec (x / 100 mod 10) (y / 100 mod 10));
    destruct (Z.compare_spec (x / 10 mod 10) (y / 10 mod 10));
    destruct (Z.compare_spec (x mod 10) (y mod 10)); try done; zdiv.
Qed.

Lemma pad2_length (x : Z) : String.length (pad2 x) = 2%nat.
Proof. done. Qed.

Lemma fmt_Y_length (y : Z) : 1000 <= y -> String.length (fmt_Y y) = 4%nat.
Proof. intros. by rewrite fmt_Y_four. Qed.

Lemma lex_lt_compare (a b : list Z) :
  lex_lt a b = match lex_compare a b with Lt => true | _ => false end.
Proof.
  revert b. induction a as [|x a IH]; intros [|y b]; simpl; try done.
  rewrite IH. destruct (Z.compare_spec x y).
  - subst. by rewrite Z.ltb_irrefl, Z.eqb_refl.
  - by rewrite (proj2 (Z.ltb_lt _ _)).
  - rewrite (proj2 (Z.ltb_ge _ _)) by lia. by rewrite (proj2 (Z.eqb_neq _ _)) by lia.
Qed.

Lemma strftime_compare (t1 t2 : datetime) :
  valid_datetime t1 -> valid_datetime t2 ->
  1000 <= year t1 -> 1000 <= year t2 ->
  String.compare (strftime t1) (strftime t2) =
    lex_compare (dt_seconds t1) (dt_seconds t2).
Proof.
  intros (Hy1 & Hm1 & Hd1 & Hh1 & Hmi1 & Hs1 & _) (Hy2 & Hm2 & Hd2 & Hh2 & Hmi2 & Hs2 & _) H1 H2.
  assert (days_in_month (year t1) (month t1) <= 31 /\
          days_in_month (year t2) (month t2) <= 31) as [? ?].
  { unfold days_in_month. split; repeat case_match; lia. }
  unfold strftime, dt_seconds. simpl lex_compare.
  rewrite str_compare_app by (by rewrite !fmt_Y_length).
  rewrite fmt_Y_compare by lia.
  destruct (year t1 ?= year t2); try done.
  rewrite (str_compare_app "-" "-") by done. simpl (String.compare "-" "-").
  rewrite str_compare_app by done. rewrite pad2_compare by lia.
  destruct (month t1 ?= month t2); try done.
  rewrite (str_compare_app "-" "-") by done. simpl (String.compare "-" "-").
  rewrite str_compare_app by done. rewrite pad2_compare by lia.
  destruct (day t1 ?= day t2); try done.
  rewrite (str_compare_app "__" "__") by done. simpl (String.compare "__" "__").
  rewrite str_compare_app by done. rewrite pad2_compare by lia.
  destruct (hour t1 ?= hour t2); try done.
  rewrite (str_compare_app "-" "-") by done. simpl (String.compare "-" "-").
  rewrite str_compare_app by done. rewrite pad2_compare by lia.
  destruct (minute t1 ?= minute t2); try done.
  rewrite (str_compare_app "-" "-") by done. simpl (String.compare "-" "-").
  rewrite pad2_compare by lia.
  by destruct (second t1 ?= second t2).
Qed.

Lemma lex_compare_prefix (a b : list Z) (x y : Z) :
  List.length a = List.length b ->
  lex_compare (a ++ [x]) (b ++ [y]) =
    match lex_compare a b with Eq => (x ?= y) | c => c end.
Proof.
  revert b. induction a as [|u a IH]; intros [|v b] Hlen; simpl in *; try done.
  - by destruct (x ?= y).
  - destruct (u ?= v); try done. apply IH. congruence.
Qed.

(** ** Paths *)

Lemma is_prefix_spec (p q : path) : is_prefix p q = true <-> exists s, q = p ++ s.
Proof.
  revert q. induction p as [|c p IH]; intros q; simpl.
  { split; eauto. }
  destruct q as [|d q].
  { split; [done|]. by intros [s ?]. }
  rewrite andb_true_iff, String.eqb_eq, IH. split.
  - intros [-> [s ->]]. eauto.
  - intros [s Hs]. simplify_eq. eauto.
Qed.

Lemma is_prefix_refl (p : path) : is_prefix p p = true.
Proof. apply is_prefix_spec. exists []. by rewrite app_nil_r. Qed.

Lemma is_prefix_app (p s : path) : is_prefix p (p ++ s) = true.
Proof. apply is_prefix_spec. eauto. Qed.

Lemma is_prefix_trans (p q r : path) :
  is_prefix p q = true -> is_prefix q r = true -> is_prefix p r = true.
Proof.
  rewrite !is_prefix_spec. intros [s ->] [t ->]. exists (s ++ t). by rewrite app_assoc.
Qed.

Lemma is_prefix_snoc (p q : path) (x : string) :
  is_prefix p (q ++ [x]) = true -> is_prefix p q = true \/ p = q ++ [x].
Proof.
  rewrite !is_prefix_spec. intros [s Hs].
  induction s as [|y s' _] using rev_ind.
  - right. by rewrite app_nil_r in Hs.
  - left. rewrite app_assoc in Hs. apply app_inj_tail in Hs as [-> _]. eauto.
Qed.

Lemma path_eqb_eq (p q : path) : path_eqb p q = true <-> p = q.
Proof.
  unfold path_eqb. rewrite andb_true_iff, !is_prefix_spec. split.
  - intros [[s ->] [t Ht]]. rewrite <- app_assoc in Ht.
    rewrite <- (app_nil_r p) in Ht at 1. apply app_inv_head in Ht.
    symmetry in Ht. apply app_eq_nil in Ht as [-> _]. by rewrite app_nil_r.
  - intros ->. split; exists []; by rewrite app_nil_r.
Qed.

Lemma unsnoc_snoc (d : path) (x : string) : unsnoc (d ++ [x]) = Some (d, x).
Proof. induction d as [|c d IH]; simpl; [done|]. by rewrite IH. Qed.

Lemma unsnoc_Some (p d : path) (x : string) : unsnoc p = Some (d, x) -> p = d ++ [x].
Proof.
  revert d. induction p as [|c p IH]; intros d; simpl; [done|].
  destruct (unsnoc p) as [[q y]|] eqn:Hp.
  - intros [= <- <-]. by rewrite (IH q eq_refl).
  - intros [= <- <-]. by destruct p as [|? p]; [|simpl in Hp; destruct (unsnoc p) as [[??]|]].
Qed.

Lemma unsnoc_None (p : path) : unsnoc p = None -> p = [].
Proof. destruct p as [|c p]; [done|]. simpl. by destruct (unsnoc p) as [[??]|]. Qed.

(** ** Looking up and rewriting the tree *)

Lemma lookup_path_app (p q : path) (r : node) :
  lookup_path (p ++ q) r =
    match lookup_path p r with Some m => lookup_path q m | None => None end.
Proof.
  revert r. induction p as [|c p IH]; intros r; simpl; [done|].
  destruct r as [|kids|]; try done.
  destruct (kids !! c); [apply IH|done].
Qed.

Lemma lookup_path_snoc (d : path) (x : string) (r : node) :
  lookup_path (d ++ [x]) r =
    match dir_at d r with Some kids => kids !! x | None => None end.
Proof.
  rewrite lookup_path_app. unfold dir_at.
  destruct (lookup_path d r) as [[|kids|]|]; simpl; try done.
  by destruct (kids !! x).
Qed.

Lemma dir_at_snoc (d : path) (x : string) (r : node) (k : gmap string node) :
  dir_at (d ++ [x]) r = Some k <->
  exists kids, dir_at d r = Some kids /\ kids !! x = Some (Dir k).
Proof.
  unfold dir_at at 1. rewrite lookup_path_snoc.
  destruct (dir_at d r) as [kids|]; [|split; [done|by intros (?&?&?)]].
  split.
  - destruct (kids !! x) as [[|k'|]|] eqn:Hx; try done. intros [= ->]. eauto.
  - intros (? & [= <-] & ->). done.
Qed.

Lemma dir_at_lookup (d : path) (r : node) (k : gmap string node) :
  dir_at d r = Some k <-> lookup_path d r = Some (Dir k).
Proof.
  unfold dir_at. destruct (lookup_path d r) as [[|k'|]|]; split; try done; congruence.
Qed.

Lemma alter_dir_Some (d : path) f (r r' : node) :
  alter_dir d f r = Some r' ->
  exists kids, dir_at d r = Some kids /\ dir_at d r' = Some (f kids).
Proof.
  revert r r'. induction d as [|c d IH]; intros r r'.
  { destruct r as [|kids|]; simpl; try done. intros [= <-]. by exists kids. }
  destruct r as [|kids|]; simpl; try done.
  destruct (kids !! c) as [m|] eqn:Hc; [|done].
  destruct (alter_dir d f m) as [m'|] eqn:Hm; [|done].
  intros [= <-]. destruct (IH _ _ Hm) as (k & Hk & Hk').
  exists k. unfold dir_at in *. simpl. by rewrite Hc, lookup_insert_eq.
Qed.

Lemma alter_dir_is_Some (d : path) f (r : node) (kids : gmap string node) :
  dir_at d r = Some kids -> exists r', alter_dir d f r = Some r'.
Proof.
  revert r. induction d as [|c d IH]; intros r.
  { unfold dir_at. destruct r; simpl; try done. eauto. }
  unfold dir_at. destruct r as [|k|]; simpl; try done.
  destruct (k !! c) as [m|] eqn:Hc; [|done].
  intros Hm. destruct (IH m) as [m' Hm']; [done|].
  rewrite Hm'. eauto.
Qed.

(** Below the rewritten directory, the tree is the new entries. *)
Lemma alter_dir_under (d q : path) f (r r' : node) (kids : gmap string node) :
  alter_dir d f r = Some r' -> dir_at d r = Some kids ->
  lookup_path (d ++ q) r' = lookup_path q (Dir (f kids)).
Proof.
  intros Ha Hd. destruct (alter_dir_Some _ _ _ _ Ha) as (k & Hk & Hk').
  assert (k = kids) as -> by congruence.
  rewrite lookup_path_app. apply dir_at_lookup in Hk'. by rewrite Hk'.
Qed.

(** Off the path to the rewritten directory, the tree is as before. *)
Lemma alter_dir_diverge (d q : path) f (r r' : node) :
  alter_dir d f r = Some r' ->
  is_prefix d q = false -> is_prefix q d = false ->
  lookup_path q r' = lookup_path q r.
Proof.
  revert q r r'. induction d as [|c d IH]; intros q r r'; [done|].
  destruct q as [|e q]; [done|].
  destruct r as [|kids|]; simpl; try done.
  destruct (kids !! c) as [m|] eqn:Hc; [|done].
  destruct (alter_dir d f m) as [m'|] eqn:Hm; [|done].
  intros [= <-]. simpl.
  destruct (String.eqb_spec c e) as [<-|Hne].
  - rewrite String.eqb_refl. simpl. intros H1 H2.
    rewrite lookup_insert_eq, Hc. eauto.
  - intros _ _. by rewrite lookup_insert_ne.
Qed.

Lemma dir_at_alter_diverge (d q : path) f (r r' : node) :
  alter_dir d f r = Some r' ->
  is_prefix d q = false -> is_prefix q d = false ->
  dir_at q r' = dir_at q r.
Proof. intros. unfold dir_at. by erewrite alter_dir_diverge. Qed.

(** Rewriting the directory [d/x] changes the entry [x] of [d]. *)
Lemma alter_dir_snoc (d : path) (x : string) f (r r' : node) :
  alter_dir (d ++ [x]) f r = Some r' ->
  exists kids k, dir_at d r = Some kids /\ kids !! x = Some (Dir k) /\
                 dir_at d r' = Some (<[x := Dir (f k)]> kids).
Proof.
  revert r r'. induction d as [|c d IH]; intros r r'.
  { destruct r as [|kids|]; simpl; try done.
    destruct (kids !! x) as [[|k|]|] eqn:Hx; try done.
    intros [= <-]. exists kids, k. done. }
  destruct r as [|kids|]; simpl; try done.
  destruct (kids !! c) as [m|] eqn:Hc; [|done].
  destruct (alter_dir (d ++ [x]) f m) as [m'|] eqn:Hm; [|done].
  intros [= <-]. destruct (IH _ _ Hm) as (k1 & k & H1 & H2 & H3).
  exists k1, k. unfold dir_at in *. simpl. by rewrite Hc, lookup_insert_eq.
Qed.

(** An existing node that is not on the way to a new entry stays. *)
Lemma alter_dir_insert_new (d q : path) (x : string) (n m : node) (r r' : node)
    (kids : gmap string node) :
  alter_dir d (<[x := n]>) r = Some r' ->
  dir_at d r = Some kids -> kids !! x = None ->
  lookup_path q r = Some m -> is_prefix q d = false ->
  lookup_path q r' = Some m.
Proof.
  intros Ha Hd Hx Hq Hqd.
  destruct (is_prefix d q) eqn:Hdq.
  - apply is_prefix_spec in Hdq as [s ->].
    destruct s as [|y s]. { by rewrite app_nil_r, is_prefix_refl in Hqd. }
    rewrite (alter_dir_under _ _ _ _ _ _ Ha Hd).
    rewrite lookup_path_app in Hq. apply dir_at_lookup in Hd. rewrite Hd in Hq.
    simpl in *. destruct (decide (x = y)) as [->|Hne].
    + by rewrite Hx in Hq.
    + by rewrite lookup_insert_ne.
  - by rewrite (alter_dir_diverge _ _ _ _ _ Ha).
Qed.

(** ** The file system calls *)

Lemma fs_mkdir_inv (p : path) (r r' : node) :
  fs_mkdir p r = inr r' ->
  exists d x kids, p = d ++ [x] /\ dir_at d r = Some kids /\ kids !! x = None /\
                   alter_dir d (<[x := Dir ∅]>) r = Some r'.
Proof.
  unfold fs_mkdir. destruct (unsnoc p) as [[d x]|] eqn:Hp; [|done].
  apply unsnoc_Some in Hp as ->.
  destruct (dir_at d r) as [kids|] eqn:Hd; [|done].
  destruct (kids !! x) eqn:Hx; [done|].
  destruct (alter_dir d _ r) as [r1|] eqn:Ha; [|done].
  intros [= <-]. by exists d, x, kids.
Qed.

(** [mkdir] changes nothing but the new directory and the ones above it. *)
Lemma fs_mkdir_frame (p q : path) (r r' : node) :
  fs_mkdir p r = inr r' -> is_prefix q p = false ->
  lookup_path q r' = lookup_path q r.
Proof.
  intros H Hq. destruct (fs_mkdir_inv _ _ _ H) as (d & x & kids & -> & Hd & Hx & Ha).
  destruct (is_prefix d q) eqn:Hdq.
  - apply is_prefix_spec in Hdq as [s ->].
    rewrite (alter_dir_under _ _ _ _ _ _ Ha Hd), lookup_path_app.
    apply dir_at_lookup in Hd. rewrite Hd.
    destruct s as [|y s].
    { rewrite app_nil_r in Hq. by rewrite is_prefix_app in Hq. }
    simpl. destruct (decide (x = y)) as [<-|Hne].
    + rewrite lookup_insert_eq, Hx. destruct s as [|z s]; [|done].
      by rewrite is_prefix_refl in Hq.
    + by rewrite lookup_insert_ne.
  - apply (alter_dir_diverge _ _ _ _ _ Ha Hdq).
    destruct (is_prefix q d) eqn:Hqd; [|done].
    rewrite (is_prefix_trans q d (d ++ [x])) in Hq; [done|done|apply is_prefix_app].
Qed.

Lemma fs_mkdir_new (p : path) (r r' : node) :
  fs_mkdir p r = inr r' -> dir_at p r' = Some ∅.
Proof.
  intros H. destruct (fs_mkdir_inv _ _ _ H) as (d & x & kids & -> & Hd & Hx & Ha).
  apply dir_at_snoc. destruct (alter_dir_Some _ _ _ _ Ha) as (k & Hk & Hk').
  exists (<[x := Dir ∅]> k). by rewrite lookup_insert_eq.
Qed.

Lemma fs_makedirs_frame (above todo q : path) (r r' : node) :
  fs_makedirs above todo r = inr r' -> is_prefix q (above ++ todo) = false ->
  lookup_path q r' = lookup_path q r.
Proof.
  revert above r. induction todo as [|c todo IH]; intros above r; [done|].
  assert (is_prefix q (above ++ c :: todo) = false -> is_prefix q (above ++ [c]) = false) as Hpre.
  { intros Hq. destruct (is_prefix q (above ++ [c])) eqn:Hp; [|done].
    rewrite (is_prefix_trans q (above ++ [c]) (above ++ c :: todo)) in Hq; [done|done|].
    rewrite (cons_middle c above todo), app_assoc. apply is_prefix_app. }
  destruct todo as [|c' todo].
  { simpl. intros. by eapply fs_mkdir_frame. }
  cbn [fs_makedirs]. intros H Hq.
  rewrite (cons_middle c above (c' :: todo)), app_assoc in Hq.
  destruct (lookup_path (above ++ [c]) r) eqn:Hl.
  - eapply IH; eauto.
  - destruct (fs_mkdir (above ++ [c]) r) as [e|r1] eqn:Hm; [done|].
    rewrite (IH _ _ H Hq). eapply fs_mkdir_frame; eauto.
    apply Hpre. by rewrite (cons_middle c above (c' :: todo)), app_assoc.
Qed.

Lemma fs_makedirs_new (above todo : path) (r r' : node) :
  fs_makedirs above todo r = inr r' -> dir_at (above ++ todo) r' = Some ∅.
Proof.
  revert above r. induction todo as [|c todo IH]; intros above r; [done|].
  destruct todo as [|c' todo].
  { simpl. apply fs_mkdir_new. }
  cbn [fs_makedirs]. rewrite (cons_middle c above (c' :: todo)), app_assoc.
  destruct (lookup_path (above ++ [c]) r) eqn:Hl; [by apply IH|].
  destruct (fs_mkdir (above ++ [c]) r) as [e|r1] eqn:Hm; [done|]. by apply IH.
Qed.

(** What a rename that moved something did. *)
Lemma fs_rename_inv (src dst : path) (r r' : node) :
  fs_rename src dst r = inr r' ->
  (src = dst /\ r' = r /\ is_Some (lookup_path src r)) \/
  exists sd sx dd dx n r1 dkids,
    src = sd ++ [sx] /\ dst = dd ++ [dx] /\ src <> dst /\
    lookup_path src r = Some n /\ dir_at dd r = Some dkids /\
    (is_dir n && is_prefix src dst = false) /\
    match dkids !! dx with
    | None => True
    | Some (Dir k) => is_dir n = true /\ size k = 0%nat
    | Some _ => is_dir n = false
    end /\
    alter_dir sd (delete sx) r = Some r1 /\
    alter_dir dd (<[dx := n]>) r1 = Some r'.
Proof.
  unfold fs_rename.
  destruct (lookup_path src r) as [n|] eqn:Hn; [|done].
  destruct (unsnoc src) as [[sd sx]|] eqn:Hs; [|done].
  destruct (unsnoc dst) as [[dd dx]|] eqn:Hd; [|done].
  apply unsnoc_Some in Hs as ->. apply unsnoc_Some in Hd as ->.
  destruct (dir_at dd r) as [dkids|] eqn:Hdd; [|done].
  destruct (path_eqb (sd ++ [sx]) (dd ++ [dx])) eqn:Heq.
  { apply path_eqb_eq in Heq. intros [= <-]. left. eauto. }
  assert (sd ++ [sx] <> dd ++ [dx]) as Hne.
  { intros E. apply path_eqb_eq in E. congruence. }
  destruct (is_dir n && is_prefix (sd ++ [sx]) (dd ++ [dx])) eqn:Hinto; [done|].
  intros H. right. exists sd, sx, dd, dx, n.
  destruct (alter_dir sd (delete sx) r) as [r1|] eqn:H1.
  2: { repeat case_match; done. }
  destruct (alter_dir dd (<[dx:=n]>) r1) as [r2|] eqn:H2.
  2: { repeat case_match; done. }
  exists r1, dkids.
  destruct (dkids !! dx) as [[|k|]|] eqn:Hdx.
  - destruct (is_dir n) eqn:?; [done|]. simplify_eq. done.
  - destruct (is_dir n) eqn:?; [|done].
    destruct (bool_decide (size k = 0%nat)) eqn:Hk; [|done].
    apply bool_decide_eq_true in Hk. simplify_eq. done.
  - destruct (is_dir n) eqn:?; [done|]. simplify_eq. done.
  - simplify_eq. done.
Qed.

(** A rename inside one directory. *)
Lemma fs_rename_same_dir (d : path) (a b : string) (r r' : node) :
  fs_rename (d ++ [a]) (d ++ [b]) r = inr r' -> a <> b ->
  exists kids n,
    dir_at d r = Some kids /\ kids !! a = Some n /\
    dir_at d r' = Some (<[b := n]> (delete a kids)) /\
    forall q, is_prefix d q = false -> is_prefix q d = false ->
              lookup_path q r' = lookup_path q r.
Proof.
  intros H Hab. destruct (fs_rename_inv _ _ _ _ H) as [(E & _)|H'].
  { apply app_inj_tail in E as [_ ?]. done. }
  destruct H' as (sd & sx & dd & dx & n & r1 & dkids & E1 & E2 & _ & Hn & Hdd & _ & _ & H1 & H2).
  apply app_inj_tail in E1 as [<- <-]. apply app_inj_tail in E2 as [<- <-].
  rewrite lookup_path_snoc, Hdd in Hn.
  destruct (alter_dir_Some _ _ _ _ H1) as (k1 & Hk1 & Hk1').
  destruct (alter_dir_Some _ _ _ _ H2) as (k2 & Hk2 & Hk2').
  exists dkids, n. simplify_eq. repeat split; try done.
  intros q Hq1 Hq2.
  rewrite (alter_dir_diverge _ _ _ _ _ H2 Hq1 Hq2).
  apply (alter_dir_diverge _ _ _ _ _ H1 Hq1 Hq2).
Qed.

(** A rename from one directory into another that lies apart from it. *)
Lemma fs_rename_across (d e : path) (a b : string) (r r' : node) :
  fs_rename (d ++ [a]) (e ++ [b]) r = inr r' ->
  is_prefix d e = false -> is_prefix e d = false ->
  exists kids n ekids,
    dir_at d r = Some kids /\ kids !! a = Some n /\ dir_at e r = Some ekids /\
    dir_at d r' = Some (delete a kids) /\
    dir_at e r' = Some (<[b := n]> ekids).
Proof.
  intros H Hde Hed. destruct (fs_rename_inv _ _ _ _ H) as [(E & _)|H'].
  { apply app_inj_tail in E as [-> _]. by rewrite is_prefix_refl in Hde. }
  destruct H' as (sd & sx & dd & dx & n & r1 & dkids & E1 & E2 & _ & Hn & Hdd & _ & _ & H1 & H2).
  apply app_inj_tail in E1 as [<- <-]. apply app_inj_tail in E2 as [<- <-].
  rewrite lookup_path_snoc in Hn.
  destruct (dir_at d r) as [kids|] eqn:Hd; [|done].
  destruct (alter_dir_Some _ _ _ _ H1) as (k1 & Hk1 & Hk1').
  destruct (alter_dir_Some _ _ _ _ H2) as (k2 & Hk2 & Hk2').
  rewrite (dir_at_alter_diverge _ _ _ _ _ H1 Hde Hed) in Hk2.
  exists kids, n, dkids. simplify_eq. repeat split; try done.
  by rewrite (dir_at_alter_diverge _ _ _ _ _ H2 Hed Hde).
Qed.

Lemma fs_remove_inv (d : path) (x : string) (r r' : node) :
  fs_remove (d ++ [x]) r = inr r' ->
  exists kids, dir_at d r = Some kids /\ is_Some (kids !! x) /\
               alter_dir d (delete x) r = Some r'.
Proof.
  unfold fs_remove. rewrite unsnoc_snoc.
  destruct (dir_at d r) as [kids|] eqn:Hd; [|done].
  destruct (kids !! x) as [n|] eqn:Hx; [|done].
  destruct (alter_dir d (delete x) r) as [r1|] eqn:Ha.
  2: { by destruct n. }
  intros H. exists kids. split; [done|]. split; [eauto|].
  destruct n; simplify_eq; done.
Qed.

Lemma fs_symlink_inv (t : string) (d : path) (x : string) (r r' : node) :
  fs_symlink t (d ++ [x]) r = inr r' ->
  exists kids, dir_at d r = Some kids /\ kids !! x = None /\
               alter_dir d (<[x := Symlink t]>) r = Some r'.
Proof.
  unfold fs_symlink. rewrite unsnoc_snoc.
  destruct (dir_at d r) as [kids|] eqn:Hd; [|done].
  destruct (kids !! x) as [n|] eqn:Hx; [done|].
  destruct (alter_dir d _ r) as [r1|] eqn:Ha; [|done].
  intros [= <-]. by exists kids.
Qed.

Lemma fs_rmtree_inv (p : path) (r r' : node) :
  fs_rmtree p r = inr r' ->
  exists d x kids k, p = d ++ [x] /\ dir_at d r = Some kids /\
                     kids !! x = Some (Dir k) /\
                     alter_dir d (delete x) r = Some r'.
Proof.
  unfold fs_rmtree. destruct (unsnoc p) as [[d x]|] eqn:Hp; [|done].
  apply unsnoc_Some in Hp as ->.
  destruct (dir_at d r) as [kids|] eqn:Hd; [|done].
  destruct (kids !! x) as [[|k|]|] eqn:Hx; try done.
  destruct (alter_dir d (delete x) r) as [r1|] eqn:Ha; [|done].
  intros [= <-]. by exists d, x, kids, k.
Qed.

Lemma fs_rmtree_gone (p : path) (r r' : node) :
  fs_rmtree p r = inr r' -> lookup_path p r' = None.
Proof.
  intros H. destruct (fs_rmtree_inv _ _ _ H) as (d & x & kids & k & -> & Hd & Hx & Ha).
  destruct (alter_dir_Some _ _ _ _ Ha) as (k' & Hk & Hk').
  by rewrite lookup_path_snoc, Hk', lookup_delete_eq.
Qed.

(** *** What a rename leaves in place *)

Lemma dir_at_above (q s : path) (r : node) (k : gmap string node) :
  dir_at (q ++ s) r = Some k -> is_Some (dir_at q r).
Proof.
  unfold dir_at. rewrite lookup_path_app.
  destruct (lookup_path q r) as [[|kq|]|]; try done; eauto.
  all: by destruct s.
Qed.

Lemma leaf_not_above (q d : path) (r : node) (c : node) (kids : gmap string node) :
  lookup_path q r = Some c -> is_dir c = false -> dir_at d r = Some kids ->
  is_prefix q d = false.
Proof.
  intros Hq Hc Hd. destruct (is_prefix q d) eqn:Hp; [|done].
  apply is_prefix_spec in Hp as [s ->].
  unfold dir_at in Hd. rewrite lookup_path_app, Hq in Hd.
  destruct s; simpl in *; by destruct c.
Qed.

(** A non-empty directory on the way down to an existing node. *)
Lemma lookup_through (d : path) (y z : string) (rest : path) (r : node)
    (kids : gmap string node) :
  is_Some (lookup_path (d ++ y :: z :: rest) r) -> dir_at d r = Some kids ->
  exists k, kids !! y = Some (Dir k) /\ size k <> 0%nat.
Proof.
  intros [c Hc] Hd. rewrite lookup_path_app in Hc.
  apply dir_at_lookup in Hd. rewrite Hd in Hc. simpl in Hc.
  destruct (kids !! y) as [[|k|]|]; try done.
  exists k. split; [done|]. destruct (k !! z) eqn:Hz; [|done].
  apply map_size_non_empty_iff. intros ->. by rewrite lookup_empty in Hz.
Qed.

Lemma alter_dir_keeps_leaf (d q : path) f (r r' : node) (c : node) :
  alter_dir d f r = Some r' ->
  lookup_path q r = Some c -> is_dir c = false ->
  (forall kids y rest, dir_at d r = Some kids -> q = d ++ y :: rest ->
                       f kids !! y = kids !! y) ->
  lookup_path q r' = Some c.
Proof.
  intros Ha Hq Hc Hf. destruct (alter_dir_Some _ _ _ _ Ha) as (kids & Hd & _).
  pose proof (leaf_not_above _ _ _ _ _ Hq Hc Hd) as Hqd.
  destruct (is_prefix d q) eqn:Hdq.
  - apply is_prefix_spec in Hdq as [s ->]. destruct s as [|y rest].
    { by rewrite app_nil_r, is_prefix_refl in Hqd. }
    rewrite (alter_dir_under _ _ _ _ _ _ Ha Hd). simpl.
    rewrite (Hf kids y rest Hd eq_refl).
    rewrite lookup_path_app in Hq. apply dir_at_lookup in Hd. by rewrite Hd in Hq.
  - by rewrite (alter_dir_diverge _ _ _ _ _ Ha).
Qed.

Lemma alter_dir_keeps_dir (d q : path) f (r r' : node) :
  alter_dir d f r = Some r' ->
  is_Some (dir_at q r) ->
  (forall kids y rest, dir_at d r = Some kids -> q = d ++ y :: rest ->
                       f kids !! y = kids !! y) ->
  is_Some (dir_at q r').
Proof.
  intros Ha Hq Hf. destruct (alter_dir_Some _ _ _ _ Ha) as (kids & Hd & Hd').
  destruct (is_prefix q d) eqn:Hqd.
  { apply is_prefix_spec in Hqd as [s ->]. by eapply dir_at_above. }
  destruct (is_prefix d q) eqn:Hdq.
  - apply is_prefix_spec in Hdq as [s ->]. destruct s as [|y rest].
    { by rewrite app_nil_r, is_prefix_refl in Hqd. }
    unfold dir_at in *. rewrite (alter_dir_under _ _ _ _ _ _ Ha Hd). simpl.
    rewrite (Hf kids y rest Hd eq_refl).
    rewrite lookup_path_app in Hq. apply dir_at_lookup in Hd. by rewrite Hd in Hq.
  - unfold dir_at in *. by rewrite (alter_dir_diverge _ _ _ _ _ Ha).
Qed.

(** A file or a link that is not moved, nor lies in what is moved, nor is the
    destination, stays. *)
Lemma fs_rename_keeps_leaf (src dst q : path) (r r' : node) (c : node) :
  fs_rename src dst r = inr r' ->
  lookup_path q r = Some c -> is_dir c = false ->
  is_prefix src q = false -> dst <> q ->
  lookup_path q r' = Some c.
Proof.
  intros H Hq Hc Hsrc Hdst.
  destruct (fs_rename_inv _ _ _ _ H) as [(_ & -> & _)|H']; [done|].
  destruct H' as (sd & sx & dd & dx & n & r1 & dkids & -> & -> & _ & Hn & Hdd & _ & Hcond & H1 & H2).
  assert (lookup_path q r1 = Some c) as Hq1.
  { apply (alter_dir_keeps_leaf _ _ _ _ _ _ H1 Hq Hc).
    intros kids y rest _ ->. apply lookup_delete_ne. intros <-.
    rewrite (cons_middle sx sd rest), app_assoc, is_prefix_app in Hsrc. done. }
  apply (alter_dir_keeps_leaf _ _ _ _ _ _ H2 Hq1 Hc).
  intros kids y rest _ ->. apply lookup_insert_ne. intros <-.
  destruct rest as [|z rest]; [done|].
  destruct (lookup_through dd dx z rest r dkids) as (k & Hk & Hsz); [by eauto|done|].
  rewrite Hk in Hcond. by destruct Hcond.
Qed.

(** A directory that is not moved, nor lies in what is moved, stays a
    directory. *)
Lemma fs_rename_keeps_dir (src dst q : path) (r r' : node) :
  fs_rename src dst r = inr r' ->
  is_Some (dir_at q r) -> is_prefix src q = false ->
  is_Some (dir_at q r').
Proof.
  intros H Hq Hsrc.
  destruct (fs_rename_inv _ _ _ _ H) as [(_ & -> & _)|H']; [done|].
  destruct H' as (sd & sx & dd & dx & n & r1 & dkids & -> & -> & _ & Hn & Hdd & _ & Hcond & H1 & H2).
  assert (is_Some (dir_at q r1)) as Hq1.
  { apply (alter_dir_keeps_dir _ _ _ _ _ H1 Hq).
    intros kids y rest _ ->. apply lookup_delete_ne. intros <-.
    rewrite (cons_middle sx sd rest), app_assoc, is_prefix_app in Hsrc. done. }
  destruct (decide (q = dd ++ [dx])) as [->|Hne].
  - destruct Hq as [k Hk]. apply dir_at_snoc in Hk as (kids & Hkids & Hdx).
    assert (kids = dkids) as -> by congruence. rewrite Hdx in Hcond.
    destruct Hcond as [Hdir _]. destruct n as [|kn|]; try done.
    destruct (alter_dir_Some _ _ _ _ H2) as (k1 & _ & Hk1).
    exists kn. apply dir_at_snoc. exists (<[dx := Dir kn]> k1).
    by rewrite lookup_insert_eq.
  - apply (alter_dir_keeps_dir _ _ _ _ _ H2 Hq1).
    intros kids y rest _ ->. apply lookup_insert_ne. intros <-.
    destruct rest as [|z rest]; [done|].
    destruct Hq as [k Hk]. apply dir_at_lookup in Hk.
    destruct (lookup_through dd dx z rest r dkids) as (k' & Hk' & Hsz); [by eauto|done|].
    rewrite Hk' in Hcond. by destruct Hcond.
Qed.

(** ** Path strings *)

Lemma str_app_cons (x : ascii) (a b : string) :
  String x a +:+ b = String x (a +:+ b).
Proof. done. Qed.

Lemma str_app_nil_l (b : string) : "" +:+ b = b.
Proof. done. Qed.

Lemma str_app_assoc (a b c : string) : (a +:+ b) +:+ c = a +:+ b +:+ c.
Proof.
  induction a as [|x a IH]; [done|]. by rewrite !str_app_cons, IH.
Qed.

Lemma str_app_nil_r (a : string) : a +:+ "" = a.
Proof. induction a as [|x a IH]; [done|]. by rewrite str_app_cons, IH. Qed.

Lemma split_slash_cons (s : string) : exists h t, split_slash s = h :: t.
Proof.
  induction s as [|c s (h & t & IH)]; simpl; [by eauto|].
  destruct (Ascii.eqb c "/"); [by eauto|]. rewrite IH. eauto.
Qed.

Lemma split_slash_app (a b : string) :
  split_slash (a +:+ "/" +:+ b) = split_slash a ++ split_slash b.
Proof.
  induction a as [|c a IH]; [done|].
  rewrite str_app_cons. simpl.
  destruct (Ascii.eqb c "/"); [by rewrite IH|].
  rewrite IH. by destruct (split_slash_cons a) as (h & t & ->).
Qed.

Lemma is_absolute_app (a b : string) :
  a <> "" -> is_absolute (a +:+ b) = is_absolute a.
Proof. by destruct a. Qed.

Lemma resolve_app_slash (cwd : path) (a b : string) :
  a <> "" ->
  resolve cwd (a +:+ "/" +:+ b) = fold_left norm_step (split_slash b) (resolve cwd a).
Proof.
  intros Ha. unfold resolve.
  by rewrite split_slash_app, fold_left_app, is_absolute_app.
Qed.

Lemma resolve_absolute (c1 c2 : path) (s : string) :
  is_absolute s = true -> resolve c1 s = resolve c2 s.
Proof. unfold resolve. by intros ->. Qed.

Lemma no_slash_app (a b : string) : no_slash (a +:+ b) = no_slash a && no_slash b.
Proof.
  induction a as [|c a IH]; [done|].
  rewrite str_app_cons. simpl. by rewrite IH, andb_assoc.
Qed.

Lemma no_slash_split (s : string) : no_slash s = true -> split_slash s = [s].
Proof.
  induction s as [|c s IH]; simpl; [done|].
  destruct (Ascii.eqb c "/"); simpl; [done|]. by intros ->%IH.
Qed.

Lemma split_slash_single (s c : string) :
  split_slash s = [c] -> c = s /\ no_slash s = true.
Proof.
  revert c. induction s as [|x s IH]; intros c; simpl.
  { by intros [= <-]. }
  destruct (Ascii.eqb x "/").
  { destruct (split_slash_cons s) as (h & t & ->). done. }
  destruct (split_slash_cons s) as (h & t & Hs). rewrite Hs in *.
  intros [= <- ->]. destruct (IH h eq_refl) as [-> ->]. done.
Qed.

Lemma valid_name_inv (n : string) :
  valid_name n = true ->
  split_slash n = [n] /\ n <> "" /\ n <> "." /\ n <> ".." /\ is_absolute n = false.
Proof.
  unfold valid_name. destruct (split_slash n) as [|c [|??]] eqn:Hs; try done.
  destruct (split_slash_single _ _ Hs) as [-> Hns].
  rewrite !andb_true_iff, !negb_true_iff, !String.eqb_neq.
  intros [[? ?] ?]. repeat split; try done.
  destruct n as [|x n]; [done|]. simpl in *. by destruct (Ascii.eqb x "/").
Qed.

Lemma norm_step_name (acc : path) (n : string) :
  valid_name n = true -> norm_step acc n = acc ++ [n].
Proof.
  intros (_ & H1 & H2 & H3 & _)%valid_name_inv. unfold norm_step.
  by rewrite !(proj2 (String.eqb_neq _ _)).
Qed.

Lemma fold_norm_name (acc : path) (n : string) :
  valid_name n = true -> fold_left norm_step (split_slash n) acc = acc ++ [n].
Proof.
  intros H. destruct (valid_name_inv _ H) as (-> & _). simpl. by apply norm_step_name.
Qed.

(** A name, as a relative path. *)
Lemma resolve_name (cwd : path) (n : string) :
  valid_name n = true -> resolve cwd n = cwd ++ [n].
Proof.
  intros H. unfold resolve. destruct (valid_name_inv _ H) as (_ & _ & _ & _ & ->).
  by apply fold_norm_name.
Qed.

(** *** The strings of [run_rsync] *)

Section Strings.

Variables (config : Config) (profile : Profile) (path : string) (cwd : list string).

Let base_dir := base_dir_of config profile path.

(** The store path without its closing slash. *)
Let stem : string :=
  backup_path config +:+ username profile +:+ "/" +:+ hostname profile +:+ "/"
    +:+ str_replace "/" "_" path.

Lemma base_dir_stem : base_dir = stem +:+ "/" +:+ "".
Proof. unfold base_dir, base_dir_of, stem. by rewrite !str_app_assoc. Qed.

Lemma stem_nonempty : stem <> "".
Proof.
  unfold stem. destruct (backup_path config); [|done].
  destruct (username profile); done.
Qed.

Lemma base_dir_nonempty : base_dir <> "".
Proof. rewrite base_dir_stem. pose proof stem_nonempty. by destruct stem. Qed.

Lemma target_nonempty : target_of config profile path <> "".
Proof.
  unfold target_of. fold base_dir. pose proof base_dir_nonempty. by destruct base_dir.
Qed.

Lemma resolve_base_dir : resolve cwd base_dir = resolve cwd stem.
Proof. rewrite base_dir_stem, resolve_app_slash by apply stem_nonempty. done. Qed.

Lemma resolve_target :
  resolve cwd (target_of config profile path) = resolve cwd base_dir ++ ["incomplete"].
Proof.
  unfold target_of. fold base_dir. rewrite resolve_base_dir, base_dir_stem.
  rewrite !str_app_assoc. rewrite resolve_app_slash by apply stem_nonempty. done.
Qed.

Lemma resolve_link_dest (newest : string) :
  resolve cwd (link_dest_path base_dir newest) =
    fold_left norm_step (split_slash newest) (resolve cwd base_dir).
Proof.
  unfold link_dest_path. rewrite resolve_base_dir, base_dir_stem.
  rewrite !str_app_assoc. rewrite resolve_app_slash by apply stem_nonempty. done.
Qed.

Lemma resolve_link_dest_empty :
  resolve cwd (link_dest_path base_dir "") = resolve cwd base_dir.
Proof. by rewrite resolve_link_dest. Qed.

Lemma resolve_link_dest_name (newest : string) :
  valid_name newest = true ->
  resolve cwd (link_dest_path base_dir newest) = resolve cwd base_dir ++ [newest].
Proof. intros H. by rewrite resolve_link_dest, fold_norm_name. Qed.

End Strings.

Lemma junk_dir_nonempty (config : Config) : junk_dir_of config <> "".
Proof. unfold junk_dir_of. by destruct (backup_path config). Qed.

Lemma resolve_junk_path (config : Config) (cwd : list string) (oldest : string) :
  valid_name oldest = true ->
  resolve cwd (backup_path config +:+ "junk/" +:+ oldest) =
    resolve cwd (junk_dir_of config) ++ [oldest].
Proof.
  intros H. change "junk/" with ("junk" +:+ "/" +:+ "").
  rewrite !str_app_assoc, <- (str_app_assoc (backup_path config) "junk").
  rewrite resolve_app_slash by apply junk_dir_nonempty.
  simpl. by rewrite fold_norm_name.
Qed.

Lemma junk_dir_absolute (config : Config) :
  is_absolute (backup_path config) = true -> is_absolute (junk_dir_of config) = true.
Proof. unfold junk_dir_of. by destruct (backup_path config). Qed.

(** *** The name of a new snapshot is a file name *)

Lemma digit_neq (n : Z) (c : ascii) :
  (N_of_ascii c < 48)%N -> Ascii.eqb (digit n) c = false.
Proof.
  intros Hc. apply Ascii.eqb_neq. intros E.
  apply (f_equal N_of_ascii) in E. rewrite digit_code in E.
  pose proof (Z.mod_pos_bound n 10). lia.
Qed.

Lemma no_slash_digit (n : Z) : no_slash (digit_str n) = true.
Proof. unfold digit_str. simpl. by rewrite digit_neq. Qed.

Lemma no_slash_pad2 (n : Z) : no_slash (pad2 n) = true.
Proof. unfold pad2. by rewrite no_slash_app, !no_slash_digit. Qed.

Lemma no_slash_fmt_Y (y : Z) : no_slash (fmt_Y y) = true.
Proof.
  unfold fmt_Y. rewrite !no_slash_app, no_slash_digit.
  by repeat case_match; rewrite ?no_slash_digit.
Qed.

Lemma fmt_Y_head (y : Z) : exists k rest, fmt_Y y = String (digit k) rest.
Proof.
  unfold fmt_Y, digit_str. repeat case_match; rewrite ?str_app_nil_l, ?str_app_cons; eauto.
Qed.

Lemma strftime_valid (t : datetime) : valid_name (strftime t) = true.
Proof.
  assert (no_slash (strftime t) = true) as Hns.
  { unfold strftime. by rewrite !no_slash_app, !no_slash_pad2, no_slash_fmt_Y. }
  unfold valid_name. rewrite (no_slash_split _ Hns).
  unfold strftime. destruct (fmt_Y_head (year t)) as (k & rest & ->).
  rewrite str_app_cons. simpl. by rewrite digit_neq.
Qed.

Lemma strftime_is_snapshot_name (t : datetime) : is_snapshot_name (strftime t) = true.
Proof.
  unfold is_snapshot_name, strftime. destruct (fmt_Y_head (year t)) as (k & rest & ->).
  rewrite str_app_cons. simpl.
  assert (Ascii.eqb (digit k) "i" = false) as ->.
  { apply Ascii.eqb_neq. intros E. apply (f_equal N_of_ascii) in E.
    rewrite digit_code in E. pose proof (Z.mod_pos_bound k 10). simpl in E. lia. }
  assert (Ascii.eqb (digit k) "c" = false) as ->; [|done].
  apply Ascii.eqb_neq. intros E. apply (f_equal N_of_ascii) in E.
  rewrite digit_code in E. pose proof (Z.mod_pos_bound k 10). simpl in E. lia.
Qed.

Lemma strftime_not_Z (t : datetime) : strftime t <> "Z".
Proof.
  unfold strftime. destruct (fmt_Y_head (year t)) as (k & rest & ->).
  rewrite str_app_cons. intros [= E _].
  apply (f_equal N_of_ascii) in E.
  rewrite digit_code in E. pose proof (Z.mod_pos_bound k 10). simpl in E. lia.
Qed.

(** ** Running the monad *)

Lemma bind_Ret {A B} (m : M A) (k : A -> M B) (w w' : world) (b : B) :
  bind m k w = (Ret b, w') ->
  exists a w1, m w = (Ret a, w1) /\ k a w1 = (Ret b, w').
Proof.
  unfold bind. destruct (m w) as [[a|e] w1]; [eauto|done].
Qed.

Lemma bind_inv {A B} (m : M A) (k : A -> M B) (w w' : world) (o : outcome B) :
  bind m k w = (o, w') ->
  (exists e, m w = (Raise e, w') /\ o = Raise e) \/
  (exists a w1, m w = (Ret a, w1) /\ k a w1 = (o, w')).
Proof.
  unfold bind. destruct (m w) as [[a|e] w1]; [by eauto|].
  intros [= <- <-]. eauto.
Qed.

Lemma bind_run {A B} (m : M A) (k : A -> M B) (w w1 : world) (a : A) :
  m w = (Ret a, w1) -> bind m k w = k a w1.
Proof. unfold bind. by intros ->. Qed.

Lemma os_rename_Ret (a b : string) (w w' : world) :
  os_rename a b w = (Ret tt, w') ->
  exists r, fs_rename (resolve (cwd w) a) (resolve (cwd w) b) (fs w) = inr r /\
            w' = set_fs r w.
Proof.
  unfold os_rename. destruct (_ || _); [done|].
  destruct (fs_rename _ _ _) as [e|r]; [done|]. intros [= <-]. eauto.
Qed.

Lemma fs_call_Ret (s : string) op (w w' : world) :
  fs_call s op w = (Ret tt, w') ->
  s <> "" /\ exists r, op (resolve (cwd w) s) (fs w) = inr r /\ w' = set_fs r w.
Proof.
  unfold fs_call. destruct (String.eqb_spec s ""); [done|].
  destruct (op _ _) as [e|r]; [done|]. intros [= <-]. eauto.
Qed.

Lemma fs_call_Raise (s : string) op (w w' : world) (e : exn) :
  fs_call s op w = (Raise e, w') -> w' = w.
Proof.
  unfold fs_call. destruct (String.eqb s ""); [congruence|].
  destruct (op _ _); congruence.
Qed.

Lemma os_chdir_Ret (s : string) (w w' : world) :
  os_chdir s w = (Ret tt, w') ->
  is_Some (dir_at (resolve (cwd w) s) (fs w)) /\ w' = set_cwd (resolve (cwd w) s) w.
Proof.
  unfold os_chdir. destruct (String.eqb s ""); [done|].
  destruct (dir_at _ _) eqn:Hd; [|done]. intros [= <-]. eauto.
Qed.

Lemma os_listdir_Ret (s : string) (w w' : world) (l : list string) :
  os_listdir s w = (Ret l, w') ->
  exists kids, dir_at (resolve (cwd w) s) (fs w) = Some kids /\
               l = map fst (map_to_list kids) /\ w' = w.
Proof.
  unfold os_listdir. destruct (String.eqb s ""); [done|].
  destruct (dir_at _ _) as [kids|] eqn:Hd; [|done]. intros [= <- <-]. eauto.
Qed.

Lemma os_listdir_run (s : string) (w : world) (kids : gmap string node) :
  s <> "" -> dir_at (resolve (cwd w) s) (fs w) = Some kids ->
  os_listdir s w = (Ret (map fst (map_to_list kids)), w).
Proof.
  intros Hs Hd. unfold os_listdir.
  by rewrite (proj2 (String.eqb_neq _ _) Hs), Hd.
Qed.

(** [mkdir_p] that returns: the directory is there, and nothing has changed
    but on the way to it. *)
Lemma mkdir_p_Ret (s : string) (w w1 : world) :
  mkdir_p s w = (Ret tt, w1) ->
  s <> "" /\ cwd w1 = cwd w /\ heap w1 = heap w /\ tick w1 = tick w /\
  trace w1 = trace w /\
  is_Some (dir_at (resolve (cwd w) s) (fs w1)) /\
  forall q, is_prefix q (resolve (cwd w) s) = false ->
            lookup_path q (fs w1) = lookup_path q (fs w).
Proof.
  unfold mkdir_p, try_except, os_makedirs.
  destruct (fs_call s (fs_makedirs []) w) as [[[]|e] w0] eqn:Hc.
  - intros [= <-]. apply fs_call_Ret in Hc as (Hs & r & Hr & ->). simpl.
    repeat split; try done.
    + apply fs_makedirs_new in Hr. simpl in Hr. by rewrite Hr.
    + intros q Hq. by apply (fs_makedirs_frame [] _ q _ _ Hr).
  - apply fs_call_Raise in Hc as ->. destruct e as [e| |]; try done.
    unfold bind, os_path_isdir.
    destruct (dir_at (resolve (cwd w) s) (fs w)) eqn:Hd.
    2: { rewrite andb_false_r. done. }
    destruct (String.eqb_spec s "") as [->|Hs]; simpl.
    { rewrite andb_false_r. done. }
    destruct (errno_eqb e EEXIST); [|done]. simpl. intros [= <-]. eauto 10.
Qed.

(** [mkdir_p] touches the file system only. *)
Lemma mkdir_p_quiet (s : string) (w w1 : world) (o : outcome unit) :
  mkdir_p s w = (o, w1) ->
  cwd w1 = cwd w /\ heap w1 = heap w /\ tick w1 = tick w /\ trace w1 = trace w.
Proof.
  unfold mkdir_p, try_except, os_makedirs, fs_call, bind, os_path_isdir, ret, raise.
  intros H. repeat case_match; simplify_eq; done.
Qed.

Section Runs.

Variable E : extern.

Lemma subprocess_call_run (argv : list string) (w : world) :
  let dst := resolve (cwd w) (List.last argv "") in
  let before := default ∅ (dir_at dst (fs w)) in
  let res := engine E (tick w) argv before in
  subprocess_call E argv w =
    (Ret res.1,
     emit (EvCall argv res.1)
       (next_tick (set_fs (default (fs w) (alter_dir dst (fun _ => res.2) (fs w))) w))).
Proof. unfold subprocess_call. simpl. by destruct (engine E _ _ _). Qed.

End Runs.

(** ** [run_rsync], step by step *)

Lemma deref_store (r : listref) (l : list string) (h : pyheap) :
  deref (store r l h) r = l.
Proof. by destruct r. Qed.

Lemma store_store (r : listref) (l1 l2 : list string) (h : pyheap) :
  store r l2 (store r l1 h) = store r l2 h.
Proof. by destruct r. Qed.

Lemma last_two {A} (l : list A) (a b d : A) : List.last (l ++ [a; b]) d = b.
Proof.
  induction l as [|x l IH]; [done|].
  simpl. rewrite IH. by destruct l.
Qed.

Lemma list_iadd_run (r : listref) (xs : list string) (w : world) :
  list_iadd r xs w = (Ret tt, set_heap (store r (deref (heap w) r ++ xs) (heap w)) w).
Proof. done. Qed.

Lemma list_read_run (r : listref) (w : world) :
  list_read r w = (Ret (deref (heap w) r), w).
Proof. done. Qed.

Lemma backup_stats_run (s : string) (w : world) (kids : gmap string node) :
  s <> "" -> dir_at (resolve (cwd w) s) (fs w) = Some kids ->
  backup_stats s w = (Ret (stats_of (map fst (map_to_list kids))), w).
Proof.
  intros Hs Hd. unfold backup_stats.
  by rewrite (bind_run _ _ _ _ _ (os_listdir_run _ _ _ Hs Hd)).
Qed.

Section RunRsync.

Variables (E : extern) (config : Config) (profile : Profile) (flags : listref)
  (path : string).

Local Abbreviation base_dir := (base_dir_of config profile path).
Local Abbreviation target := (target_of config profile path).

(** The staging area is there after [mkdir_p]; the other entries of the store
    are the ones from before. *)
Lemma mkdir_p_store (w w1 : world) :
  mkdir_p target w = (Ret tt, w1) ->
  exists k0, dir_at (resolve (cwd w) base_dir) (fs w1) =
               Some (<["incomplete" := Dir k0]> (entries_at (resolve (cwd w) base_dir) (fs w))).
Proof.
  intros (_ & _ & _ & _ & _ & [k0 Hk0] & Hframe)%mkdir_p_Ret.
  rewrite resolve_target in *.
  set (base := resolve (cwd w) base_dir) in *.
  apply dir_at_snoc in Hk0 as (kids & Hkids & Hinc).
  exists k0. rewrite Hkids. f_equal. apply map_eq. intros x.
  destruct (decide (x = "incomplete")) as [->|Hx].
  { by rewrite lookup_insert_eq. }
  rewrite lookup_insert_ne by done.
  assert (is_prefix (base ++ [x]) (base ++ ["incomplete"]) = false) as Hp.
  { destruct (is_prefix _ _) eqn:Hp; [|done].
    apply is_prefix_spec in Hp as [s Hs]. rewrite <- app_assoc in Hs.
    apply app_inv_head in Hs. simpl in Hs. by simplify_eq. }
  specialize (Hframe _ Hp). rewrite !lookup_path_snoc, Hkids in Hframe.
  rewrite Hframe. unfold entries_at. by destruct (dir_at base (fs w)).
Qed.

(** [run_rsync], up to the exit of the engine: [mkdir_p] raises, or the
    engine runs on the staging area and the block of promotion follows its
    exit status. *)
Lemma run_rsync_inv (w w' : world) (o : outcome bool) :
  run_rsync E config profile flags path w = (o, w') ->
  (exists e, mkdir_p target w = (Raise e, w') /\ o = Raise e) \/
  exists w1 kids k0,
    mkdir_p target w = (Ret tt, w1) /\
    dir_at (resolve (cwd w) base_dir) (fs w1) = Some kids /\
    kids !! "incomplete" = Some (Dir k0) /\
    let st := stats_of (map fst (map_to_list kids)) in
    let flags_now := flags_after config profile path (deref (heap w) flags) st.1.2 in
    let res := engine E (tick w) (command_of config profile path flags_now) k0 in
    let w2 := after_call config profile flags path w1 flags_now res.1
                (default (fs w1)
                   (alter_dir (resolve (cwd w) target) (fun _ => res.2) (fs w1))) in
    dir_at (resolve (cwd w) base_dir) (fs w2) = Some (<["incomplete" := Dir res.2]> kids) /\
    (forall q, is_prefix (resolve (cwd w) target) q = false ->
               is_prefix q (resolve (cwd w) target) = false ->
               lookup_path q (fs w2) = lookup_path q (fs w1)) /\
    if res.1 =? 0
    then exists o', promote E config base_dir st.1.1 st.2 w2 = (o', w') /\
                    o = match o' with Ret _ => Ret true | Raise e => Raise e end
    else o = Ret false /\ w' = w2.
Proof.
  unfold run_rsync. fold base_dir. fold target.
  intros [(e & Hmk & ->)|(u & w1 & Hmk & H)]%bind_inv; [left; eauto|]. right.
  destruct u.
  destruct (mkdir_p_Ret _ _ _ Hmk) as (Hne & Hcwd & Hheap & Htick & Htrace & [k0 Hk0] & Hframe).
  rewrite resolve_target in Hk0.
  apply dir_at_snoc in Hk0 as (kids & Hkids & Hinc).
  exists w1, kids, k0. split; [done|]. split; [done|]. split; [done|].
  cbv zeta.
  rewrite (bind_run _ _ _ _ _ (list_iadd_run _ _ _)) in H. cbv beta in H.
  set (wa := set_heap _ w1) in H.
  assert (backup_stats base_dir wa = (Ret (stats_of (map fst (map_to_list kids))), wa)) as Hbs.
  { apply backup_stats_run; [apply base_dir_nonempty|]. simpl. by rewrite Hcwd. }
  rewrite (bind_run _ _ _ _ _ Hbs) in H. cbv beta in H.
  destruct (stats_of (map fst (map_to_list kids))) as [[count newest] oldest] eqn:Hst.
  cbn [fst snd].
  rewrite (bind_run _ _ _ _ _ (list_iadd_run _ _ _)) in H. cbv beta in H.
  rewrite (bind_run _ _ _ _ _ (list_read_run _ _)) in H. cbv beta in H.
  rewrite (bind_run _ _ _ _ _ (subprocess_call_run E _ _)) in H. cbv beta zeta in H.
  subst wa. cbn [fst snd heap set_heap cwd fs tick] in H.
  rewrite ?Hheap, ?Hcwd, ?Htick, ?deref_store, ?store_store in H.
  change (["rsync"] ++ _ ++ [_; target])
    with (command_of config profile path
            (flags_after config profile path (deref (heap w) flags) newest)) in H.
  set (fl := flags_after config profile path (deref (heap w) flags) newest) in *.
  assert (List.last (command_of config profile path fl) "" = target) as Hlast.
  { unfold command_of. rewrite app_assoc. apply last_two. }
  rewrite Hlast, resolve_target in *.
  set (base := resolve (cwd w) base_dir) in *.
  assert (dir_at (base ++ ["incomplete"]) (fs w1) = Some k0) as Hstage.
  { apply dir_at_snoc. eauto. }
  rewrite Hstage in H. cbn [from_option id] in H.
  set (res := engine E (tick w) (command_of config profile path fl) k0) in *.
  destruct (alter_dir_is_Some (base ++ ["incomplete"]) (fun _ => res.2) _ _ Hstage)
    as [r2 Hr2].
  rewrite Hr2 in *. cbn [from_option id] in *.
  set (w2 := after_call config profile flags path w1 fl res.1 r2).
  replace (emit _ _) with w2 in H.
  2: { unfold w2, after_call, emit, next_tick, set_fs, set_heap.
       cbn [fs cwd heap tick trace]. by rewrite Hheap. }
  destruct (alter_dir_snoc _ _ _ _ _ Hr2) as (kids' & k0' & Hk1 & Hk2 & Hk3).
  assert (kids' = kids) as -> by congruence.
  assert (forall q, is_prefix (base ++ ["incomplete"]) q = false ->
                    is_prefix q (base ++ ["incomplete"]) = false ->
                    lookup_path q (fs w2) = lookup_path q (fs w1)) as Hfr.
  { intros q H1 H2. simpl. by apply (alter_dir_diverge _ _ _ _ _ Hr2). }
  split; [done|]. split; [done|].
  destruct (res.1 =? 0) eqn:Hrc.
  - apply bind_inv in H as [(e & Hp & ->)|([] & w3 & Hp & H)].
    + exists (Raise e). done.
    + unfold ret in H. simplify_eq. exists (Ret tt). done.
  - unfold bind, ret in H. simplify_eq. done.
Qed.

(** [run_rsync] that returns. *)
Lemma run_rsync_Ret (w w' : world) (b : bool) :
  run_rsync E config profile flags path w = (Ret b, w') ->
  exists w1 kids k0,
    mkdir_p target w = (Ret tt, w1) /\
    dir_at (resolve (cwd w) base_dir) (fs w1) = Some kids /\
    kids !! "incomplete" = Some (Dir k0) /\
    let st := stats_of (map fst (map_to_list kids)) in
    let flags_now := flags_after config profile path (deref (heap w) flags) st.1.2 in
    let res := engine E (tick w) (command_of config profile path flags_now) k0 in
    let w2 := after_call config profile flags path w1 flags_now res.1
                (default (fs w1)
                   (alter_dir (resolve (cwd w) target) (fun _ => res.2) (fs w1))) in
    b = (res.1 =? 0) /\
    dir_at (resolve (cwd w) base_dir) (fs w2) = Some (<["incomplete" := Dir res.2]> kids) /\
    (forall q, is_prefix (resolve (cwd w) target) q = false ->
               is_prefix q (resolve (cwd w) target) = false ->
               lookup_path q (fs w2) = lookup_path q (fs w1)) /\
    if b then promote E config base_dir st.1.1 st.2 w2 = (Ret tt, w')
    else w' = w2.
Proof.
  intros [(e & _ & ?)|(w1 & kids & k0 & Hmk & Hk & Hinc & H)]%run_rsync_inv; [done|].
  exists w1, kids, k0. split; [done|]. split; [done|]. split; [done|].
  cbv zeta in *. destruct H as (Hk2 & Hfr & H).
  destruct (_ =? 0).
  - destruct H as ([[]|e] & Hp & Ho); simplify_eq. done.
  - destruct H as [? ->]. simplify_eq. done.
Qed.

(** The block of promotion touches the file system, the working directory
    and the clock only. *)
Lemma promote_quiet (count : Z) (oldest : string) (w2 w' : world) (o : outcome unit) :
  promote E config base_dir count oldest w2 = (o, w') ->
  heap w' = heap w2 /\ trace w' = trace w2.
Proof.
  unfold promote, bind, try_except, os_getcwd, os_chdir, datetime_utcnow, os_rename,
    os_remove, os_symlink, fs_call, ret.
  intros H. repeat case_match; simplify_eq; done.
Qed.

(** The block after a successful run of the engine, call by call. *)
Lemma promote_Ret (count : Z) (oldest : string) (w2 w' : world) :
  promote E config base_dir count oldest w2 = (Ret tt, w') ->
  let base := resolve (cwd w2) base_dir in
  let t := strftime (clock E (tick w2)) in
  exists r3 r4 r5,
    is_Some (dir_at base (fs w2)) /\
    fs_rename (base ++ ["incomplete"]) (base ++ [t]) (fs w2) = inr r3 /\
    ((fs_remove (base ++ ["current"]) r3 = inr r4) \/ r4 = r3) /\
    fs_symlink t (base ++ ["current"]) r4 = inr r5 /\
    (if count >=? backup_count config
     then fs_rename (resolve base oldest)
            (resolve base (backup_path config +:+ "junk/" +:+ oldest)) r5
          = inr (fs w')
     else fs w' = r5) /\
    heap w' = heap w2 /\ tick w' = S (tick w2) /\ trace w' = trace w2 /\
    cwd w' = resolve base (render (cwd w2)).
Proof.
  unfold promote. intros H.
  apply bind_Ret in H as (c0 & wa & Hg & H). unfold os_getcwd in Hg. simplify_eq.
  apply bind_Ret in H as ([] & wb & Hcd & H).
  apply os_chdir_Ret in Hcd as (Hbase & ->).
  apply bind_Ret in H as (now & wc & Hnow & H).
  unfold datetime_utcnow in Hnow. simplify_eq.
  apply bind_Ret in H as ([] & wd & Hmv & H).
  apply os_rename_Ret in Hmv as (r3 & Hr3 & ->).
  cbn [cwd fs next_tick set_cwd set_fs tick] in *.
  rewrite (resolve_name _ "incomplete") in Hr3 by done.
  rewrite (resolve_name _ (strftime _)) in Hr3 by apply strftime_valid.
  apply bind_Ret in H as ([] & we & Hrm & H).
  assert (exists r4, ((fs_remove (resolve (cwd wa) base_dir ++ ["current"]) r3 = inr r4)
                      \/ r4 = r3) /\
                     we = set_fs r4 (next_tick (set_cwd (resolve (cwd wa) base_dir) wa)))
    as (r4 & Hr4 & ->).
  { unfold try_except, os_remove in Hrm.
    destruct (fs_call "current" fs_remove _) as [[[]|e] wx] eqn:Hc.
    - apply fs_call_Ret in Hc as (_ & r4 & Hr4 & ->). simplify_eq.
      cbn [cwd fs set_fs] in Hr4. rewrite (resolve_name _ "current") in Hr4 by done.
      exists r4. split; [by left|done].
    - apply fs_call_Raise in Hc as ->. unfold ret in Hrm. simplify_eq.
      exists r3. split; [by right|done]. }
  apply bind_Ret in H as ([] & wf & Hln & H).
  apply fs_call_Ret in Hln as (_ & r5 & Hr5 & ->).
  cbn [cwd fs next_tick set_cwd set_fs tick] in *.
  rewrite (resolve_name _ "current") in Hr5 by done.
  exists r3, r4, r5. split; [done|]. split; [done|]. split; [done|]. split; [done|].
  apply bind_Ret in H as ([] & wg & Hev & H).
  apply os_chdir_Ret in H as (_ & ->).
  destruct (count >=? backup_count config).
  - apply os_rename_Ret in Hev as (r6 & Hr6 & ->). done.
  - unfold ret in Hev. simplify_eq. done.
Qed.

(** The store when the link has been set, before the eviction. *)
Lemma promote_linked (count : Z) (oldest : string) (w2 w' : world)
    (kids2 : gmap string node) :
  promote E config base_dir count oldest w2 = (Ret tt, w') ->
  let base := resolve (cwd w2) base_dir in
  let t := strftime (clock E (tick w2)) in
  dir_at base (fs w2) = Some kids2 ->
  exists staged r5,
    kids2 !! "incomplete" = Some staged /\
    dir_at base r5 =
      Some (<["current" := Symlink t]> (<[t := staged]> (delete "incomplete" kids2))) /\
    (forall q, is_prefix base q = false -> is_prefix q base = false ->
               lookup_path q r5 = lookup_path q (fs w2)) /\
    (if count >=? backup_count config
     then fs_rename (resolve base oldest)
            (resolve base (backup_path config +:+ "junk/" +:+ oldest)) r5
          = inr (fs w')
     else fs w' = r5).
Proof.
  intros H base t Hk2.
  destruct (promote_Ret _ _ _ _ H) as (r3 & r4 & r5 & _ & Hr3 & Hr4 & Hr5 & Hev & _).
  fold base t in Hr3, Hr4, Hr5, Hev.
  assert ("incomplete" <> t) as Hit.
  { intros E'. pose proof (strftime_is_snapshot_name (clock E (tick w2))) as Hs.
    fold t in Hs. by rewrite <- E' in Hs. }
  destruct (fs_rename_same_dir _ _ _ _ _ Hr3 Hit) as (k & staged & Hk & Hst & Hk3 & Hf3).
  assert (k = kids2) as -> by congruence.
  exists staged, r5. split; [done|].
  set (k3 := <[t := staged]> (delete "incomplete" kids2)) in *.
  assert (dir_at base r4 = Some (delete "current" k3) /\
          forall q, is_prefix base q = false -> is_prefix q base = false ->
                    lookup_path q r4 = lookup_path q r3) as [Hk4 Hf4].
  { destruct Hr4 as [Hr4| ->].
    - destruct (fs_remove_inv _ _ _ _ Hr4) as (k & Hk' & _ & Ha).
      destruct (alter_dir_Some _ _ _ _ Ha) as (k' & Hk1 & Hk2').
      split; [congruence|]. intros q ? ?. by apply (alter_dir_diverge _ _ _ _ _ Ha).
    - destruct (fs_symlink_inv _ _ _ _ _ Hr5) as (k & Hk' & Hnone & _).
      assert (k = k3) as -> by congruence.
      by rewrite delete_id. }
  destruct (fs_symlink_inv _ _ _ _ _ Hr5) as (k & Hk' & _ & Ha5).
  assert (k = delete "current" k3) as -> by congruence.
  destruct (alter_dir_Some _ _ _ _ Ha5) as (k' & Hk1 & Hk5).
  assert (k' = delete "current" k3) as -> by congruence.
  rewrite insert_delete_eq in Hk5.
  split; [done|]. split; [|done].
  intros q H1 H2. rewrite (alter_dir_diverge _ _ _ _ _ Ha5 H1 H2).
  rewrite Hf4 by done. by apply Hf3.
Qed.

End RunRsync.

(** ** Listings as sets *)

Lemma map_fst_fmap {A} (l : list (string * A)) : map fst l = l.*1.
Proof. induction l as [|x l IH]; simpl; [done|]. by rewrite IH. Qed.

Lemma snapshot_entries_set (kids : gmap string node) :
  list_to_set (snapshot_entries (map fst (map_to_list kids)))
    = (filter (fun x => is_snapshot_name x = true) (dom kids) : gset string).
Proof.
  apply set_eq. intros x.
  rewrite elem_of_list_to_set, list_elem_of_In, elem_of_filter, elem_of_dom.
  unfold snapshot_entries. rewrite filter_In, <- list_elem_of_In, map_fst_fmap.
  rewrite list_elem_of_fmap. split.
  - intros [([y n] & -> & Hy%elem_of_map_to_list) ?]. simpl in *. eauto.
  - intros [? [n Hn]]. split; [|done]. exists (x, n). split; [done|].
    by apply elem_of_map_to_list.
Qed.

Lemma snapshot_entries_NoDup (kids : gmap string node) :
  NoDup (snapshot_entries (map fst (map_to_list kids))).
Proof.
  apply NoDup_ListNoDup, List.NoDup_filter, NoDup_ListNoDup.
  rewrite map_fst_fmap. apply NoDup_fst_map_to_list.
Qed.

Lemma snapshot_entries_length (kids : gmap string node) :
  List.length (snapshot_entries (map fst (map_to_list kids)))
    = size (filter (fun x => is_snapshot_name x = true) (dom kids) : gset string).
Proof.
  rewrite <- snapshot_entries_set.
  by rewrite size_list_to_set by apply snapshot_entries_NoDup.
Qed.

Lemma snapshot_entries_elem (kids : gmap string node) (x : string) :
  In x (snapshot_entries (map fst (map_to_list kids))) <->
  x ∈ (filter (fun x => is_snapshot_name x = true) (dom kids) : gset string).
Proof. by rewrite <- snapshot_entries_set, elem_of_list_to_set, list_elem_of_In. Qed.

Lemma names_at_entries (p : list string) (r : node) :
  names_at p r = dom (entries_at p r).
Proof.
  unfold names_at, entries_at. destruct (dir_at p r); simpl; [done|].
  by rewrite dom_empty_L.
Qed.

Lemma names_at_dir (p : list string) (r : node) (kids : gmap string node) :
  dir_at p r = Some kids -> names_at p r = dom kids.
Proof. unfold names_at. by intros ->. Qed.

Lemma snapshots_dir (p : list string) (r : node) (kids : gmap string node) :
  dir_at p r = Some kids ->
  snapshots p r = filter (fun x => is_snapshot_name x = true) (dom kids).
Proof. unfold snapshots. by intros ->%names_at_dir. Qed.

(** The statistics of a store with a staging area, in terms of the set of its
    snapshots. *)
Lemma stats_of_store (K0 : gmap string node) (staged : node) :
  let S0 : gset string := filter (fun x => is_snapshot_name x = true) (dom K0) in
  let st := stats_of (map fst (map_to_list (<["incomplete" := staged]> K0))) in
  st.1.1 = Z.of_nat (size S0) /\
  (st.1.2 = "" \/ st.1.2 ∈ S0) /\
  (forall x, x ∈ S0 -> str_le x st.1.2 = true) /\
  (st.2 = "Z" \/ st.2 ∈ S0) /\
  (forall x, x ∈ S0 -> str_le st.2 x = true).
Proof.
  intros S0 st.
  assert (filter (fun x => is_snapshot_name x = true)
            (dom (<["incomplete" := staged]> K0)) = S0) as HS.
  { unfold S0. rewrite dom_insert_L. apply set_eq. intros x.
    rewrite !elem_of_filter, elem_of_union, elem_of_singleton.
    split; [|by intros [? ?]; eauto]. intros [Hx [->|?]]; done. }
  destruct (stats_of_spec (map fst (map_to_list (<["incomplete" := staged]> K0))))
    as (Hc & Hn & Hmax & Ho & _ & Hmin).
  fold st in Hc, Hn, Hmax, Ho, Hmin.
  rewrite snapshot_entries_length, HS in Hc.
  setoid_rewrite snapshot_entries_elem in Hn.
  setoid_rewrite snapshot_entries_elem in Hmax.
  setoid_rewrite snapshot_entries_elem in Ho.
  setoid_rewrite snapshot_entries_elem in Hmin.
  rewrite HS in *. done.
Qed.

(** ** A synchronization that returns [True] *)

Lemma apart_diverge (store junk : list string) :
  apart store junk ->
  is_prefix store junk = false /\ is_prefix junk store = false /\
  is_prefix (store ++ ["incomplete"]) junk = false /\
  is_prefix junk (store ++ ["incomplete"]) = false.
Proof.
  intros [H1 H2]. repeat split; try done.
  - destruct (is_prefix junk store) eqn:H; [|done].
    by rewrite (is_prefix_trans _ _ _ H (is_prefix_app _ _)) in H2.
  - destruct (is_prefix (store ++ ["incomplete"]) junk) eqn:H; [|done].
    by rewrite (is_prefix_trans _ _ _ (is_prefix_app _ _) H) in H1.
Qed.

Lemma diverge_staging (base q : list string) :
  is_prefix base q = false -> is_prefix q base = false ->
  is_prefix (base ++ ["incomplete"]) q = false /\
  is_prefix q (base ++ ["incomplete"]) = false.
Proof.
  intros H1 H2. split.
  - destruct (is_prefix (base ++ ["incomplete"]) q) eqn:H; [|done].
    by rewrite (is_prefix_trans _ _ _ (is_prefix_app _ _) H) in H1.
  - destruct (is_prefix q (base ++ ["incomplete"])) eqn:H; [|done].
    apply is_prefix_snoc in H as [H| ->]; [congruence|].
    by rewrite is_prefix_app in H1.
Qed.

Section Success.

Variables (E : extern) (config : Config) (profile : Profile) (flags : listref)
  (path : string).

Local Abbreviation base_dir := (base_dir_of config profile path).

(** What a synchronization that returned [True] has done. [K0] is the store
    before; [r5] is the file system when the staging area has become the
    snapshot [t] and the link has been set; the eviction, if any, follows. *)
Lemma run_rsync_success (w w' : world) :
  run_rsync E config profile flags path w = (Ret true, w') ->
  let base := resolve (cwd w) base_dir in
  let t := strftime (clock E (S (tick w))) in
  let K0 := entries_at base (fs w) in
  exists k0 k r5,
    let st := stats_of (map fst (map_to_list (<["incomplete" := Dir k0]> K0))) in
    dir_at base r5 =
      Some (<["current" := Symlink t]> (<[t := Dir k]> (delete "incomplete" K0))) /\
    (forall q, is_prefix base q = false -> is_prefix q base = false ->
               lookup_path q r5 = lookup_path q (fs w)) /\
    (if st.1.1 >=? backup_count config
     then fs_rename (resolve base st.2)
            (resolve base (backup_path config +:+ "junk/" +:+ st.2)) r5
          = inr (fs w')
     else fs w' = r5).
Proof.
  intros H base t K0.
  destruct (run_rsync_Ret _ _ _ _ _ _ _ _ H)
    as (w1 & kids & k0 & Hmk & Hkids & Hinc & _ & Hk2 & Hf2 & Hp).
  destruct (mkdir_p_store _ _ _ _ _ Hmk) as (k0' & Hk1).
  fold base in Hkids, Hk2, Hk1. fold K0 in Hk1.
  assert (kids = <["incomplete" := Dir k0']> K0) as -> by congruence.
  destruct (mkdir_p_Ret _ _ _ Hmk) as (_ & Hcwd & _ & Htick & _ & _ & Hf1).
  cbv zeta in Hk2, Hf2, Hp.
  set (st := stats_of (map fst (map_to_list (<["incomplete" := Dir k0']> K0)))) in *.
  set (fl := flags_after config profile path (deref (heap w) flags) st.1.2) in *.
  set (res := engine E (tick w) (command_of config profile path fl) k0) in *.
  set (w2 := after_call config profile flags path w1 fl res.1 _) in *.
  rewrite resolve_target in Hf1, Hf2. fold base in Hf1, Hf2.
  assert (cwd w2 = cwd w) as Hcwd2 by done.
  assert (tick w2 = S (tick w)) as Htick2 by (simpl; congruence).
  pose proof (promote_linked _ _ _ _ _ _ _ _
                (<["incomplete" := Dir res.2]> (<["incomplete" := Dir k0']> K0)) Hp) as Hps.
  rewrite Hcwd2, Htick2 in Hps. fold base t in Hps.
  destruct (Hps Hk2) as (staged & r5 & Hst & Hk5 & Hf5 & Hev). clear Hps.
  rewrite lookup_insert_eq in Hst. simplify_eq.
  rewrite delete_insert_eq, delete_insert_eq in Hk5.
  exists k0', res.2, r5. fold st. cbv zeta.
  split; [done|]. split; [|done].
  intros q H1 H2. destruct (diverge_staging _ _ H1 H2) as [H3 H4].
  rewrite Hf5, Hf2 by done. by apply Hf1.
Qed.

End Success.

(** ** Traces of a run *)

Lemma calls_app (a b : list event) : calls (a ++ b) = calls a ++ calls b.
Proof. unfold calls. by rewrite flat_map_app. Qed.

Lemma rmtrees_app (a b : list event) : rmtrees (a ++ b) = rmtrees a ++ rmtrees b.
Proof. unfold rmtrees. by rewrite flat_map_app. Qed.

Section Traces.

Variables (E : extern) (config : Config).

(** The one event of [run_rsync] is the run of the engine; its exit status
    decides the value. *)
Lemma run_rsync_trace (profile : Profile) (flags : listref) (path : string)
    (w w' : world) (o : outcome bool) :
  run_rsync E config profile flags path w = (o, w') ->
  (trace w' = trace w /\ heap w' = heap w /\ exists e, o = Raise e) \/
  exists newest rc,
    let fl := flags_after config profile path (deref (heap w) flags) newest in
    trace w' = trace w ++ [EvCall (command_of config profile path fl) rc] /\
    heap w' = store flags fl (heap w) /\
    (rc <> 0 -> o = Ret false) /\
    (forall b, o = Ret b -> b = (rc =? 0)).
Proof.
  intros [(e & Hmk & ->)|(w1 & kids & k0 & Hmk & _ & _ & H)]%run_rsync_inv.
  { left. apply mkdir_p_quiet in Hmk as (_ & ? & _ & ?). eauto. }
  right. cbv zeta in H. destruct H as (_ & _ & H).
  apply mkdir_p_quiet in Hmk as (_ & Hheap & _ & Htrace).
  set (st := stats_of _) in *.
  set (fl := flags_after config profile path (deref (heap w) flags) st.1.2) in *.
  set (res := engine E (tick w) (command_of config profile path fl) k0) in *.
  exists st.1.2, res.1. fold fl. cbv zeta.
  destruct (res.1 =? 0) eqn:Hrc.
  - destruct H as (o' & Hp & ->). apply promote_quiet in Hp as [Hh Ht].
    rewrite Hh, Ht. simpl. rewrite Hheap, Htrace.
    apply Z.eqb_eq in Hrc. repeat split; try done.
    intros b. destruct o'; [|done]. by intros [= <-].
  - destruct H as [-> ->]. simpl. rewrite Hheap, Htrace.
    repeat split; try done. by intros b [= <-].
Qed.

(** The runs of the engine of one profile: one for each directory, in order;
    the value is the conjunction of the start value and the exits with
    status zero. *)
Lemma in_flags_after (profile : Profile) (path : string) (before : list string)
    (newest x : string) :
  In x before -> In x (flags_after config profile path before newest).
Proof. intros H. unfold flags_after. rewrite !in_app_iff. eauto. Qed.

Lemma in_command_of (profile : Profile) (path : string) (fl : list string) (x : string) :
  In x fl -> In x (command_of config profile path fl).
Proof. intros H. unfold command_of. rewrite !in_app_iff. eauto. Qed.

Lemma for_dirs_trace (profile : Profile) (flags : listref) (paths : list string)
    (success b : bool) (w w' : world) :
  for_dirs E config profile flags paths success w = (Ret b, w') ->
  exists cs,
    trace w' = trace w ++ map (fun c => EvCall c.1 c.2) cs /\
    Forall2 (fun path c => exists fl, c.1 = command_of config profile path fl) paths cs /\
    b = success && forallb (fun c => c.2 =? 0) cs /\
    (forall x, In x (deref (heap w) flags) ->
               In x (deref (heap w') flags) /\ Forall (fun c => In x c.1) cs).
Proof.
  revert success w. induction paths as [|path rest IH]; intros success w; simpl.
  { intros [= <- <-]. exists []. simpl. by rewrite app_nil_r, andb_true_r. }
  intros (ok & w1 & Hrun & Hrest)%bind_Ret.
  destruct (run_rsync_trace _ _ _ _ _ _ Hrun)
    as [(_ & _ & e & ?)|(newest & rc & Ht & Hh & _ & Hb)]; [done|].
  destruct (IH _ _ Hrest) as (cs & Ht' & Hall & Hb' & Hfl).
  eexists ((_, rc) :: cs). split; [|split; [|split]].
  - rewrite Ht', Ht, <- app_assoc. done.
  - constructor; [by eexists|done].
  - rewrite Hb', (Hb ok eq_refl). simpl. by destruct (rc =? 0), success.
  - intros x Hx.
    assert (In x (deref (heap w1) flags)) as Hx1.
    { rewrite Hh, deref_store. by apply in_flags_after. }
    destruct (Hfl x Hx1) as [? ?]. split; [done|].
    constructor; [|done]. simpl. by apply in_command_of, in_flags_after.
Qed.

Lemma for_profiles_trace (flags : listref) (ps : list Profile)
    (success b : bool) (w w' : world) :
  for_profiles E config flags ps success w = (Ret b, w') ->
  exists cs,
    trace w' = trace w ++ map (fun c => EvCall c.1 c.2) cs /\
    Forall2 (fun tg c => exists fl, c.1 = command_of config tg.1 tg.2 fl) (targets ps) cs /\
    b = success && forallb (fun c => c.2 =? 0) cs /\
    (forall x, In x (deref (heap w) flags) ->
               In x (deref (heap w') flags) /\ Forall (fun c => In x c.1) cs).
Proof.
  revert success w. induction ps as [|p rest IH]; intros success w; simpl.
  { intros [= <- <-]. exists []. simpl. by rewrite app_nil_r, andb_true_r. }
  intros (s1 & w1 & Hdirs & Hrest)%bind_Ret.
  destruct (for_dirs_trace _ _ _ _ _ _ _ Hdirs) as (cs1 & Ht1 & Hall1 & Hb1 & Hfl1).
  destruct (IH _ _ Hrest) as (cs2 & Ht2 & Hall2 & Hb2 & Hfl2).
  exists (cs1 ++ cs2). split; [|split; [|split]].
  - by rewrite Ht2, Ht1, map_app, app_assoc.
  - unfold targets. simpl. apply Forall2_app; [|done].
    apply Forall2_fmap_l. exact Hall1.
  - rewrite Hb2, Hb1, forallb_app. by rewrite andb_assoc.
  - intros x Hx. destruct (Hfl1 x Hx) as [Hx1 Hc1].
    destruct (Hfl2 x Hx1) as [Hx2 Hc2]. split; [done|]. by apply Forall_app.
Qed.

(** The main block that returns: the flags are built, the junk directory is
    made, the loops run, the mail (if any) leaves, the junk directory goes. *)
Lemma main_Ret (args : Args) (w w' : world) (b : bool) :
  main E config args w = (Ret b, w') ->
  exists wa wb wc,
    trace wa = trace w /\
    (arg_dry args = true -> In "-n" (deref (heap wa) ref_rsync_flags)) /\
    for_profiles E config ref_rsync_flags (profiles config) true wa = (Ret b, wb) /\
    ((trace wc = trace wb /\ truthy (arg_email args) = false) \/
     (exists to subject, trace wc = trace wb ++ [EvSendmail to subject])) /\
    shutil_rmtree (junk_dir_of config) wc = (Ret tt, w').
Proof.
  unfold main.
  intros ([] & w1 & H1 & H)%bind_Ret.
  apply bind_Ret in H as ([] & w2 & H2 & H).
  apply bind_Ret in H as ([] & w3 & H3 & H).
  apply bind_Ret in H as ([] & wa & Hmk & H).
  apply bind_Ret in H as (s & wb & Hloop & H).
  apply bind_Ret in H as ([] & wc & Hmail & H).
  apply bind_Ret in H as ([] & wd & Hrm & H).
  unfold ret in H. simplify_eq.
  exists wa, wb, wc. split; [|split; [|split; [done|split; [|done]]]].
  - apply mkdir_p_quiet in Hmk as (_ & _ & _ & ->).
    assert (trace w1 = trace w) as <-.
    { destruct (excludes config); unfold list_iadd, ret in H1; by simplify_eq. }
    assert (trace w2 = trace w1) as <-.
    { destruct (arg_verbose args); unfold bind, list_read, list_iadd, ret in H2;
        by simplify_eq. }
    destruct (arg_dry args); unfold list_iadd, ret in H3; by simplify_eq.
  - intros Hdry. rewrite Hdry in H3.
    apply mkdir_p_quiet in Hmk as (_ & -> & _ & _).
    unfold list_iadd in H3. simplify_eq. simpl. apply in_app_iff. right. by left.
  - destruct (truthy (arg_email args)).
    + destruct (email config) as [login|]; [|done].
      unfold send_email in Hmail. destruct (smtp E _ _); [|done].
      simplify_eq. right. eauto.
    + unfold ret in Hmail. simplify_eq. by left.
Qed.

Lemma calls_of_map (cs : list (list string * Z)) :
  calls (map (fun c => EvCall c.1 c.2) cs) = cs.
Proof. induction cs as [|[a rc] cs IH]; simpl; [done|]. by rewrite IH. Qed.

Lemma rmtrees_of_map (cs : list (list string * Z)) :
  rmtrees (map (fun c => EvCall c.1 c.2) cs) = [].
Proof. by induction cs. Qed.

(** The runs of the engine in a main block that returns. *)
Lemma main_calls (args : Args) (w w' : world) (b : bool) :
  main E config args w = (Ret b, w') ->
  exists cs,
    calls (trace w') = calls (trace w) ++ cs /\
    Forall2 (fun tg c => exists fl, c.1 = command_of config tg.1 tg.2 fl)
      (targets (profiles config)) cs /\
    b = forallb (fun c => c.2 =? 0) cs /\
    (arg_dry args = true -> Forall (fun c => In "-n" c.1) cs).
Proof.
  intros Hmain.
  destruct (main_Ret _ _ _ _ Hmain) as (wa & wb & wc & Ha & Hdry & Hloop & Hmail & Hrm).
  destruct (for_profiles_trace _ _ _ _ _ _ Hloop) as (cs & Ht & Hall & Hb & Hfl).
  exists cs. split; [|split; [done|split; [done|]]].
  - unfold shutil_rmtree in Hrm. destruct (String.eqb _ _); [done|].
    destruct (fs_rmtree _ _); [done|]. injection Hrm as <-. simpl.
    rewrite calls_app. simpl. rewrite app_nil_r.
    assert (calls (trace wc) = calls (trace wb)) as ->.
    { destruct Hmail as [[-> _]|(to & subj & ->)]; [done|].
      rewrite calls_app. simpl. by rewrite app_nil_r. }
    by rewrite Ht, Ha, calls_app, calls_of_map.
  - intros Hd. by apply (Hfl "-n"), Hdry.
Qed.

End Traces.

(** ** Runs that differ in the flag [-n] only *)

Lemma without_dry_app (a b : list string) :
  without_dry (a ++ b) = without_dry a ++ without_dry b.
Proof. apply List.filter_app. Qed.

Lemma same_outside_refl (w : world) : same_outside w w.
Proof. by repeat split. Qed.

Lemma sim_ret {A} (R : A -> A -> Prop) (a1 a2 : A) :
  R a1 a2 -> sim R (ret a1) (ret a2).
Proof. by intros H w1 w2 Hw. Qed.

Lemma sim_raise {A} (R : A -> A -> Prop) (e : exn) : sim R (raise e) (raise e).
Proof. by intros w1 w2 Hw. Qed.

Lemma sim_bind {A B} (R : A -> A -> Prop) (R' : B -> B -> Prop)
    (m1 m2 : M A) (k1 k2 : A -> M B) :
  sim R m1 m2 -> (forall a1 a2, R a1 a2 -> sim R' (k1 a1) (k2 a2)) ->
  sim R' (bind m1 k1) (bind m2 k2).
Proof.
  intros Hm Hk w1 w2 Hw. specialize (Hm w1 w2 Hw). unfold bind.
  destruct (m1 w1) as [[a1|e1] w1'], (m2 w2) as [[a2|e2] w2']; try done.
  destruct Hm as [HR Hw']. by apply Hk.
Qed.

Lemma sim_try_except {A} (R : A -> A -> Prop) (m1 m2 : M A) (h1 h2 : exn -> M A) :
  sim R m1 m2 -> (forall e, sim R (h1 e) (h2 e)) ->
  sim R (try_except m1 h1) (try_except m2 h2).
Proof.
  intros Hm Hh w1 w2 Hw. specialize (Hm w1 w2 Hw). unfold try_except.
  destruct (m1 w1) as [[a1|e1] w1'], (m2 w2) as [[a2|e2] w2']; try done.
  destruct Hm as [-> Hw']. by apply Hh.
Qed.

Lemma sim_weaken {A} (R R' : A -> A -> Prop) (m1 m2 : M A) :
  (forall a1 a2, R a1 a2 -> R' a1 a2) -> sim R m1 m2 -> sim R' m1 m2.
Proof.
  intros HR Hm w1 w2 Hw. specialize (Hm w1 w2 Hw).
  destruct (m1 w1) as [[a1|e1] w1'], (m2 w2) as [[a2|e2] w2']; try done.
  destruct Hm. eauto.
Qed.

(** A call that reads nothing but the file system, the working directory and
    the clock. *)
Ltac sim_prim :=
  let w1 := fresh "w1" in let w2 := fresh "w2" in
  intros w1 w2 (Hfs & Hcwd & Htick & Hheap);
  destruct w1, w2; simpl in Hfs, Hcwd, Htick, Hheap; subst;
  cbv beta delta [fs_call os_rename os_chdir os_listdir os_path_isdir os_getcwd
                  shutil_rmtree datetime_utcnow list_iadd list_read send_email
                  set_fs set_cwd set_heap next_tick emit same_outside
                  fs cwd heap tick trace];
  cbn beta iota;
  repeat case_match; simplify_eq; done.

Lemma sim_fs_call (s : string) op : sim eq (fs_call s op) (fs_call s op).
Proof. sim_prim. Qed.

Lemma sim_os_rename (a b : string) : sim eq (os_rename a b) (os_rename a b).
Proof. sim_prim. Qed.

Lemma sim_os_chdir (s : string) : sim eq (os_chdir s) (os_chdir s).
Proof. sim_prim. Qed.

Lemma sim_os_listdir (s : string) : sim eq (os_listdir s) (os_listdir s).
Proof. sim_prim. Qed.

Lemma sim_os_path_isdir (s : string) : sim eq (os_path_isdir s) (os_path_isdir s).
Proof. sim_prim. Qed.

Lemma sim_os_getcwd : sim eq os_getcwd os_getcwd.
Proof. sim_prim. Qed.

Lemma sim_shutil_rmtree (s : string) : sim eq (shutil_rmtree s) (shutil_rmtree s).
Proof. sim_prim. Qed.

Lemma sim_list_iadd (r : listref) (xs ys : list string) :
  without_dry xs = without_dry ys ->
  sim (fun _ _ => True) (list_iadd r xs) (list_iadd r ys).
Proof.
  intros Hxs w1 w2 (Hfs & Hcwd & Htick & Hheap). unfold list_iadd.
  split; [done|]. split; [done|]. split; [done|]. split; [done|].
  intros r'. pose proof (Hheap ref_rsync_flags). pose proof (Hheap ref_rsync_flags_verbose).
  destruct r, r'; simpl in *; rewrite ?without_dry_app; congruence.
Qed.

(** [-n] at the end of a list is a difference the relation allows. *)
Lemma sim_list_iadd_dry (r : listref) :
  sim (fun _ _ => True) (list_iadd r ["-n"]) (ret tt).
Proof.
  intros w1 w2 (Hfs & Hcwd & Htick & Hheap). unfold list_iadd, ret.
  split; [done|]. split; [done|]. split; [done|]. split; [done|].
  intros r'. pose proof (Hheap ref_rsync_flags). pose proof (Hheap ref_rsync_flags_verbose).
  destruct r, r'; simpl in *; rewrite ?without_dry_app, ?app_nil_r; congruence.
Qed.

Lemma sim_list_read (r : listref) :
  sim (fun l1 l2 => without_dry l1 = without_dry l2) (list_read r) (list_read r).
Proof. intros w1 w2 Hw. unfold list_read. split; [apply Hw|done]. Qed.

Lemma sim_mkdir_p (s : string) : sim eq (mkdir_p s) (mkdir_p s).
Proof.
  unfold mkdir_p. apply sim_try_except; [apply sim_fs_call|].
  intros [e| |]; try apply sim_raise.
  eapply sim_bind; [apply sim_os_path_isdir|]. intros d ? <-.
  destruct (_ && _); [by apply sim_ret|apply sim_raise].
Qed.

Lemma sim_backup_stats (s : string) : sim eq (backup_stats s) (backup_stats s).
Proof.
  unfold backup_stats. eapply sim_bind; [apply sim_os_listdir|].
  intros l ? <-. by apply sim_ret.
Qed.

Section Sim.

Variable E : extern.

(** The engine does not act on [-n]: it answers as it does to the arguments
    without the flag. *)
Hypothesis engine_deaf :
  forall n argv before,
    engine E n argv before = engine E n (without_dry argv) before.

Lemma sim_datetime_utcnow : sim eq (datetime_utcnow E) (datetime_utcnow E).
Proof. sim_prim. Qed.

Lemma sim_send_email (login : Login) (to subject : string) :
  sim eq (send_email E login to subject) (send_email E login to subject).
Proof. sim_prim. Qed.

Lemma sim_subprocess_call (a1 a2 : list string) :
  without_dry a1 = without_dry a2 ->
  List.last a1 "" = List.last a2 "" ->
  sim eq (subprocess_call E a1) (subprocess_call E a2).
Proof.
  intros Hsame Hlast w1 w2 (Hfs & Hcwd & Htick & Hheap).
  rewrite !subprocess_call_run. cbv zeta.
  rewrite Hlast, Hfs, Hcwd, Htick.
  rewrite (engine_deaf (tick w2) a1), (engine_deaf (tick w2) a2), Hsame.
  split; [done|].
  unfold same_outside. simpl. by rewrite Hcwd, Htick.
Qed.

Lemma sim_run_rsync (config : Config) (profile : Profile) (flags : listref)
    (path : string) :
  sim eq (run_rsync E config profile flags path)
         (run_rsync E config profile flags path).
Proof.
  unfold run_rsync.
  eapply sim_bind; [apply sim_mkdir_p|]. intros _ _ _.
  eapply sim_bind; [by apply sim_list_iadd|]. intros _ _ _.
  eapply sim_bind; [apply sim_backup_stats|]. intros [[c n] o] ? <-.
  eapply sim_bind; [by apply sim_list_iadd|]. intros _ _ _.
  eapply sim_bind; [apply sim_list_read|]. intros f1 f2 Hf.
  eapply sim_bind.
  { apply sim_subprocess_call.
    - rewrite !without_dry_app. by rewrite Hf.
    - rewrite !app_assoc. by rewrite !last_two. }
  intros rc ? <-.
  apply (sim_bind (fun _ _ => True)); [|intros; by apply sim_ret].
  destruct (rc =? 0); [|by apply sim_ret].
  eapply sim_bind; [apply sim_os_getcwd|]. intros d ? <-.
  eapply sim_bind; [apply sim_os_chdir|]. intros _ _ _.
  eapply sim_bind; [apply sim_datetime_utcnow|]. intros now ? <-.
  eapply sim_bind; [apply sim_os_rename|]. intros _ _ _.
  eapply sim_bind.
  { apply sim_try_except; [apply sim_fs_call|]. intros e. by apply sim_ret. }
  intros _ _ _.
  eapply sim_bind; [apply sim_fs_call|]. intros _ _ _.
  eapply sim_weaken; [done|].
  apply (sim_bind eq); [|intros; apply sim_os_chdir].
  destruct (_ >=? _); [apply sim_os_rename|by apply sim_ret].
Qed.

Lemma sim_for_dirs (config : Config) (profile : Profile) (flags : listref)
    (paths : list string) (success : bool) :
  sim eq (for_dirs E config profile flags paths success)
         (for_dirs E config profile flags paths success).
Proof.
  revert success. induction paths as [|p rest IH]; intros success; simpl.
  { by apply sim_ret. }
  eapply sim_bind; [apply sim_run_rsync|]. intros ok ? <-. apply IH.
Qed.

Lemma sim_for_profiles (config : Config) (flags : listref) (ps : list Profile)
    (success : bool) :
  sim eq (for_profiles E config flags ps success)
         (for_profiles E config flags ps success).
Proof.
  revert success. induction ps as [|p rest IH]; intros success; simpl.
  { by apply sim_ret. }
  eapply sim_bind; [apply sim_for_dirs|]. intros ok ? <-. apply IH.
Qed.

(** The main block with and without [--dry]. *)
Lemma sim_main (config : Config) (args args' : Args) :
  arg_verbose args = arg_verbose args' -> arg_email args = arg_email args' ->
  sim eq (main E config args) (main E config args').
Proof.
  intros Hv He. unfold main. rewrite Hv, He.
  apply (sim_bind (fun _ _ => True)).
  { destruct (excludes config); [by apply sim_list_iadd|by apply sim_ret]. }
  intros _ _ _. apply (sim_bind (fun _ _ => True)).
  { destruct (arg_verbose args'); [|by apply sim_ret].
    eapply sim_bind; [apply sim_list_read|]. intros ? ? Hl. by apply sim_list_iadd. }
  intros _ _ _. apply (sim_bind (fun _ _ => True)).
  { destruct (arg_dry args), (arg_dry args').
    - by apply sim_list_iadd.
    - apply sim_list_iadd_dry.
    - intros w1 w2 Hw.
      pose proof (sim_list_iadd_dry ref_rsync_flags w2 w1) as H.
      destruct Hw as (Hfs & Hcwd & Htick & Hheap).
      assert (same_outside w2 w1) as Hw' by (by repeat split).
      specialize (H Hw'). simpl in *. destruct H as (_ & ? & ? & ? & ?).
      by repeat split.
    - by apply sim_ret. }
  intros _ _ _. apply (sim_bind eq); [apply sim_mkdir_p|]. intros _ _ _.
  apply (sim_bind eq); [apply sim_for_profiles|]. intros ok ? <-.
  apply (sim_bind eq).
  { destruct (truthy _); [|by apply sim_ret].
    destruct (email config); [apply sim_send_email|apply sim_raise]. }
  intros _ _ _. apply (sim_bind eq); [apply sim_shutil_rmtree|].
  intros _ _ _. by apply sim_ret.
Qed.

End Sim.

(** ** C9: snapshot names and the order of time *)

Lemma valid_t_midnight : valid_datetime t_midnight.
Proof. repeat split; by vm_compute. Defined.

Lemma valid_t_midnight_later : valid_datetime t_midnight_later.
Proof. repeat split; by vm_compute. Defined.

Lemma valid_t_next_second : valid_datetime t_next_second.
Proof. repeat split; by vm_compute. Defined.

(** C9, as stated, fails: two readings of the clock within one second are
    ordered as times and get the same name. *)
Lemma snapshot_name_not_strictly_monotone :
  ~ (forall t1 t2 : datetime,
       valid_datetime t1 -> valid_datetime t2 ->
       1000 <= year t1 -> 1000 <= year t2 ->
       dt_lt t1 t2 = true ->
       str_lt (strftime t1) (strftime t2) = true).
Proof.
  intros H.
  specialize (H t_midnight t_midnight_later valid_t_midnight valid_t_midnight_later).
  vm_compute in H. by specialize (H ltac:(done) ltac:(done) eq_refl).
Qed.

(** C9, amended: for times of a four-digit year, the order of the names is the
    order of the times cut to the second. A time earlier by a different second
    has the smaller name, an earlier time never has the greater name, and a
    smaller name is the name of an earlier time. *)
Theorem snapshot_name_monotone (t1 t2 : datetime) :
  valid_datetime t1 -> valid_datetime t2 ->
  1000 <= year t1 -> 1000 <= year t2 ->
  str_lt (strftime t1) (strftime t2) = lex_lt (dt_seconds t1) (dt_seconds t2) /\
  (dt_lt t1 t2 = true -> str_le (strftime t1) (strftime t2) = true) /\
  (str_lt (strftime t1) (strftime t2) = true -> dt_lt t1 t2 = true).
Proof.
  intros V1 V2 Y1 Y2.
  pose proof (strftime_compare t1 t2 V1 V2 Y1 Y2) as Hc.
  assert (lex_compare (dt_fields t1) (dt_fields t2) =
          match lex_compare (dt_seconds t1) (dt_seconds t2) with
          | Eq => (microsecond t1 ?= microsecond t2)
          | c => c
          end) as Hf.
  { change (dt_fields t1) with (dt_seconds t1 ++ [microsecond t1]).
    change (dt_fields t2) with (dt_seconds t2 ++ [microsecond t2]).
    by apply lex_compare_prefix. }
  unfold dt_lt, str_lt, str_le, String.ltb, String.leb.
  rewrite !lex_lt_compare, Hf, Hc.
  by destruct (lex_compare (dt_seconds t1) (dt_seconds t2)).
Qed.

Lemma snapshot_name_monotone_witness :
  str_lt (strftime t_midnight) (strftime t_next_second)
    = lex_lt (dt_seconds t_midnight) (dt_seconds t_next_second) /\
  (dt_lt t_midnight t_next_second = true ->
   str_le (strftime t_midnight) (strftime t_next_second) = true) /\
  (str_lt (strftime t_midnight) (strftime t_next_second) = true ->
   dt_lt t_midnight t_next_second = true).
Proof.
  apply (snapshot_name_monotone t_midnight t_next_second
           valid_t_midnight valid_t_next_second); by vm_compute.
Defined.

(** ** C4: the statistics of a store without snapshots *)

(** C4, as stated, fails: for a store with the staging area and the link
    only, the oldest name is ["Z"], the start value of the search for the
    least name, not the empty string. *)
Lemma empty_store_oldest_is_not_empty :
  (backup_stats "/store/" ex_no_snapshot).1 = Ret (0, "", "Z") /\
  stats_of ["incomplete"; "current"] <> (0, "", "").
Proof. vm_compute. split; [reflexivity|discriminate]. Qed.

(** ** Retention *)

Lemma snapshots_promoted (K0 : gmap string node) (t : string) (a b : node) :
  is_snapshot_name t = true ->
  (filter (fun x => is_snapshot_name x = true)
     (dom (<["current" := a]> (<[t := b]> (delete "incomplete" K0)))) : gset string)
  = filter (fun x => is_snapshot_name x = true) (dom K0) ∪ {[t]}.
Proof.
  intros Ht. rewrite !dom_insert_L, dom_delete_L. apply set_eq. intros x.
  rewrite elem_of_union, !elem_of_filter, !elem_of_union, elem_of_difference,
    !elem_of_singleton.
  split.
  - intros [Hx [->|[->|[? ?]]]]; eauto. done.
  - intros [[? ?]| ->]; [|by eauto].
    split; [done|]. right. right. split; [done|]. by intros ->.
Qed.

Lemma snapshots_evicted (k5 : gmap string node) (o : string) :
  (filter (fun x => is_snapshot_name x = true) (dom (delete o k5)) : gset string)
  = filter (fun x => is_snapshot_name x = true) (dom k5) ∖ {[o]}.
Proof.
  rewrite dom_delete_L. apply set_eq. intros x.
  rewrite elem_of_difference, !elem_of_filter, elem_of_difference.
  split; [by intros [? [? ?]]|by intros [[? ?] ?]].
Qed.

(** The retention of a synchronization that returns [True], of a store that
    lies apart from the junk directory of an absolute backup path and holds
    file names: when the count of snapshots before the run reaches the cap,
    the snapshot with the least name, and no other, leaves the store and
    enters the junk directory as it was, and the other snapshots stay as
    they were; below the cap nothing is evicted, the snapshots stay as they
    were and the store ends with one snapshot more (the new name being
    new). *)
Lemma retention_contract (E : extern) (config : Config) (profile : Profile)
    (flags : listref) (path : string) (w w' : world) :
  let base := resolve (cwd w) (base_dir_of config profile path) in
  let junk := resolve (cwd w) (junk_dir_of config) in
  let t := strftime (clock E (S (tick w))) in
  let S0 := snapshots base (fs w) in
  is_absolute (backup_path config) = true ->
  apart base junk ->
  (forall x, x ∈ S0 -> valid_name x = true) ->
  run_rsync E config profile flags path w = (Ret true, w') ->
  if Z.of_nat (size S0) >=? backup_count config
  then exists o, o ∈ S0 /\ (forall x, x ∈ S0 -> str_le o x = true) /\
         snapshots base (fs w') = (S0 ∪ {[t]}) ∖ {[o]} /\
         names_at junk (fs w') = names_at junk (fs w) ∪ {[o]} /\
         (o <> t ->
          lookup_path (junk ++ [o]) (fs w') = lookup_path (base ++ [o]) (fs w)) /\
         (forall x, x ∈ S0 -> x <> o -> x <> t ->
            lookup_path (base ++ [x]) (fs w') = lookup_path (base ++ [x]) (fs w))
  else snapshots base (fs w') = S0 ∪ {[t]} /\
       names_at junk (fs w') = names_at junk (fs w) /\
       (t ∉ S0 -> size (snapshots base (fs w')) = S (size S0)) /\
       (forall x, x ∈ S0 -> x <> t ->
          lookup_path (base ++ [x]) (fs w') = lookup_path (base ++ [x]) (fs w)).
Proof.
  intros base junk t S0 Habs Hap Hvalid Hrun.
  destruct (run_rsync_success _ _ _ _ _ _ _ Hrun) as (k0 & k & r5 & Hk5 & Hf5 & Hev).
  fold base t in Hk5, Hf5, Hev.
  set (K0 := entries_at base (fs w)) in *.
  assert (S0 = filter (fun x => is_snapshot_name x = true) (dom K0)) as HS0.
  { unfold S0, snapshots. by rewrite names_at_entries. }
  destruct (stats_of_store K0 (Dir k0)) as (Hc & _ & _ & Ho & Hmin).
  rewrite <- HS0 in Hc, Ho, Hmin.
  set (st := stats_of (map fst (map_to_list (<["incomplete" := Dir k0]> K0)))) in *.
  rewrite Hc in Hev.
  pose proof (strftime_is_snapshot_name (clock E (S (tick w)))) as Ht. fold t in Ht.
  destruct (apart_diverge _ _ Hap) as (A1 & A2 & _).
  assert (dir_at junk r5 = dir_at junk (fs w)) as Hj5.
  { unfold dir_at. by rewrite Hf5. }
  assert (forall x, lookup_path (base ++ [x]) (fs w) = K0 !! x) as Hold.
  { intros x. rewrite lookup_path_snoc. unfold K0, entries_at.
    by destruct (dir_at base (fs w)). }
  assert (forall x, x ∈ S0 -> x <> "current" /\ x <> "incomplete") as Hsnap.
  { intros x Hx. rewrite HS0 in Hx. apply elem_of_filter in Hx as [Hx _].
    split; by intros ->. }
  destruct (Z.of_nat (size S0) >=? backup_count config).
  - assert (valid_name st.2 = true) as Hv.
    { destruct Ho as [->|Ho]; [done|]. by apply Hvalid. }
    rewrite (resolve_name _ _ Hv), (resolve_junk_path _ _ _ Hv) in Hev.
    rewrite (resolve_absolute base (cwd w)) in Hev by by apply junk_dir_absolute.
    fold junk in Hev.
    destruct (fs_rename_across _ _ _ _ _ _ Hev A1 A2)
      as (k' & n & jk & Hkb & Hn & Hjk & Hb & Hj).
    rewrite Hk5 in Hkb. injection Hkb as <-. rewrite Hj5 in Hjk.
    exists st.2. split; [|split; [done|split; [|split; [|split]]]].
    + destruct Ho as [Ho|Ho]; [|done].
      rewrite Ho in Hn.
      rewrite lookup_insert_ne in Hn by done.
      rewrite lookup_insert_ne in Hn.
      2: { intros Et. by apply (strftime_not_Z (clock E (S (tick w)))). }
      rewrite lookup_delete_ne in Hn by done.
      rewrite Ho, HS0. apply elem_of_filter. split; [done|].
      apply elem_of_dom. eauto.
    + rewrite (snapshots_dir _ _ _ Hb), snapshots_evicted, snapshots_promoted by done.
      by rewrite HS0.
    + rewrite (names_at_dir _ _ _ Hj), (names_at_dir _ _ _ Hjk), dom_insert_L.
      by rewrite (comm_L (∪)).
    + intros Hot. rewrite lookup_path_snoc, Hj, lookup_insert_eq, Hold, <- Hn.
      assert (st.2 <> "current" /\ st.2 <> "incomplete") as [? ?].
      { destruct Ho as [->|Ho]; [done|]. by apply Hsnap. }
      by rewrite !lookup_insert_ne, lookup_delete_ne.
    + intros x Hx Hxo Hxt. destruct (Hsnap x Hx) as [? ?].
      rewrite lookup_path_snoc, Hb, Hold.
      by rewrite lookup_delete_ne, !lookup_insert_ne, lookup_delete_ne.
  - subst r5.
    assert (snapshots base (fs w') = S0 ∪ {[t]}) as HS'.
    { rewrite (snapshots_dir _ _ _ Hk5), snapshots_promoted by done. by rewrite HS0. }
    split; [done|]. split; [|split].
    + unfold names_at. by rewrite Hj5.
    + intros Hfresh. rewrite HS', size_union, size_singleton.
      * lia.
      * by apply disjoint_singleton_r.
    + intros x Hx Hxt. destruct (Hsnap x Hx) as [? ?].
      rewrite lookup_path_snoc, Hk5, Hold.
      by rewrite !lookup_insert_ne, lookup_delete_ne.
Qed.

(** ** C6: the link [current] *)

(** After a synchronization that returned [True]: the link and the new
    snapshot. *)
Lemma sync_promotes (E : extern) (config : Config) (profile : Profile)
    (flags : listref) (path : string) (w w' : world) :
  let base := resolve (cwd w) (base_dir_of config profile path) in
  let t := strftime (clock E (S (tick w))) in
  let S0 := snapshots base (fs w) in
  (forall x, x ∈ S0 -> valid_name x = true) ->
  run_rsync E config profile flags path w = (Ret true, w') ->
  lookup_path (base ++ ["current"]) (fs w') = Some (Symlink t) /\
  (t ∉ S0 -> is_Some (dir_at (base ++ [t]) (fs w'))).
Proof.
  intros base t S0 Hvalid Hrun.
  destruct (run_rsync_success _ _ _ _ _ _ _ Hrun) as (k0 & k & r5 & Hk5 & Hf5 & Hev).
  fold base t in Hk5, Hf5, Hev.
  set (K0 := entries_at base (fs w)) in *.
  assert (S0 = filter (fun x => is_snapshot_name x = true) (dom K0)) as HS0.
  { unfold S0, snapshots. by rewrite names_at_entries. }
  destruct (stats_of_store K0 (Dir k0)) as (_ & _ & _ & Ho & _).
  rewrite <- HS0 in Ho.
  set (st := stats_of (map fst (map_to_list (<["incomplete" := Dir k0]> K0)))) in *.
  pose proof (strftime_is_snapshot_name (clock E (S (tick w)))) as Ht. fold t in Ht.
  assert (lookup_path (base ++ ["current"]) r5 = Some (Symlink t)) as Hcur.
  { by rewrite lookup_path_snoc, Hk5, lookup_insert_eq. }
  assert (t <> "current") as Htc by (by intros E'; rewrite E' in Ht).
  assert (dir_at (base ++ [t]) r5 = Some k) as Hsnap.
  { apply dir_at_snoc. eexists. split; [done|].
    by rewrite lookup_insert_ne, lookup_insert_eq. }
  split.
  - destruct (st.1.1 >=? backup_count config); [|by subst r5].
    assert (valid_name st.2 = true) as Hv.
    { destruct Ho as [->|Ho]; [done|]. by apply Hvalid. }
    rewrite (resolve_name _ _ Hv), (resolve_junk_path _ _ _ Hv) in Hev.
    apply (fs_rename_keeps_leaf _ _ _ _ _ _ Hev Hcur); [done| |].
    + destruct (is_prefix _ _) eqn:Hp; [|done].
      apply is_prefix_spec in Hp as [s Hs]. rewrite <- app_assoc in Hs.
      apply app_inv_head in Hs. simpl in Hs. injection Hs as Hs _.
      destruct Ho as [Ho|Ho]; [congruence|].
      rewrite HS0 in Ho. apply elem_of_filter in Ho as [Ho _]. by rewrite <- Hs in Ho.
    + intros [_ Hs]%app_inj_tail.
      destruct Ho as [Ho|Ho]; [congruence|].
      rewrite HS0 in Ho. apply elem_of_filter in Ho as [Ho _]. by rewrite Hs in Ho.
  - intros Hfresh.
    destruct (st.1.1 >=? backup_count config); [|subst r5; eauto].
    assert (valid_name st.2 = true) as Hv.
    { destruct Ho as [->|Ho]; [done|]. by apply Hvalid. }
    rewrite (resolve_name _ _ Hv) in Hev.
    apply (fs_rename_keeps_dir _ _ _ _ _ Hev); [eauto|].
    destruct (is_prefix _ _) eqn:Hp; [|done].
    apply is_prefix_spec in Hp as [s Hs]. rewrite <- app_assoc in Hs.
    apply app_inv_head in Hs. simpl in Hs. injection Hs as Hs _.
    destruct Ho as [Ho|Ho].
    + exfalso. apply (strftime_not_Z (clock E (S (tick w)))). fold t. congruence.
    + by rewrite <- Hs in Ho.
Qed.

(** C6. After a synchronization that returns [True], of a store that holds
    file names, [current] is a link to the name the staging area was renamed
    to, and that name is a directory of the store when it was not in use
    before; to remove a link that is not there changes nothing and raises
    nothing. *)
Theorem current_pointer (E : extern) (config : Config) (profile : Profile)
    (flags : listref) (path : string) (w w' : world) :
  let base := resolve (cwd w) (base_dir_of config profile path) in
  let t := strftime (clock E (S (tick w))) in
  let S0 := snapshots base (fs w) in
  (forall x, x ∈ S0 -> valid_name x = true) ->
  run_rsync E config profile flags path w = (Ret true, w') ->
  lookup_path (base ++ ["current"]) (fs w') = Some (Symlink t) /\
  (t ∉ S0 -> is_Some (dir_at (base ++ [t]) (fs w'))) /\
  (forall w0 : world,
     exists w0', try_except (os_remove "current") (fun _ => ret tt) w0 = (Ret tt, w0') /\
       (lookup_path (resolve (cwd w0) "current") (fs w0) = None -> w0' = w0)).
Proof.
  intros base t S0 Hvalid Hrun.
  destruct (sync_promotes _ _ _ _ _ _ _ Hvalid Hrun) as [Hcur Hsnap].
  split; [done|]. split; [done|].
  intros w0. unfold try_except, os_remove.
  destruct (fs_call "current" fs_remove w0) as [[[]|e] w0'] eqn:Hc.
  - exists w0'. split; [done|]. intros Hnone.
    apply fs_call_Ret in Hc as (_ & r & Hr & ->).
    unfold fs_remove in Hr.
    destruct (unsnoc _) as [[d x]|] eqn:Hu; [|done].
    apply unsnoc_Some in Hu. rewrite Hu, lookup_path_snoc in Hnone.
    destruct (dir_at d (fs w0)) as [kids|]; [|done].
    by rewrite Hnone in Hr.
  - apply fs_call_Raise in Hc as ->. exists w0. done.
Qed.

(** ** C5: a failed synchronization *)

(** C5. When the engine of a target exits with a status other than zero,
    [run_rsync] returns [False]; the store has the snapshots and the link it
    had, the staging area is there under its name, nothing outside the
    staging area has changed (so nothing was promoted or evicted), and the
    loop goes on with [success] false. *)
Theorem failure_atomicity (E : extern) (config : Config) (profile : Profile)
    (flags : listref) (path : string) (w w' : world) (o : outcome bool)
    (argv : list string) (rc : Z) :
  let base := resolve (cwd w) (base_dir_of config profile path) in
  run_rsync E config profile flags path w = (o, w') ->
  trace w' = trace w ++ [EvCall argv rc] ->
  rc <> 0 ->
  o = Ret false /\
  snapshots base (fs w') = snapshots base (fs w) /\
  lookup_path (base ++ ["current"]) (fs w') = lookup_path (base ++ ["current"]) (fs w) /\
  is_Some (dir_at (base ++ ["incomplete"]) (fs w')) /\
  (forall q, is_prefix (base ++ ["incomplete"]) q = false ->
             is_prefix q (base ++ ["incomplete"]) = false ->
             lookup_path q (fs w') = lookup_path q (fs w)) /\
  (forall rest success,
     for_dirs E config profile flags (path :: rest) success w
     = for_dirs E config profile flags rest false w').
Proof.
  intros base Hrun Htrace Hrc.
  destruct (run_rsync_inv _ _ _ _ _ _ _ _ Hrun)
    as [(e & Hmk & ->)|(w1 & kids & k0 & Hmk & Hkids & Hinc & H)].
  { apply mkdir_p_quiet in Hmk as (_ & _ & _ & Ht). rewrite Ht in Htrace.
    apply (f_equal List.length) in Htrace. rewrite length_app in Htrace.
    simpl in Htrace. lia. }
  cbv zeta in H. destruct H as (Hk2 & Hf2 & H).
  destruct (mkdir_p_store _ _ _ _ _ Hmk) as (k0' & Hk1).
  fold base in Hkids, Hk2, Hk1.
  destruct (mkdir_p_Ret _ _ _ Hmk) as (_ & _ & _ & _ & Ht1 & _ & Hf1).
  set (K0 := entries_at base (fs w)) in *.
  assert (kids = <["incomplete" := Dir k0']> K0) as -> by congruence.
  set (st := stats_of _) in *.
  set (fl := flags_after config profile path (deref (heap w) flags) st.1.2) in *.
  set (res := engine E (tick w) (command_of config profile path fl) k0) in *.
  set (w2 := after_call config profile flags path w1 fl res.1 _) in *.
  rewrite resolve_target in Hf1, Hf2. fold base in Hf1, Hf2.
  assert (trace w2 = trace w ++ [EvCall (command_of config profile path fl) res.1])
    as Ht2 by (simpl; by rewrite Ht1).
  destruct (res.1 =? 0) eqn:Hres.
  { exfalso. destruct H as (o' & Hp & _).
    apply promote_quiet in Hp as [_ Ht]. rewrite Ht, Ht2 in Htrace.
    apply app_inv_head in Htrace. injection Htrace as _ Hz.
    apply Z.eqb_eq in Hres. congruence. }
  destruct H as [-> ->]. split; [done|].
  rewrite insert_insert_eq in Hk2.
  split; [|split; [|split; [|split]]].
  - rewrite (snapshots_dir _ _ _ Hk2). unfold snapshots.
    rewrite names_at_entries. fold K0. rewrite dom_insert_L.
    apply set_eq. intros x.
    rewrite !elem_of_filter, elem_of_union, elem_of_singleton.
    split; [|by intros [? ?]; eauto]. by intros [Hx [->|?]].
  - rewrite !lookup_path_snoc, Hk2, lookup_insert_ne by done.
    unfold K0, entries_at. by destruct (dir_at base (fs w)).
  - exists res.2. apply dir_at_snoc. exists (<["incomplete" := Dir res.2]> K0).
    by rewrite lookup_insert_eq.
  - intros q H1 H2. rewrite Hf2 by done. by apply Hf1.
  - intros rest success. simpl. by rewrite (bind_run _ _ _ _ _ Hrun).
Qed.

(** ** C8: the result of the run *)

(** C8. In a run that comes to its end, the engine has run once for every
    path of every profile, in the order of the configuration and whatever
    the earlier exits were; the result is false exactly when one of these
    runs exited with a status other than zero; and a synchronization that
    fails changes nothing outside its own staging area, so what earlier
    targets moved to the junk directory stays there. *)
Theorem run_aggregation (E : extern) (config : Config) (args : Args)
    (w w' : world) (b : bool) :
  main E config args w = (Ret b, w') ->
  (exists cs,
     calls (trace w') = calls (trace w) ++ cs /\
     Forall2 (fun tg c => exists fl, c.1 = command_of config tg.1 tg.2 fl)
       (targets (profiles config)) cs /\
     (b = false <-> Exists (fun c => c.2 <> 0) cs)) /\
  (forall profile path w0 w0',
     run_rsync E config profile ref_rsync_flags path w0 = (Ret false, w0') ->
     let staging := resolve (cwd w0) (target_of config profile path) in
     forall q, is_prefix staging q = false -> is_prefix q staging = false ->
               lookup_path q (fs w0') = lookup_path q (fs w0)).
Proof.
  intros Hmain. split.
  - destruct (main_calls _ _ _ _ _ _ Hmain) as (cs & Hcalls & Hall & Hb & _).
    exists cs. split; [done|]. split; [done|].
    rewrite Hb. clear. induction cs as [|[a rc] cs IH]; simpl.
    { split; [done|]. by intros ?%Exists_nil. }
    rewrite Exists_cons. simpl. destruct (Z.eqb_spec rc 0) as [->|Hne]; simpl.
    + rewrite IH. split; [by right|]. by intros [?|?].
    + split; [by left|done].
  - intros profile path w0 w0' Hrun staging q H1 H2.
    destruct (run_rsync_Ret _ _ _ _ _ _ _ _ Hrun)
      as (w1 & kids & k0 & Hmk & _ & _ & _ & _ & Hf2 & ->).
    destruct (mkdir_p_Ret _ _ _ Hmk) as (_ & _ & _ & _ & _ & _ & Hf1).
    fold staging in Hf1, Hf2. rewrite Hf2 by done. by apply Hf1.
Qed.

(** ** C7: the end of the junk directory *)

(** C7, amended. In a run that comes to its end without an exception -
    whatever the exits of the engine were - the junk directory is deleted
    once, as the last thing the run does, and is not there afterwards. *)
Theorem quarantine_purge (E : extern) (config : Config) (args : Args)
    (w w' : world) (b : bool) :
  main E config args w = (Ret b, w') ->
  let junk := resolve (cwd w') (junk_dir_of config) in
  lookup_path junk (fs w') = None /\
  rmtrees (trace w') = rmtrees (trace w) ++ [junk] /\
  exists before, trace w' = before ++ [EvRmtree junk].
Proof.
  intros Hmain.
  destruct (main_Ret _ _ _ _ _ _ Hmain) as (wa & wb & wc & Ha & _ & Hloop & Hmail & Hrm).
  destruct (for_profiles_trace _ _ _ _ _ _ _ _ Hloop) as (cs & Ht & _).
  unfold shutil_rmtree in Hrm. destruct (String.eqb _ _); [done|].
  destruct (fs_rmtree _ _) as [e|r] eqn:Hr; [done|]. injection Hrm as <-. simpl.
  split; [by apply fs_rmtree_gone in Hr|]. split; [|by eauto].
  rewrite rmtrees_app. simpl. f_equal.
  assert (rmtrees (trace wc) = rmtrees (trace wb)) as ->.
  { destruct Hmail as [[-> _]|(to & subj & ->)]; [done|].
    rewrite rmtrees_app. simpl. by rewrite app_nil_r. }
  rewrite Ht, Ha, rmtrees_app.
  by rewrite rmtrees_of_map, app_nil_r.
Qed.

(** ** C4: the statistics of a store without snapshots *)

(** C4, amended. For a store whose listing holds nothing but the staging area
    and the link, [backup_stats] returns count 0, the empty string as the
    newest name and ["Z"] as the oldest, and changes nothing. *)
Theorem empty_store_stats (base_dir : string) (w : world)
    (kids : gmap string node) :
  base_dir <> "" ->
  dir_at (resolve (cwd w) base_dir) (fs w) = Some kids ->
  dom kids ⊆ ({["incomplete"; "current"]} : gset string) ->
  backup_stats base_dir w = (Ret (0, "", "Z"), w).
Proof.
  intros Hne Hd Hdom. rewrite (backup_stats_run _ _ _ Hne Hd). do 2 f_equal.
  apply stats_of_no_snapshot.
  destruct (snapshot_entries _) as [|x l] eqn:Hx; [done|exfalso].
  assert (In x (snapshot_entries (map fst (map_to_list kids)))) as Hin.
  { rewrite Hx. by left. }
  apply snapshot_entries_elem, elem_of_filter in Hin as [Hsnap Hin].
  apply Hdom in Hin. apply elem_of_union in Hin as [Hin|Hin];
    apply elem_of_singleton in Hin; by subst.
Qed.

(** ** C3: the baseline of the engine *)

Lemma str_le_empty (x : string) : str_le x "" = true -> x = "".
Proof. by destruct x. Qed.

(** C3, amended. When the engine runs for a target, the last flag before
    source and destination is the link flag of [newest]. With no snapshot in
    the store, [newest] is the empty string and the path of the flag is the
    store directory itself, which exists at that moment; otherwise [newest]
    is the greatest name among the snapshots, and the path of the flag is that
    entry of the store. *)
Theorem baseline_selection (E : extern) (config : Config) (profile : Profile)
    (flags : listref) (path : string) (w w' : world) (o : outcome bool)
    (argv : list string) (rc : Z) :
  let base_dir := base_dir_of config profile path in
  let base := resolve (cwd w) base_dir in
  let S0 := snapshots base (fs w) in
  run_rsync E config profile flags path w = (o, w') ->
  trace w' = trace w ++ [EvCall argv rc] ->
  exists newest w1,
    mkdir_p (target_of config profile path) w = (Ret tt, w1) /\
    argv = command_of config profile path
             ((deref (heap w) flags
                 ++ map exclude_flag (default [] (profile_excludes profile)))
                ++ [link_dest_flag base_dir newest]) /\
    (S0 = ∅ ->
       newest = "" /\
       resolve (cwd w1) (link_dest_path base_dir newest) = base /\
       os_path_isdir (link_dest_path base_dir newest) w1 = (Ret true, w1)) /\
    (S0 <> ∅ ->
       newest ∈ S0 /\ (forall x, x ∈ S0 -> str_le x newest = true) /\
       (valid_name newest = true ->
        resolve (cwd w1) (link_dest_path base_dir newest) = base ++ [newest])).
Proof.
  intros base_dir base S0 Hrun Htrace.
  destruct (run_rsync_inv _ _ _ _ _ _ _ _ Hrun)
    as [(e & Hmk & ->)|(w1 & kids & k0 & Hmk & Hkids & Hinc & H)].
  { apply mkdir_p_quiet in Hmk as (_ & _ & _ & Ht). rewrite Ht in Htrace.
    apply (f_equal List.length) in Htrace. rewrite length_app in Htrace.
    simpl in Htrace. lia. }
  cbv zeta in H. destruct H as (_ & _ & H).
  destruct (mkdir_p_store _ _ _ _ _ Hmk) as (k0' & Hk1).
  fold base_dir base in Hkids, Hk1.
  destruct (mkdir_p_Ret _ _ _ Hmk) as (_ & Hcwd & _ & _ & Ht1 & _ & _).
  set (K0 := entries_at base (fs w)) in *.
  assert (kids = <["incomplete" := Dir k0']> K0) as -> by congruence.
  assert (S0 = filter (fun x => is_snapshot_name x = true) (dom K0)) as HS0.
  { unfold S0, snapshots. by rewrite names_at_entries. }
  destruct (stats_of_store K0 (Dir k0')) as (_ & Hn & Hmax & _).
  rewrite <- HS0 in Hn, Hmax.
  set (st := stats_of _) in *.
  set (fl := flags_after config profile path (deref (heap w) flags) st.1.2) in *.
  set (res := engine E (tick w) (command_of config profile path fl) k0) in *.
  set (w2 := after_call config profile flags path w1 fl res.1 _) in *.
  assert (trace w2 = trace w ++ [EvCall (command_of config profile path fl) res.1])
    as Ht2 by (simpl; by rewrite Ht1).
  assert (trace w' = trace w2) as Ht'.
  { destruct (res.1 =? 0).
    - destruct H as (o' & Hp & _). by apply promote_quiet in Hp as [_ ?].
    - by destruct H as [_ ->]. }
  rewrite Ht', Ht2 in Htrace. apply app_inv_head in Htrace. injection Htrace as <- _.
  exists st.1.2, w1. split; [done|]. split; [done|]. rewrite Hcwd. split.
  - intros Hempty. rewrite Hempty in Hn.
    destruct Hn as [Hn|Hn]; [|by apply not_elem_of_empty in Hn].
    rewrite Hn. split; [done|].
    assert (resolve (cwd w) (link_dest_path base_dir "") = base) as Hres
      by apply resolve_link_dest_empty.
    split; [done|]. unfold os_path_isdir. rewrite Hcwd, Hres, Hkids.
    pose proof (base_dir_nonempty config profile path) as Hne. fold base_dir in Hne.
    unfold link_dest_path. by destruct base_dir.
  - intros Hne. assert (st.1.2 ∈ S0) as Hin.
    { destruct Hn as [Hn|Hn]; [|done].
      apply set_choose_L in Hne as [x Hx].
      pose proof (Hmax x Hx) as Hle. rewrite Hn in Hle.
      apply str_le_empty in Hle. rewrite Hn. by subst. }
    split; [done|]. split; [done|]. apply resolve_link_dest_name.
Qed.

(** ** C2: the flags of one target and the next *)

(** C2 fails on the code: [flags] in [run_rsync] is the list object
    [rsync_flags] itself, and [+=] extends it in place. In a run over two
    targets the engine gets, for the second one, the exclude pattern and the
    link flag of the first. *)
Theorem second_target_inherits_flags :
  calls (trace (main ex_ok ex_config ex_args ex_blank).2) =
    [ (["rsync"; "--archive"; "--one-file-system"; "--hard-links";
        "--human-readable"; "--inplace"; "--numeric-ids"; "--delete";
        "--delete-excluded";
        exclude_flag "*.tmp";
        "--link-dest=/backup/bob/box/_etc//";
        "bob@box:/etc"; "/backup/bob/box/_etc/incomplete/"], 0);
      (["rsync"; "--archive"; "--one-file-system"; "--hard-links";
        "--human-readable"; "--inplace"; "--numeric-ids"; "--delete";
        "--delete-excluded";
        exclude_flag "*.tmp";
        "--link-dest=/backup/bob/box/_etc//";
        "--link-dest=/backup/eve/lap/_home//";
        "eve@lap:/home"; "/backup/eve/lap/_home/incomplete/"], 0) ].
Proof. vm_compute. reflexivity. Qed.

(** ** The theorems at work *)

(** The synchronization of [bob@box:/etc] on the disk with two snapshots. *)
Lemma ex_full_run :
  run_rsync ex_ok ex_config ex_bob ref_rsync_flags "/etc" ex_full =
    (Ret true, (run_rsync ex_ok ex_config ex_bob ref_rsync_flags "/etc" ex_full).2).
Proof. vm_compute. reflexivity. Defined.

Lemma ex_full_names_valid :
  forall x, x ∈ snapshots (resolve (cwd ex_full) (base_dir_of ex_config ex_bob "/etc"))
                  (fs ex_full) ->
            valid_name x = true.
Proof.
  apply (bool_decide_unpack (set_Forall (fun x => valid_name x = true) _)).
  vm_compute. reflexivity.
Defined.

Lemma current_pointer_witness :
  let w := ex_full in
  let w' := (run_rsync ex_ok ex_config ex_bob ref_rsync_flags "/etc" w).2 in
  let base := resolve (cwd w) (base_dir_of ex_config ex_bob "/etc") in
  let t := strftime (clock ex_ok (S (tick w))) in
  let S0 := snapshots base (fs w) in
  lookup_path (base ++ ["current"]) (fs w') = Some (Symlink t) /\
  (t ∉ S0 -> is_Some (dir_at (base ++ [t]) (fs w'))) /\
  (forall w0 : world,
     exists w0', try_except (os_remove "current") (fun _ => ret tt) w0 = (Ret tt, w0') /\
       (lookup_path (resolve (cwd w0) "current") (fs w0) = None -> w0' = w0)).
Proof.
  apply (current_pointer ex_ok ex_config ex_bob ref_rsync_flags "/etc" ex_full).
  - exact ex_full_names_valid.
  - exact ex_full_run.
Defined.

Lemma failure_atomicity_witness :
  let w := ex_full in
  let w' := (run_rsync ex_fail ex_config ex_bob ref_rsync_flags "/etc" w).2 in
  let base := resolve (cwd w) (base_dir_of ex_config ex_bob "/etc") in
  Ret false = Ret false /\
  snapshots base (fs w') = snapshots base (fs w) /\
  lookup_path (base ++ ["current"]) (fs w') = lookup_path (base ++ ["current"]) (fs w) /\
  is_Some (dir_at (base ++ ["incomplete"]) (fs w')) /\
  (forall q, is_prefix (base ++ ["incomplete"]) q = false ->
             is_prefix q (base ++ ["incomplete"]) = false ->
             lookup_path q (fs w') = lookup_path q (fs w)) /\
  (forall rest success,
     for_dirs ex_fail ex_config ex_bob ref_rsync_flags ("/etc" :: rest) success w
     = for_dirs ex_fail ex_config ex_bob ref_rsync_flags rest false w').
Proof.
  apply (failure_atomicity ex_fail ex_config ex_bob ref_rsync_flags "/etc" ex_full
           (run_rsync ex_fail ex_config ex_bob ref_rsync_flags "/etc" ex_full).2
           (Ret false)
           (command_of ex_config ex_bob "/etc"
              (flags_after ex_config ex_bob "/etc" (obj_rsync_flags module_heap)
                 "2019-12-31__00-00-00"))
           23).
  - vm_compute. reflexivity.
  - vm_compute. reflexivity.
  - discriminate.
Defined.

(** A run over two targets in which the engine fails for the first. *)
Lemma ex_first_fails_run :
  main ex_first_fails ex_config ex_args ex_blank =
    (Ret false, (main ex_first_fails ex_config ex_args ex_blank).2).
Proof. vm_compute. reflexivity. Defined.

Lemma run_aggregation_witness :
  let w := ex_blank in
  let w' := (main ex_first_fails ex_config ex_args w).2 in
  (exists cs,
     calls (trace w') = calls (trace w) ++ cs /\
     Forall2 (fun tg c => exists fl, c.1 = command_of ex_config tg.1 tg.2 fl)
       (targets (profiles ex_config)) cs /\
     (false = false <-> Exists (fun c => c.2 <> 0) cs)) /\
  (forall profile path w0 w0',
     run_rsync ex_first_fails ex_config profile ref_rsync_flags path w0 = (Ret false, w0') ->
     let staging := resolve (cwd w0) (target_of ex_config profile path) in
     forall q, is_prefix staging q = false -> is_prefix q staging = false ->
               lookup_path q (fs w0') = lookup_path q (fs w0)).
Proof.
  apply (run_aggregation ex_first_fails ex_config ex_args ex_blank).
  exact ex_first_fails_run.
Defined.

Lemma quarantine_purge_witness :
  let w := ex_blank in
  let w' := (main ex_first_fails ex_config ex_args w).2 in
  let junk := resolve (cwd w') (junk_dir_of ex_config) in
  lookup_path junk (fs w') = None /\
  rmtrees (trace w') = rmtrees (trace w) ++ [junk] /\
  exists before, trace w' = before ++ [EvRmtree junk].
Proof.
  apply (quarantine_purge ex_first_fails ex_config ex_args ex_blank _ false).
  exact ex_first_fails_run.
Defined.

(** C7, as stated, fails: when the mail server refuses the report, the
    exception ends the run before [shutil.rmtree], and the junk directory,
    with the snapshot evicted in this run, stays on the disk. *)
Lemma quarantine_survives_mail_failure :
  let run := main ex_no_mail ex_config ex_args_mail ex_full in
  run.1 = Raise SMTPException /\
  names_at ["backup"; "junk"] (fs run.2) = {["2019-12-30__00-00-00"]} /\
  rmtrees (trace run.2) = [].
Proof. vm_compute. split; [reflexivity|]. split; reflexivity. Qed.

Lemma empty_store_stats_witness :
  backup_stats "/store/" ex_no_snapshot = (Ret (0, "", "Z"), ex_no_snapshot).
Proof.
  apply (empty_store_stats "/store/" ex_no_snapshot
           (<["incomplete" := Dir ∅]> {["current" := Symlink "gone"]})).
  - discriminate.
  - vm_compute. reflexivity.
  - apply (bool_decide_unpack _). vm_compute. reflexivity.
Defined.

(** The first synchronization of [bob@box:/etc], on a disk without backups. *)
Lemma ex_first_run :
  run_rsync ex_ok ex_config ex_bob ref_rsync_flags "/etc" ex_blank =
    (Ret true, (run_rsync ex_ok ex_config ex_bob ref_rsync_flags "/etc" ex_blank).2).
Proof. vm_compute. reflexivity. Defined.

(** C3, as stated, fails: on the first run the path of the link flag is the
    store directory followed by a slash, and the store directory exists when
    the engine starts. *)
Lemma baseline_path_exists_on_first_run :
  let target := target_of ex_config ex_bob "/etc" in
  let base_dir := base_dir_of ex_config ex_bob "/etc" in
  let w1 := (mkdir_p target ex_blank).2 in
  snapshots (resolve [] base_dir) (fs ex_blank) = ∅ /\
  (backup_stats base_dir w1).1 = Ret (0, "", "Z") /\
  link_dest_path base_dir "" = "/backup/bob/box/_etc//" /\
  calls (trace (run_rsync ex_ok ex_config ex_bob ref_rsync_flags "/etc" ex_blank).2) =
    [ (["rsync"; "--archive"; "--one-file-system"; "--hard-links";
        "--human-readable"; "--inplace"; "--numeric-ids"; "--delete";
        "--delete-excluded"; exclude_flag "*.tmp";
        "--link-dest=/backup/bob/box/_etc//";
        "bob@box:/etc"; "/backup/bob/box/_etc/incomplete/"], 0) ] /\
  (os_path_isdir "/backup/bob/box/_etc//" w1).1 = Ret true.
Proof. vm_compute. repeat split; reflexivity. Qed.

Lemma baseline_selection_witness :
  let w := ex_full in
  let base_dir := base_dir_of ex_config ex_bob "/etc" in
  let base := resolve (cwd w) base_dir in
  let S0 := snapshots base (fs w) in
  exists newest w1,
    mkdir_p (target_of ex_config ex_bob "/etc") w = (Ret tt, w1) /\
    command_of ex_config ex_bob "/etc"
      (flags_after ex_config ex_bob "/etc" (obj_rsync_flags module_heap)
         "2019-12-31__00-00-00")
    = command_of ex_config ex_bob "/etc"
             ((deref (heap w) ref_rsync_flags
                 ++ map exclude_flag (default [] (profile_excludes ex_bob)))
                ++ [link_dest_flag base_dir newest]) /\
    (S0 = ∅ ->
       newest = "" /\
       resolve (cwd w1) (link_dest_path base_dir newest) = base /\
       os_path_isdir (link_dest_path base_dir newest) w1 = (Ret true, w1)) /\
    (S0 <> ∅ ->
       newest ∈ S0 /\ (forall x, x ∈ S0 -> str_le x newest = true) /\
       (valid_name newest = true ->
        resolve (cwd w1) (link_dest_path base_dir newest) = base ++ [newest])).
Proof.
  apply (baseline_selection ex_ok ex_config ex_bob ref_rsync_flags "/etc" ex_full
           (run_rsync ex_ok ex_config ex_bob ref_rsync_flags "/etc" ex_full).2
           (Ret true) _ 0).
  - exact ex_full_run.
  - vm_compute. reflexivity.
Defined.

(** * Further properties of the script *)

(** ** [backup_stats]: the order of the listing and the two start values *)

Lemma str_lt_asym (a b : string) : str_lt a b = true -> str_lt b a = false.
Proof.
  intros H. destruct (str_lt b a) eqn:H'; [|done].
  by rewrite <- (str_lt_irrefl a), (str_lt_trans _ _ _ H H').
Qed.

Lemma str_lt_total (a b : string) :
  str_lt a b = false -> str_lt b a = false -> a = b.
Proof.
  intros H1 H2. apply str_le_antisym; rewrite str_le_lt; by rewrite ?H1, ?H2.
Qed.

(** The greater and the lesser of two names, as the loop keeps them. *)
Lemma keep_newest_comm (a b n : string) :
  (if str_gt b (if str_gt a n then a else n) then b else if str_gt a n then a else n)
  = (if str_gt a (if str_gt b n then b else n) then a else if str_gt b n then b else n).
Proof.
  unfold str_gt.
  destruct (str_lt n a) eqn:Ha, (str_lt n b) eqn:Hb;
    rewrite ?Ha, ?Hb; try done.
  - destruct (str_lt a b) eqn:Hab.
    + by rewrite (str_lt_asym _ _ Hab).
    + destruct (str_lt b a) eqn:Hba; [done|]. by apply str_lt_total.
  - destruct (str_lt a b) eqn:Hab; [|done].
    by rewrite (str_lt_trans _ _ _ Ha Hab) in Hb.
  - destruct (str_lt b a) eqn:Hba; [|done].
    by rewrite (str_lt_trans _ _ _ Hb Hba) in Ha.
Qed.

Lemma keep_oldest_comm (a b o : string) :
  (if str_lt b (if str_lt a o then a else o) then b else if str_lt a o then a else o)
  = (if str_lt a (if str_lt b o then b else o) then a else if str_lt b o then b else o).
Proof.
  destruct (str_lt a o) eqn:Ha, (str_lt b o) eqn:Hb;
    rewrite ?Ha, ?Hb; try done.
  - destruct (str_lt b a) eqn:Hba.
    + by rewrite (str_lt_asym _ _ Hba).
    + destruct (str_lt a b) eqn:Hab; [done|]. by apply str_lt_total.
  - destruct (str_lt b a) eqn:Hba; [|done].
    by rewrite (str_lt_trans _ _ _ Hba Ha) in Hb.
  - destruct (str_lt a b) eqn:Hab; [|done].
    by rewrite (str_lt_trans _ _ _ Hab Hb) in Ha.
Qed.

Lemma stats_step_comm (acc : Z * string * string) (a b : string) :
  stats_step (stats_step acc a) b = stats_step (stats_step acc b) a.
Proof.
  destruct acc as [[c n] o].
  destruct (is_snapshot_name a) eqn:Ha, (is_snapshot_name b) eqn:Hb.
  - rewrite !stats_step_count by done. simpl.
    by rewrite keep_newest_comm, keep_oldest_comm.
  - by rewrite !(stats_step_skip _ b) by done.
  - by rewrite !(stats_step_skip _ a) by done.
  - by rewrite !(stats_step_skip _ b), !(stats_step_skip _ a) by done.
Qed.

(** X1. [os.listdir] promises no order, and [backup_stats] needs none: two
    listings with the same names give the same count, newest and oldest. *)
Theorem backup_stats_order_free (l1 l2 : list string) :
  Permutation l1 l2 -> stats_of l1 = stats_of l2.
Proof.
  intros H. unfold stats_of. generalize (0, "", "Z").
  induction H as [|x l1 l2 _ IH|x y l|l1 l2 l3 _ IH1 _ IH2]; intros acc; simpl.
  - done.
  - apply IH.
  - by rewrite stats_step_comm.
  - by rewrite IH1.
Qed.

Lemma backup_stats_order_free_witness :
  Permutation ["2020-01-02__00-00-00"; "current"; "2020-01-01__00-00-00"]
              ["current"; "2020-01-01__00-00-00"; "2020-01-02__00-00-00"] /\
  stats_of ["2020-01-02__00-00-00"; "current"; "2020-01-01__00-00-00"]
  = stats_of ["current"; "2020-01-01__00-00-00"; "2020-01-02__00-00-00"].
Proof.
  assert (Permutation ["2020-01-02__00-00-00"; "current"; "2020-01-01__00-00-00"]
            ["current"; "2020-01-01__00-00-00"; "2020-01-02__00-00-00"]) as H.
  { etrans; [apply perm_swap|]. apply perm_skip, perm_swap. }
  split; [exact H|]. exact (backup_stats_order_free _ _ H).
Defined.

(** X2. The two start values of [backup_stats] are not alike. The newest name
    is a counted entry of the listing as soon as there is one; the oldest
    name is a counted entry only if one of them is at most ["Z"]: a store
    whose counted entries all sort after ["Z"] has the oldest name ["Z"],
    which it does not hold. *)
Theorem backup_stats_start_values (dirs : list string) :
  let st := stats_of dirs in
  (In st.1.2 (snapshot_entries dirs) <-> snapshot_entries dirs <> []) /\
  (In st.2 (snapshot_entries dirs) <->
   exists x, In x (snapshot_entries dirs) /\ str_le x "Z" = true) /\
  ((forall x, In x (snapshot_entries dirs) -> str_lt "Z" x = true) -> st.2 = "Z").
Proof.
  intros st. destruct (stats_of_spec dirs) as (_ & Hn & Hmax & Ho & HoZ & Hmin).
  fold st in Hn, Hmax, Ho, HoZ, Hmin. split; [|split].
  - split.
    + intros Hin He. by rewrite He in Hin.
    + intros Hne. destruct Hn as [He|Hin]; [|done].
      destruct (snapshot_entries dirs) as [|x l] eqn:Hl; [done|].
      specialize (Hmax x (or_introl eq_refl)). rewrite He in Hmax |- *.
      left. by apply str_le_empty.
  - split.
    + intros Hin. eauto.
    + intros (x & Hx & HxZ). destruct Ho as [He|Hin]; [|done].
      specialize (Hmin x Hx). rewrite He in Hmin |- *.
      by rewrite (str_le_antisym _ _ Hmin HxZ).
  - intros Hall. destruct Ho as [He|Hin]; [done|].
    specialize (Hall _ Hin). by rewrite str_le_lt, Hall in HoZ.
Qed.

Lemma backup_stats_start_values_witness :
  let dirs := ["lost+found"; "notes"; "current"] in
  let st := stats_of dirs in
  ((In st.1.2 (snapshot_entries dirs) <-> snapshot_entries dirs <> []) /\
   (In st.2 (snapshot_entries dirs) <->
    exists x, In x (snapshot_entries dirs) /\ str_le x "Z" = true) /\
   ((forall x, In x (snapshot_entries dirs) -> str_lt "Z" x = true) -> st.2 = "Z")) /\
  st = (2, "notes", "Z").
Proof.
  split; [exact (backup_stats_start_values ["lost+found"; "notes"; "current"])|].
  by vm_compute.
Defined.

(** ** Snapshot names *)

Lemma lex_compare_eq (a b : list Z) : lex_compare a b = Eq <-> a = b.
Proof.
  revert b. induction a as [|x a IH]; intros [|y b]; simpl; try done.
  destruct (Z.compare_spec x y) as [->| |]; [|split; [done|intros [= ? ?]; lia]..].
  rewrite IH. split; [by intros ->|by intros [= ->]].
Qed.

(** X3. Two readings of the clock get the same snapshot name exactly when they
    fall in the same second: the name holds the six fields down to the second
    and nothing else. *)
Theorem snapshot_name_injective (t1 t2 : datetime) :
  valid_datetime t1 -> valid_datetime t2 ->
  1000 <= year t1 -> 1000 <= year t2 ->
  (strftime t1 = strftime t2 <-> dt_seconds t1 = dt_seconds t2).
Proof.
  intros H1 H2 Hy1 Hy2.
  by rewrite <- str_compare_eq, strftime_compare, lex_compare_eq.
Qed.

Lemma snapshot_name_injective_witness :
  (strftime t_midnight = strftime t_midnight_later
   <-> dt_seconds t_midnight = dt_seconds t_midnight_later) /\
  (strftime t_midnight = strftime t_next_second
   <-> dt_seconds t_midnight = dt_seconds t_next_second) /\
  strftime t_midnight = strftime t_midnight_later /\
  strftime t_midnight <> strftime t_next_second.
Proof.
  split; [|split; [|split]].
  - apply (snapshot_name_injective t_midnight t_midnight_later);
      [apply valid_t_midnight|apply valid_t_midnight_later|by vm_compute..].
  - apply (snapshot_name_injective t_midnight t_next_second);
      [apply valid_t_midnight|apply valid_t_next_second|by vm_compute..].
  - by vm_compute.
  - by vm_compute.
Defined.

Lemma digit_lt_Z (n : Z) : Ascii.compare (digit n) "Z" = Lt.
Proof.
  unfold Ascii.compare. rewrite digit_code.
  apply N.compare_lt_iff.
  assert (0 <= n mod 10 < 10) by (apply Z.mod_pos_bound; lia).
  change (N_of_ascii "Z") with 90%N. lia.
Qed.

(** A name of the script sorts before ["Z"], whatever the clock says. *)
Lemma strftime_lt_Z (t : datetime) : str_lt (strftime t) "Z" = true.
Proof.
  unfold strftime. destruct (fmt_Y_head (year t)) as (k & rest & ->).
  rewrite str_app_cons. unfold str_lt, String.ltb. simpl.
  by rewrite digit_lt_Z.
Qed.

(** X4. A store that holds a snapshot made by the script never shows a start
    value: [backup_stats] counts the snapshot, and both the newest and the
    oldest name it returns are entries of the listing, the oldest at most the
    snapshot and the newest at least the snapshot. *)
Theorem promoted_name_is_counted (t : datetime) (dirs : list string) :
  In (strftime t) dirs ->
  let st := stats_of dirs in
  1 <= st.1.1 /\
  In st.1.2 dirs /\ str_le (strftime t) st.1.2 = true /\
  In st.2 dirs /\ str_le st.2 (strftime t) = true /\ st.2 <> "Z".
Proof.
  intros Hin st.
  assert (In (strftime t) (snapshot_entries dirs)) as Hs.
  { apply filter_In. split; [done|apply strftime_is_snapshot_name]. }
  destruct (stats_of_spec dirs) as (Hc & Hn & Hmax & Ho & _ & Hmin).
  fold st in Hc, Hn, Hmax, Ho, Hmin.
  assert (st.2 <> "Z") as HZ.
  { intros He. specialize (Hmin _ Hs). rewrite He, str_le_lt in Hmin.
    by rewrite strftime_lt_Z in Hmin. }
  assert (st.1.2 <> "") as HE.
  { intros He. specialize (Hmax _ Hs). rewrite He in Hmax.
    apply str_le_empty in Hmax.
    pose proof (strftime_valid t) as Hv. rewrite Hmax in Hv. done. }
  repeat split.
  - rewrite Hc. destruct (snapshot_entries dirs); [done|]. simpl. lia.
  - destruct Hn as [?|Hn]; [done|]. by apply filter_In in Hn as [? _].
  - by apply Hmax.
  - destruct Ho as [?|Ho]; [done|]. by apply filter_In in Ho as [? _].
  - by apply Hmin.
  - done.
Qed.

Lemma promoted_name_is_counted_witness :
  let dirs := ["zz-stray"; strftime t_midnight; "current"] in
  In (strftime t_midnight) dirs /\
  let st := stats_of dirs in
  1 <= st.1.1 /\
  In st.1.2 dirs /\ str_le (strftime t_midnight) st.1.2 = true /\
  In st.2 dirs /\ str_le st.2 (strftime t_midnight) = true /\ st.2 <> "Z".
Proof.
  assert (In (strftime t_midnight) ["zz-stray"; strftime t_midnight; "current"]) as H.
  { right. by left. }
  split; [exact H|]. exact (promoted_name_is_counted t_midnight _ H).
Defined.

(** ** The store of a target *)

Lemma str_replace_no_slash (s : string) : no_slash (str_replace "/" "_" s) = true.
Proof.
  induction s as [|c s IH]; [done|]. simpl.
  rewrite IH, andb_true_r. destruct (Ascii.eqb c "/") eqn:Hc; [done|]. by rewrite Hc.
Qed.

Lemma str_replace_id (s : string) :
  no_slash s = true -> str_replace "/" "_" s = s.
Proof.
  induction s as [|c s IH]; [done|]. simpl.
  intros [Hc Hs]%andb_true_iff. rewrite (IH Hs).
  by destruct (Ascii.eqb c "/").
Qed.

Lemma str_app_inj_l (a x y : string) : a +:+ x = a +:+ y -> x = y.
Proof.
  induction a as [|c a IH]; [by rewrite !str_app_nil_l|].
  rewrite !str_app_cons. intros [= H]. by apply IH.
Qed.

Lemma str_app_inj_slash (x y : string) :
  no_slash x = true -> no_slash y = true -> forall r s : string,
  x +:+ "/" +:+ r = y +:+ "/" +:+ s -> x = y /\ r = s.
Proof.
  revert y. induction x as [|c x IH]; intros [|d y] Hx Hy r s;
    rewrite ?str_app_nil_l, ?str_app_cons, ?str_app_nil_l.
  - by intros [= ->].
  - intros [= <- _]. by simpl in Hy.
  - intros [= -> _]. by simpl in Hx.
  - simpl in Hx, Hy.
    apply andb_true_iff in Hx as [_ Hx]. apply andb_true_iff in Hy as [_ Hy].
    intros [= -> H]. by destruct (IH y Hx Hy r s H) as [-> ->].
Qed.

(** X5. The store of a target is named after the directory with every slash
    turned into an underscore, so two directories of one profile share a
    store exactly when they agree after that replacement: a directory that
    holds a slash shares its store with the directory written with
    underscores, which is another directory. *)
Theorem store_shared_by_directories (config : Config) (profile : Profile)
    (path path' : string) :
  (base_dir_of config profile path = base_dir_of config profile path' <->
   str_replace "/" "_" path = str_replace "/" "_" path') /\
  base_dir_of config profile (str_replace "/" "_" path)
    = base_dir_of config profile path /\
  (no_slash path = false -> str_replace "/" "_" path <> path).
Proof.
  split; [|split].
  - unfold base_dir_of. split; [|by intros ->].
    intros H. do 5 apply str_app_inj_l in H.
    by apply (str_app_inj_slash _ _ (str_replace_no_slash _)
                (str_replace_no_slash _) "" "") in H as [? _].
  - unfold base_dir_of. by rewrite (str_replace_id _ (str_replace_no_slash _)).
  - intros H He. by rewrite <- He, str_replace_no_slash in H.
Qed.

Lemma store_shared_by_directories_witness :
  (base_dir_of ex_config ex_bob "/var/log" = base_dir_of ex_config ex_bob "/var_log" <->
   str_replace "/" "_" "/var/log" = str_replace "/" "_" "/var_log") /\
  base_dir_of ex_config ex_bob (str_replace "/" "_" "/var/log")
    = base_dir_of ex_config ex_bob "/var/log" /\
  (no_slash "/var/log" = false -> str_replace "/" "_" "/var/log" <> "/var/log").
Proof. exact (store_shared_by_directories ex_config ex_bob "/var/log" "/var_log"). Defined.

(** ** [mkdir_p] *)

Lemma fs_makedirs_exists (above todo : path) (r : node) :
  is_Some (lookup_path (above ++ todo) r) -> fs_makedirs above todo r = inl EEXIST.
Proof.
  revert above. induction todo as [|c todo IH]; intros above H; [done|].
  destruct todo as [|c' todo].
  - simpl. unfold fs_mkdir. rewrite unsnoc_snoc.
    rewrite lookup_path_snoc in H.
    destruct (dir_at above r) as [kids|]; [|by destruct H].
    by destruct H as [n ->].
  - change (fs_makedirs above (c :: c' :: todo) r)
      with (match lookup_path (above ++ [c]) r with
            | Some _ => fs_makedirs (above ++ [c]) (c' :: todo) r
            | None => match fs_mkdir (above ++ [c]) r with
                      | inr r' => fs_makedirs (above ++ [c]) (c' :: todo) r'
                      | inl e => inl e
                      end
            end).
    assert (above ++ c :: c' :: todo = (above ++ [c]) ++ c' :: todo) as Heq
      by by rewrite <- app_assoc.
    rewrite Heq in H.
    assert (is_Some (lookup_path (above ++ [c]) r)) as [n Hn].
    { rewrite lookup_path_app in H.
      destruct (lookup_path (above ++ [c]) r); [eauto|by destruct H]. }
    rewrite Hn. by apply IH.
Qed.

(** On a directory that is there, [mkdir_p] changes nothing. *)
Lemma mkdir_p_noop (s : string) (w : world) :
  s <> "" -> is_Some (dir_at (resolve (cwd w) s) (fs w)) ->
  mkdir_p s w = (Ret tt, w).
Proof.
  intros Hs [k Hk].
  unfold mkdir_p, try_except, os_makedirs, fs_call.
  apply String.eqb_neq in Hs. rewrite Hs.
  rewrite fs_makedirs_exists.
  2:{ simpl. apply dir_at_lookup in Hk. rewrite Hk. eauto. }
  unfold bind, os_path_isdir. by rewrite Hk, Hs.
Qed.

(** On a string that is [plain] the path is the list of the non-empty
    components, in their order, below the root or the working directory:
    the resolution by names has cancelled nothing. *)
Lemma fold_norm_plain (xs : list string) (acc : path) :
  forallb (fun c => negb (String.eqb c ".") && negb (String.eqb c "..")) xs = true ->
  fold_left norm_step xs acc = acc ++ filter (fun x => x <> "") xs.
Proof.
  revert acc. induction xs as [|x xs IH]; intros acc H; simpl in *.
  { by rewrite app_nil_r. }
  apply andb_prop in H as [Hx Hxs]. apply andb_prop in Hx as [H1 H2].
  rewrite (IH _ Hxs). unfold norm_step.
  apply negb_true_iff in H1, H2. rewrite H1, H2.
  destruct (String.eqb_spec x "") as [->|Hne].
  - rewrite filter_cons_False; [done|]. by intros ?.
  - rewrite filter_cons_True by done. by rewrite <- app_assoc.
Qed.

Lemma resolve_plain (c : path) (s : string) :
  plain s = true ->
  resolve c s = (if is_absolute s then [] else c)
                  ++ filter (fun x => x <> "") (split_slash s).
Proof. intros H. unfold resolve. by apply fold_norm_plain. Qed.

(** X6. On a path string without [.] and [..] components, [mkdir_p] can be
    repeated: on a directory that exists it returns and leaves the world as
    it is, and running it twice, from any world, ends as running it once
    does, in value or exception and in the world. *)
Theorem mkdir_p_idempotent (s : string) (w : world) :
  plain s = true ->
  (s <> "" -> is_Some (dir_at (resolve (cwd w) s) (fs w)) ->
   mkdir_p s w = (Ret tt, w)) /\
  (mkdir_p s >> mkdir_p s) w = mkdir_p s w.
Proof.
  intros _. split; [apply mkdir_p_noop|].
  unfold bind. destruct (mkdir_p s w) as [[[]|e] w1] eqn:H; [|done].
  apply mkdir_p_Ret in H as (Hs & Hcwd & _ & _ & _ & Hdir & _).
  apply mkdir_p_noop; [done|]. by rewrite Hcwd.
Qed.

Lemma mkdir_p_idempotent_witness :
  ("/backup/junk" <> "" ->
   is_Some (dir_at (resolve (cwd ex_full) "/backup/junk") (fs ex_full)) ->
   mkdir_p "/backup/junk" ex_full = (Ret tt, ex_full)) /\
  (mkdir_p "/backup/junk" >> mkdir_p "/backup/junk") ex_full
  = mkdir_p "/backup/junk" ex_full.
Proof. exact (mkdir_p_idempotent "/backup/junk" ex_full eq_refl). Defined.

(** X7. Where a path string without [.] and [..] components names a regular
    file, [mkdir_p] raises the [OSError] of [os.makedirs] again, with
    [EEXIST], and leaves the world as it is: only a directory makes the error
    pass. *)
Theorem mkdir_p_refuses_file (s : string) (w : world) :
  plain s = true ->
  s <> "" -> lookup_path (resolve (cwd w) s) (fs w) = Some File ->
  mkdir_p s w = (Raise (OSError EEXIST), w).
Proof.
  intros _ Hs Hf.
  unfold mkdir_p, try_except, os_makedirs, fs_call.
  apply String.eqb_neq in Hs. rewrite Hs.
  rewrite fs_makedirs_exists by (simpl; rewrite Hf; eauto).
  unfold bind, os_path_isdir, dir_at. by rewrite Hf.
Qed.

Lemma mkdir_p_refuses_file_witness :
  plain "/backup/junk" = true /\
  "/backup/junk" <> "" /\
  lookup_path (resolve (cwd ex_junk_file) "/backup/junk") (fs ex_junk_file) = Some File /\
  mkdir_p "/backup/junk" ex_junk_file = (Raise (OSError EEXIST), ex_junk_file).
Proof.
  assert ("/backup/junk" <> "") as H1 by done.
  assert (lookup_path (resolve (cwd ex_junk_file) "/backup/junk") (fs ex_junk_file)
          = Some File) as H2 by by vm_compute.
  split; [reflexivity|]. split; [exact H1|]. split; [exact H2|].
  exact (mkdir_p_refuses_file "/backup/junk" ex_junk_file eq_refl H1 H2).
Defined.

(** ** [run_rsync] when the engine has run *)

(** The world [w2] in which the engine has just run, for any end of
    [run_rsync] that follows a run of the engine. [K0] is the store
    before. *)
Lemma run_rsync_staged (E : extern) (config : Config) (profile : Profile)
    (flags : listref) (path : string) (w w' : world) (o : outcome bool)
    (argv : list string) (rc : Z) :
  let base_dir := base_dir_of config profile path in
  let base := resolve (cwd w) base_dir in
  let K0 := entries_at base (fs w) in
  run_rsync E config profile flags path w = (o, w') ->
  trace w' = trace w ++ [EvCall argv rc] ->
  exists k0 k2 w2,
    let st := stats_of (map fst (map_to_list (<["incomplete" := Dir k0]> K0))) in
    argv = command_of config profile path
             (flags_after config profile path (deref (heap w) flags) st.1.2) /\
    dir_at base (fs w2) = Some (<["incomplete" := Dir k2]> K0) /\
    (forall q, is_prefix (base ++ ["incomplete"]) q = false ->
               is_prefix q (base ++ ["incomplete"]) = false ->
               lookup_path q (fs w2) = lookup_path q (fs w)) /\
    cwd w2 = cwd w /\ tick w2 = S (tick w) /\
    if rc =? 0
    then exists o', promote E config base_dir st.1.1 st.2 w2 = (o', w') /\
                    o = match o' with Ret _ => Ret true | Raise e => Raise e end
    else o = Ret false /\ w' = w2.
Proof.
  intros base_dir base K0 Hrun Htrace.
  destruct (run_rsync_inv _ _ _ _ _ _ _ _ Hrun)
    as [(e & Hmk & ->)|(w1 & kids & k0 & Hmk & Hkids & Hinc & H)].
  { apply mkdir_p_quiet in Hmk as (_ & _ & _ & Ht). rewrite Ht in Htrace.
    apply (f_equal List.length) in Htrace. rewrite length_app in Htrace.
    simpl in Htrace. lia. }
  cbv zeta in H. destruct H as (Hk2 & Hf2 & H).
  destruct (mkdir_p_store _ _ _ _ _ Hmk) as (k0' & Hk1).
  fold base_dir base in Hkids, Hk2, Hk1. fold K0 in Hk1.
  destruct (mkdir_p_Ret _ _ _ Hmk) as (_ & Hcwd & _ & Htick & Ht1 & _ & Hf1).
  assert (kids = <["incomplete" := Dir k0']> K0) as -> by congruence.
  set (st := stats_of _) in *.
  set (fl := flags_after config profile path (deref (heap w) flags) st.1.2) in *.
  set (res := engine E (tick w) (command_of config profile path fl) k0) in *.
  set (w2 := after_call config profile flags path w1 fl res.1 _) in *.
  rewrite resolve_target in Hf1, Hf2. fold base_dir base in Hf1, Hf2.
  assert (trace w2 = trace w ++ [EvCall (command_of config profile path fl) res.1])
    as Ht2 by (simpl; by rewrite Ht1).
  assert (trace w' = trace w2) as Ht'.
  { destruct (res.1 =? 0).
    - destruct H as (o' & Hp & _). by apply promote_quiet in Hp as [_ ?].
    - by destruct H as [_ ->]. }
  rewrite Ht', Ht2 in Htrace. apply app_inv_head in Htrace.
  injection Htrace as Hargv Hrc. rewrite <- Hrc.
  rewrite insert_insert_eq in Hk2.
  exists k0', res.2, w2. cbv zeta. fold st. fold fl.
  split; [done|].
  split; [done|]. split; [|split; [done|split; [by simpl; rewrite Htick|done]]].
  intros q H1 H2. rewrite Hf2 by done. by apply Hf1.
Qed.

Lemma is_prefix_sibling (d : path) (a b : string) :
  a <> b -> is_prefix (d ++ [a]) (d ++ [b]) = false.
Proof.
  intros Hab. destruct (is_prefix (d ++ [a]) (d ++ [b])) eqn:H; [|done].
  apply is_prefix_spec in H as [s H].
  rewrite <- app_assoc in H. apply app_inv_head in H.
  simpl in H. injection H as H _. by destruct Hab.
Qed.

Lemma is_prefix_longer (d : path) (a : string) : is_prefix (d ++ [a]) d = false.
Proof.
  destruct (is_prefix (d ++ [a]) d) eqn:H; [|done].
  apply is_prefix_spec in H as [s H]. apply (f_equal List.length) in H.
  rewrite !length_app in H. simpl in H. lia.
Qed.

(** An entry of the store other than the staging area stands, in the world
    in which the engine has run, as it stood before. *)
Lemma staged_entry (base : path) (x : string) (rest : path) (r r2 : node) :
  (forall q, is_prefix (base ++ ["incomplete"]) q = false ->
             is_prefix q (base ++ ["incomplete"]) = false ->
             lookup_path q r2 = lookup_path q r) ->
  x <> "incomplete" ->
  lookup_path (base ++ x :: rest) r2 = lookup_path (base ++ x :: rest) r.
Proof.
  intros Hf Hx. apply Hf.
  - destruct (is_prefix _ _) eqn:H; [|done].
    apply is_prefix_spec in H as [s H]. rewrite <- app_assoc in H.
    apply app_inv_head in H. simpl in H. injection H as H _. by destruct Hx.
  - destruct (is_prefix _ _) eqn:H; [|done].
    apply is_prefix_spec in H as [s H]. rewrite <- app_assoc in H.
    apply app_inv_head in H. simpl in H. injection H as H _. by destruct Hx.
Qed.

(** *** The working directory *)

Lemma fold_norm_names (p acc : path) :
  Forall (fun n => valid_name n = true) p ->
  fold_left norm_step p acc = acc ++ p.
Proof.
  revert acc. induction p as [|c p IH]; intros acc Hp; simpl.
  { by rewrite app_nil_r. }
  apply Forall_cons in Hp as [Hc Hp].
  rewrite (norm_step_name _ _ Hc), IH by done. by rewrite <- app_assoc.
Qed.

Lemma split_slash_render (c : string) (p : path) :
  Forall (fun n => valid_name n = true) (c :: p) ->
  split_slash (fold_right (fun c acc => "/" +:+ c +:+ acc) "" (c :: p)) = "" :: c :: p.
Proof.
  revert c. induction p as [|c' p IH]; intros c Hp.
  - apply Forall_cons in Hp as [Hc _]. simpl.
    rewrite str_app_nil_l, str_app_nil_r.
    by destruct (valid_name_inv _ Hc) as [-> _].
  - apply Forall_cons in Hp as [Hc Hp]. specialize (IH c' Hp).
    simpl in IH |- *. rewrite str_app_nil_l in IH |- *.
    injection IH as IH.
    rewrite split_slash_app, IH.
    by destruct (valid_name_inv _ Hc) as [-> _].
Qed.

(** [os.chdir(os.getcwd())] comes back to the working directory. *)
Lemma resolve_render (p c0 : path) :
  Forall (fun n => valid_name n = true) p -> resolve c0 (render p) = p.
Proof.
  intros Hp. destruct p as [|c p]; [done|].
  unfold resolve, render. rewrite (split_slash_render _ _ Hp).
  assert (is_absolute (fold_right (fun c acc => "/" +:+ c +:+ acc) "" (c :: p)) = true)
    as -> by done.
  change (fold_left norm_step ("" :: c :: p) [])
    with (fold_left norm_step (c :: p) []).
  by rewrite fold_norm_names.
Qed.

(** X8. Whenever [run_rsync] returns, with [True] or with [False], the working
    directory of the process is the one it was called in: the promotion
    leaves it for the store and comes back. *)
Theorem run_rsync_keeps_cwd (E : extern) (config : Config) (profile : Profile)
    (flags : listref) (path : string) (w w' : world) (b : bool) :
  Forall (fun n => valid_name n = true) (cwd w) ->
  run_rsync E config profile flags path w = (Ret b, w') ->
  cwd w' = cwd w.
Proof.
  intros Hcwd Hrun.
  destruct (run_rsync_Ret _ _ _ _ _ _ _ _ Hrun)
    as (w1 & kids & k0 & Hmk & _ & _ & H).
  cbv zeta in H. destruct H as (_ & _ & _ & H).
  apply mkdir_p_Ret in Hmk as (_ & Hc1 & _).
  destruct b.
  - apply promote_Ret in H. cbv zeta in H.
    destruct H as (_ & _ & _ & _ & _ & _ & _ & _ & _ & _ & _ & Hc).
    rewrite Hc. simpl. rewrite Hc1. by apply resolve_render.
  - by rewrite H.
Qed.

Lemma run_rsync_keeps_cwd_witness :
  Forall (fun n => valid_name n = true) (cwd ex_full) /\
  cwd (run_rsync ex_ok ex_config ex_bob ref_rsync_flags "/etc" ex_full).2 = cwd ex_full.
Proof.
  assert (Forall (fun n => valid_name n = true) (cwd ex_full)) as H by constructor.
  split; [exact H|].
  exact (run_rsync_keeps_cwd _ _ _ _ _ _ _ _ H ex_full_run).
Defined.

(** *** Promotions that do not end *)

(** The promotion up to the reading of the clock: the process is in the
    store, the name of the snapshot is fixed. *)
Lemma promote_start (E : extern) (config : Config) (profile : Profile)
    (path : string) (count : Z) (oldest : string) (w2 : world) :
  let base_dir := base_dir_of config profile path in
  let base := resolve (cwd w2) base_dir in
  let t := strftime (clock E (tick w2)) in
  is_Some (dir_at base (fs w2)) ->
  promote E config base_dir count oldest w2 =
    (os_rename "incomplete" t >>
     try_except (os_remove "current") (fun _ => ret tt) >>
     os_symlink t "current" >>
     (if count >=? backup_count config
      then os_rename oldest (backup_path config +:+ "junk/" +:+ oldest)
      else ret tt) >>
     os_chdir (render (cwd w2))) (next_tick (set_cwd base w2)).
Proof.
  intros base_dir base t [k Hk].
  unfold promote. unfold bind at 1. unfold os_getcwd.
  unfold bind at 1. unfold os_chdir at 1.
  pose proof (base_dir_nonempty config profile path) as Hne.
  apply String.eqb_neq in Hne. fold base_dir in Hne. rewrite Hne.
  fold base. rewrite Hk.
  unfold bind at 1. unfold datetime_utcnow. done.
Qed.

(** The calls of the promotion one by one: an exception is an [OSError],
    and only [os.chdir] changes the working directory. *)
Lemma os_rename_any (a b : string) (w w' : world) (o : outcome unit) :
  os_rename a b w = (o, w') ->
  cwd w' = cwd w /\ forall e, o = Raise e -> exists en, e = OSError en.
Proof.
  unfold os_rename. intros H.
  destruct (_ || _); [simplify_eq; split; [done|intros ? [= <-]; eauto]|].
  destruct (fs_rename _ _ _); simplify_eq; split; try done.
  intros ? [= <-]. eauto.
Qed.

Lemma fs_call_any (s : string) op (w w' : world) (o : outcome unit) :
  fs_call s op w = (o, w') ->
  cwd w' = cwd w /\ forall e, o = Raise e -> exists en, e = OSError en.
Proof.
  unfold fs_call. intros H.
  destruct (String.eqb s ""); [simplify_eq; split; [done|intros ? [= <-]; eauto]|].
  destruct (op _ _); simplify_eq; split; try done.
  intros ? [= <-]. eauto.
Qed.

Lemma remove_current_any (w w' : world) (o : outcome unit) :
  try_except (os_remove "current") (fun _ => ret tt) w = (o, w') ->
  cwd w' = cwd w /\ o = Ret tt.
Proof.
  unfold try_except, os_remove.
  destruct (fs_call "current" fs_remove w) as [[[]|e] w1] eqn:H.
  - intros [= <- <-]. by apply fs_call_any in H as [? _].
  - unfold ret. intros [= <- <-]. by apply fs_call_any in H as [? _].
Qed.

Lemma os_chdir_raised (s : string) (w w' : world) (e : exn) :
  os_chdir s w = (Raise e, w') -> w' = w /\ exists en, e = OSError en.
Proof.
  unfold os_chdir. intros H.
  destruct (String.eqb s ""); [simplify_eq; eauto|].
  destruct (dir_at _ _); simplify_eq. eauto.
Qed.

(** From the store on no call of the promotion changes the working
    directory, but the last, and only when it succeeds; what the promotion
    raises is an [OSError]. *)
Lemma promote_rest_raised (t oldest junk_path back : string) (evict : bool)
    (w w' : world) (e : exn) :
  (os_rename "incomplete" t >>
   try_except (os_remove "current") (fun _ => ret tt) >>
   os_symlink t "current" >>
   (if evict then os_rename oldest junk_path else ret tt) >>
   os_chdir back) w = (Raise e, w') ->
  cwd w' = cwd w /\ exists en, e = OSError en.
Proof.
  intros H.
  apply bind_inv in H as [(e' & H & [= <-])|([] & w1 & H1 & H)].
  { apply os_rename_any in H as [? He]. split; [done|by apply He]. }
  apply os_rename_any in H1 as [C1 _].
  apply bind_inv in H as [(e' & H & [= <-])|([] & w2 & H2 & H)].
  { by apply remove_current_any in H as [_ ?]. }
  apply remove_current_any in H2 as [C2 _].
  apply bind_inv in H as [(e' & H & [= <-])|([] & w3 & H3 & H)].
  { apply fs_call_any in H as [? He]. split; [congruence|by apply He]. }
  apply fs_call_any in H3 as [C3 _].
  apply bind_inv in H as [(e' & H & [= <-])|([] & w4 & H4 & H)].
  { destruct evict; [|done].
    apply os_rename_any in H as [? He]. split; [congruence|by apply He]. }
  assert (cwd w4 = cwd w3) as C4.
  { destruct evict; [by apply os_rename_any in H4 as [? _]|].
    unfold ret in H4. by simplify_eq. }
  apply os_chdir_raised in H as [-> He]. split; [congruence|done].
Qed.

Lemma fs_rename_onto_full (d : path) (a b : string) (r : node)
    (kids ka kb : gmap string node) :
  dir_at d r = Some kids -> kids !! a = Some (Dir ka) -> kids !! b = Some (Dir kb) ->
  size kb <> 0%nat -> a <> b ->
  fs_rename (d ++ [a]) (d ++ [b]) r = inl ENOTEMPTY.
Proof.
  intros Hd Ha Hb Hsize Hab. unfold fs_rename.
  rewrite lookup_path_snoc, Hd, Ha, !unsnoc_snoc, Hd, Hb.
  destruct (path_eqb (d ++ [a]) (d ++ [b])) eqn:Heq.
  { apply path_eqb_eq, app_inv_head in Heq. by simplify_eq. }
  rewrite (is_prefix_sibling _ _ _ Hab). simpl.
  by rewrite bool_decide_eq_false_2.
Qed.

(** X9. When the engine has exited with 0 and [run_rsync] ends with an
    exception, the process is left in the store of the target: nothing
    brings it back to the directory [run_rsync] was called in. *)
Theorem failed_promotion_strands_cwd (E : extern) (config : Config)
    (profile : Profile) (flags : listref) (path : string) (w w' : world)
    (e : exn) (argv : list string) (rc : Z) :
  run_rsync E config profile flags path w = (Raise e, w') ->
  trace w' = trace w ++ [EvCall argv rc] ->
  rc = 0 /\ cwd w' = resolve (cwd w) (base_dir_of config profile path).
Proof.
  intros Hrun Htrace.
  destruct (run_rsync_staged _ _ _ _ _ _ _ _ _ _ Hrun Htrace)
    as (k0 & k2 & w2 & _ & Hk2 & _ & Hcwd & _ & H).
  cbv zeta in H. destruct (rc =? 0) eqn:Hrc; [|by destruct H].
  apply Z.eqb_eq in Hrc. split; [done|].
  destruct H as (o' & Hp & Ho). destruct o' as [[]|e']; [done|].
  rewrite <- Hcwd in Hk2.
  rewrite promote_start in Hp by (rewrite Hk2; eauto).
  apply promote_rest_raised in Hp as [Hp _]. by rewrite Hp, <- Hcwd.
Qed.

(** X10. Two promotions of one target in the same second: when the store
    already holds a snapshot, with something in it, under the name the clock
    gives, the run of the engine that exits with 0 ends in
    [OSError(ENOTEMPTY)] from the renaming. The copy stays in the staging
    area, every other entry of the disk is as before the call, and the
    process is left in the store. *)
Theorem same_second_promotion_raises (E : extern) (config : Config)
    (profile : Profile) (flags : listref) (path : string) (w w' : world)
    (o : outcome bool) (argv : list string) (k : gmap string node) :
  let base := resolve (cwd w) (base_dir_of config profile path) in
  let t := strftime (clock E (S (tick w))) in
  run_rsync E config profile flags path w = (o, w') ->
  trace w' = trace w ++ [EvCall argv 0] ->
  dir_at (base ++ [t]) (fs w) = Some k -> size k <> 0%nat ->
  o = Raise (OSError ENOTEMPTY) /\
  is_Some (dir_at (base ++ ["incomplete"]) (fs w')) /\
  (forall q, is_prefix (base ++ ["incomplete"]) q = false ->
             is_prefix q (base ++ ["incomplete"]) = false ->
             lookup_path q (fs w') = lookup_path q (fs w)) /\
  cwd w' = base.
Proof.
  intros base t Hrun Htrace Hk Hsize.
  destruct (run_rsync_staged _ _ _ _ _ _ _ _ _ _ Hrun Htrace)
    as (k0 & k2 & w2 & _ & Hk2 & Hf2 & Hcwd & Htick & H).
  cbv zeta in H. change (0 =? 0) with true in H. cbv iota in H.
  destruct H as (o' & Hp & ->). fold base in Hk2, Hf2.
  set (K0 := entries_at base (fs w)) in *.
  assert ("incomplete" <> t) as Hit.
  { intros E'. pose proof (strftime_is_snapshot_name (clock E (S (tick w)))) as Hs.
    fold t in Hs. by rewrite <- E' in Hs. }
  assert (K0 !! t = Some (Dir k)) as Ht.
  { apply dir_at_snoc in Hk as (kids & Hkids & Hkt).
    unfold K0, entries_at. by rewrite Hkids. }
  rewrite promote_start in Hp by (rewrite Hcwd; fold base; rewrite Hk2; eauto).
  rewrite Hcwd, Htick in Hp. fold base t in Hp.
  unfold bind at 1 in Hp. unfold os_rename at 1 in Hp.
  assert (String.eqb t "" = false) as Hne.
  { apply String.eqb_neq. intros He. pose proof (strftime_valid (clock E (S (tick w)))).
    fold t in H. by rewrite He in H. }
  rewrite Hne in Hp. cbn [orb String.eqb cwd fs next_tick set_cwd] in Hp.
  rewrite (resolve_name _ "incomplete"), (resolve_name _ t) in Hp
    by (done || apply strftime_valid).
  rewrite (fs_rename_onto_full _ _ _ _ _ k2 k Hk2) in Hp; try done.
  2: by rewrite lookup_insert_eq.
  2: by rewrite lookup_insert_ne.
  injection Hp as <- <-. split; [done|].
  cbn [fs cwd next_tick set_cwd]. split; [|split; [done|done]].
  exists k2. apply dir_at_snoc. exists (<["incomplete" := Dir k2]> K0).
  by rewrite lookup_insert_eq.
Qed.

Lemma same_second_promotion_raises_witness :
  let w := ex_taken in
  let run := run_rsync ex_ok ex_config ex_bob ref_rsync_flags "/etc" w in
  let base := resolve (cwd w) (base_dir_of ex_config ex_bob "/etc") in
  run.1 = Raise (OSError ENOTEMPTY) /\
  is_Some (dir_at (base ++ ["incomplete"]) (fs run.2)) /\
  (forall q, is_prefix (base ++ ["incomplete"]) q = false ->
             is_prefix q (base ++ ["incomplete"]) = false ->
             lookup_path q (fs run.2) = lookup_path q (fs w)) /\
  cwd run.2 = base.
Proof.
  apply (same_second_promotion_raises ex_ok ex_config ex_bob ref_rsync_flags "/etc"
           ex_taken _ _
           (command_of ex_config ex_bob "/etc"
              (flags_after ex_config ex_bob "/etc" (obj_rsync_flags module_heap)
                 "2020-01-01__00-00-01"))
           {["passwd" := File]}).
  - apply surjective_pairing.
  - vm_compute. reflexivity.
  - vm_compute. reflexivity.
  - vm_compute. discriminate.
Defined.

Lemma failed_promotion_strands_cwd_witness :
  0 = 0 /\
  cwd (run_rsync ex_ok ex_config ex_bob ref_rsync_flags "/etc" ex_taken).2
  = resolve (cwd ex_taken) (base_dir_of ex_config ex_bob "/etc").
Proof.
  apply (failed_promotion_strands_cwd ex_ok ex_config ex_bob ref_rsync_flags "/etc"
           ex_taken _ (OSError ENOTEMPTY)
           (command_of ex_config ex_bob "/etc"
              (flags_after ex_config ex_bob "/etc" (obj_rsync_flags module_heap)
                 "2020-01-01__00-00-01"))).
  - vm_compute. reflexivity.
  - vm_compute. reflexivity.
Defined.

(** *** Synchronizations that cannot return [True] *)

(** X11. The oldest name that [backup_stats] returns is ["Z"] when no counted
    entry of the store sorts at or before it; the eviction then renames an
    entry ["Z"] that the store does not hold. So where the count has reached
    the cap in such a store, which every store without snapshots is when the
    cap is zero or less, [run_rsync] never returns [True]: it returns
    [False] or ends with an exception. *)
Theorem eviction_of_start_value_fails (E : extern) (config : Config)
    (profile : Profile) (flags : listref) (path : string) (w w' : world)
    (o : outcome bool) :
  let base := resolve (cwd w) (base_dir_of config profile path) in
  let S0 := snapshots base (fs w) in
  (forall x, x ∈ S0 -> str_lt "Z" x = true) ->
  backup_count config <= Z.of_nat (size S0) ->
  run_rsync E config profile flags path w = (o, w') ->
  o <> Ret true.
Proof.
  intros base S0 Hall Hcap Hrun ->.
  destruct (run_rsync_success _ _ _ _ _ _ _ Hrun) as (k0 & k & r5 & Hk5 & _ & Hev).
  fold base in Hk5, Hev.
  set (t := strftime (clock E (S (tick w)))) in *.
  set (K0 := entries_at base (fs w)) in *.
  assert (S0 = filter (fun x => is_snapshot_name x = true) (dom K0)) as HS0.
  { unfold S0, snapshots. by rewrite names_at_entries. }
  destruct (stats_of_store K0 (Dir k0)) as (Hc & _ & _ & Ho & _).
  rewrite <- HS0 in Hc, Ho.
  destruct (stats_of_spec (map fst (map_to_list (<["incomplete" := Dir k0]> K0))))
    as (_ & _ & _ & _ & HoZ & _).
  set (st := stats_of (map fst (map_to_list (<["incomplete" := Dir k0]> K0)))) in *.
  assert (st.2 = "Z") as HZ.
  { destruct Ho as [?|Ho]; [done|]. specialize (Hall _ Ho).
    by rewrite str_le_lt, Hall in HoZ. }
  assert ((st.1.1 >=? backup_count config) = true) as Hge.
  { rewrite Hc. apply Z.geb_le. lia. }
  rewrite Hge, HZ in Hev. rewrite (resolve_name _ "Z") in Hev by done.
  assert (lookup_path (base ++ ["Z"]) r5 = None) as Hnone.
  { rewrite lookup_path_snoc, Hk5.
    rewrite lookup_insert_ne by done.
    rewrite lookup_insert_ne by (intros Et; by apply (strftime_not_Z (clock E (S (tick w))))).
    rewrite lookup_delete_ne by done.
    destruct (K0 !! "Z") eqn:HK; [|done].
    assert ("Z" ∈ S0) as Hin.
    { rewrite HS0. apply elem_of_filter. split; [done|]. apply elem_of_dom. eauto. }
    specialize (Hall _ Hin). by rewrite str_lt_irrefl in Hall. }
  apply fs_rename_inv in Hev as [(_ & _ & [n Hn])|Hev].
  - by rewrite Hnone in Hn.
  - destruct Hev as (sd & sx & dd & dx & n & r1 & dk & _ & _ & _ & Hn & _).
    by rewrite Hnone in Hn.
Qed.

Lemma eviction_of_start_value_fails_witness :
  (run_rsync ex_ok ex_config_zero ex_bob ref_rsync_flags "/etc" ex_blank).1 <> Ret true /\
  (run_rsync ex_ok ex_config_zero ex_bob ref_rsync_flags "/etc" ex_blank).1
  = Raise (OSError ENOENT).
Proof.
  split; [|by vm_compute].
  apply (eviction_of_start_value_fails ex_ok ex_config_zero ex_bob ref_rsync_flags
           "/etc" ex_blank
           (run_rsync ex_ok ex_config_zero ex_bob ref_rsync_flags "/etc" ex_blank).2).
  - apply (bool_decide_unpack (set_Forall (fun x => str_lt "Z" x = true) _)).
    vm_compute. reflexivity.
  - vm_compute. discriminate.
  - apply surjective_pairing.
Defined.

Lemma fs_remove_directory (d : path) (x : string) (r : node)
    (kids k : gmap string node) :
  dir_at d r = Some kids -> kids !! x = Some (Dir k) ->
  fs_remove (d ++ [x]) r = inl EISDIR.
Proof. intros Hd Hx. unfold fs_remove. by rewrite unsnoc_snoc, Hd, Hx. Qed.

(** X12. [os.remove] does not remove a directory, and the script passes over
    whatever [os.remove] raises: where [current] is a directory in the
    store, [os.symlink] finds the name taken, and [run_rsync] never returns
    [True]. *)
Theorem current_directory_blocks_sync (E : extern) (config : Config)
    (profile : Profile) (flags : listref) (path : string) (w w' : world)
    (o : outcome bool) :
  let base := resolve (cwd w) (base_dir_of config profile path) in
  is_Some (dir_at (base ++ ["current"]) (fs w)) ->
  run_rsync E config profile flags path w = (o, w') ->
  o <> Ret true.
Proof.
  intros base [kc Hcur] Hrun ->.
  destruct (run_rsync_Ret _ _ _ _ _ _ _ _ Hrun)
    as (w1 & kids & k0 & Hmk & Hkids & _ & H).
  cbv zeta in H. destruct H as (_ & Hk2 & Hf2 & Hp).
  destruct (mkdir_p_Ret _ _ _ Hmk) as (_ & Hcwd & _ & _ & _ & _ & Hf1).
  fold base in Hkids, Hk2.
  rewrite resolve_target in Hf1, Hf2. fold base in Hf1, Hf2.
  set (st := stats_of _) in *.
  set (fl := flags_after config profile path (deref (heap w) flags) st.1.2) in *.
  set (res := engine E (tick w) (command_of config profile path fl) k0) in *.
  set (w2 := after_call config profile flags path w1 fl res.1 _) in *.
  assert (cwd w2 = cwd w) as Hcwd2 by done.
  assert (kids !! "current" = Some (Dir kc)) as Hkc.
  { assert (dir_at (base ++ ["current"]) (fs w1) = Some kc) as Hc1.
    { unfold dir_at. rewrite Hf1; [done|]. by apply is_prefix_sibling. }
    apply dir_at_snoc in Hc1 as (kids' & Hk' & ?). congruence. }
  apply promote_Ret in Hp. cbv zeta in Hp.
  destruct Hp as (r3 & r4 & r5 & _ & Hr3 & Hr4 & Hr5 & _).
  rewrite Hcwd2 in Hr3, Hr4, Hr5. fold base in Hr3, Hr4, Hr5.
  set (t := strftime _) in *.
  assert (is_snapshot_name t = true) as Hs by apply strftime_is_snapshot_name.
  assert ("incomplete" <> t) as Hit by (intros E'; by rewrite <- E' in Hs).
  assert ("current" <> t) as Hct by (intros E'; by rewrite <- E' in Hs).
  destruct (fs_rename_same_dir _ _ _ _ _ Hr3 Hit) as (k & staged & Hk & _ & Hk3 & _).
  rewrite Hk2 in Hk. injection Hk as <-.
  assert ((<[t := staged]> (delete "incomplete" (<["incomplete" := Dir res.2]> kids)))
            !! "current" = Some (Dir kc)) as Hc3.
  { rewrite lookup_insert_ne by done. rewrite lookup_delete_ne by done.
    by rewrite lookup_insert_ne. }
  assert (r4 = r3) as ->.
  { destruct Hr4 as [Hr4|?]; [|done].
    by rewrite (fs_remove_directory _ _ _ _ _ Hk3 Hc3) in Hr4. }
  apply fs_symlink_inv in Hr5 as (k & Hk & Hnone & _).
  rewrite Hk3 in Hk. injection Hk as <-. by rewrite Hc3 in Hnone.
Qed.

Lemma current_directory_blocks_sync_witness :
  (run_rsync ex_ok ex_config ex_bob ref_rsync_flags "/etc" ex_current_dir).1 <> Ret true /\
  (run_rsync ex_ok ex_config ex_bob ref_rsync_flags "/etc" ex_current_dir).1
  = Raise (OSError EEXIST).
Proof.
  split; [|by vm_compute].
  apply (current_directory_blocks_sync ex_ok ex_config ex_bob ref_rsync_flags
           "/etc" ex_current_dir
           (run_rsync ex_ok ex_config ex_bob ref_rsync_flags "/etc" ex_current_dir).2).
  - vm_compute. eauto.
  - apply surjective_pairing.
Defined.

(** ** The store from one synchronization to the next *)

(** The snapshots of the store after a synchronization that returned
    [True]. *)
Lemma store_after_sync (E : extern) (config : Config) (profile : Profile)
    (flags : listref) (path : string) (w w' : world) :
  let base := resolve (cwd w) (base_dir_of config profile path) in
  let junk := resolve (cwd w) (junk_dir_of config) in
  let t := strftime (clock E (S (tick w))) in
  let S0 := snapshots base (fs w) in
  is_absolute (backup_path config) = true ->
  apart base junk ->
  (forall x, x ∈ S0 -> valid_name x = true) ->
  run_rsync E config profile flags path w = (Ret true, w') ->
  if Z.of_nat (size S0) >=? backup_count config
  then exists o, o ∈ S0 /\ snapshots base (fs w') = (S0 ∪ {[t]}) ∖ {[o]}
  else snapshots base (fs w') = S0 ∪ {[t]}.
Proof.
  intros base junk t S0 Habs Hap Hvalid Hrun.
  destruct (run_rsync_success _ _ _ _ _ _ _ Hrun) as (k0 & k & r5 & Hk5 & Hf5 & Hev).
  fold base t in Hk5, Hf5, Hev.
  set (K0 := entries_at base (fs w)) in *.
  assert (S0 = filter (fun x => is_snapshot_name x = true) (dom K0)) as HS0.
  { unfold S0, snapshots. by rewrite names_at_entries. }
  destruct (stats_of_store K0 (Dir k0)) as (Hc & _ & _ & Ho & _).
  rewrite <- HS0 in Hc, Ho.
  set (st := stats_of (map fst (map_to_list (<["incomplete" := Dir k0]> K0)))) in *.
  rewrite Hc in Hev.
  assert (is_snapshot_name t = true) as Ht by apply strftime_is_snapshot_name.
  destruct (apart_diverge _ _ Hap) as (A1 & A2 & _).
  destruct (Z.of_nat (size S0) >=? backup_count config).
  - assert (valid_name st.2 = true) as Hv.
    { destruct Ho as [->|Ho]; [done|]. by apply Hvalid. }
    rewrite (resolve_name _ _ Hv), (resolve_junk_path _ _ _ Hv) in Hev.
    rewrite (resolve_absolute base (cwd w)) in Hev by by apply junk_dir_absolute.
    fold junk in Hev.
    destruct (fs_rename_across _ _ _ _ _ _ Hev A1 A2)
      as (k' & n & jk & Hkb & Hn & _ & Hb & _).
    rewrite Hk5 in Hkb. injection Hkb as <-.
    exists st.2. split.
    + destruct Ho as [Ho|Ho]; [|done].
      rewrite Ho in Hn.
      rewrite lookup_insert_ne in Hn by done.
      rewrite lookup_insert_ne in Hn
        by (intros Et; by apply (strftime_not_Z (clock E (S (tick w))))).
      rewrite lookup_delete_ne in Hn by done.
      rewrite Ho, HS0. apply elem_of_filter. split; [done|].
      apply elem_of_dom. eauto.
    + rewrite (snapshots_dir _ _ _ Hb), snapshots_evicted, snapshots_promoted by done.
      by rewrite HS0.
  - subst r5.
    rewrite (snapshots_dir _ _ _ Hk5), snapshots_promoted by done. by rewrite HS0.
Qed.

(** X13. A synchronization that returns [True] and makes a snapshot under a new
    name never leaves fewer snapshots than it found, and never more than the
    larger of the number it found and the cap: a store within the cap stays
    within it, and a store above the cap is not brought down to it. *)
Theorem retention_bound (E : extern) (config : Config) (profile : Profile)
    (flags : listref) (path : string) (w w' : world) :
  let base := resolve (cwd w) (base_dir_of config profile path) in
  let junk := resolve (cwd w) (junk_dir_of config) in
  let t := strftime (clock E (S (tick w))) in
  let S0 := snapshots base (fs w) in
  let S1 := snapshots base (fs w') in
  is_absolute (backup_path config) = true ->
  apart base junk ->
  (forall x, x ∈ S0 -> valid_name x = true) ->
  t ∉ S0 ->
  run_rsync E config profile flags path w = (Ret true, w') ->
  (size S0 <= size S1)%nat /\
  Z.of_nat (size S1) <= Z.max (Z.of_nat (size S0)) (backup_count config) /\
  (backup_count config <= Z.of_nat (size S0) -> size S1 = size S0).
Proof.
  intros base junk t S0 S1 Habs Hap Hvalid Hnew Hrun.
  pose proof (store_after_sync _ _ _ _ _ _ _ Habs Hap Hvalid Hrun) as H.
  fold base t S0 S1 in H.
  assert (size (S0 ∪ {[t]}) = S (size S0)) as Hsz.
  { rewrite size_union, size_singleton by by apply disjoint_singleton_r. lia. }
  destruct (Z.of_nat (size S0) >=? backup_count config) eqn:Hge.
  - destruct H as (o & Ho & ->). apply Z.geb_le in Hge.
    assert (size ((S0 ∪ {[t]}) ∖ {[o]}) = size S0) as ->.
    { rewrite size_difference, Hsz, size_singleton; [lia|].
      apply singleton_subseteq_l, elem_of_union. by left. }
    split; [done|]. split; [lia|done].
  - rewrite H, Hsz.
    assert (Z.of_nat (size S0) < backup_count config) as Hlt.
    { destruct (Z.geb_spec (Z.of_nat (size S0)) (backup_count config)); [done|lia]. }
    split; [lia|]. split; lia.
Qed.

Lemma retention_bound_witness :
  let w := ex_full in
  let w' := (run_rsync ex_ok ex_config ex_bob ref_rsync_flags "/etc" w).2 in
  let base := resolve (cwd w) (base_dir_of ex_config ex_bob "/etc") in
  let S0 := snapshots base (fs w) in
  let S1 := snapshots base (fs w') in
  (size S0 <= size S1)%nat /\
  Z.of_nat (size S1) <= Z.max (Z.of_nat (size S0)) (backup_count ex_config) /\
  (backup_count ex_config <= Z.of_nat (size S0) -> size S1 = size S0).
Proof.
  apply (retention_bound ex_ok ex_config ex_bob ref_rsync_flags "/etc" ex_full).
  - reflexivity.
  - split; reflexivity.
  - exact ex_full_names_valid.
  - apply (bool_decide_unpack _). vm_compute. reflexivity.
  - exact ex_full_run.
Defined.

(** X14. Each synchronization builds on the one before: after a synchronization
    that made the snapshot [t1], newer than every snapshot of the store, the
    next run of the engine for the same target gets the link flag of [t1],
    after all the flags the list held when the first synchronization
    returned. *)
Theorem next_sync_links_to_last (E : extern) (config : Config) (profile : Profile)
    (flags : listref) (path : string) (w w1 w2 : world) (o : outcome bool)
    (argv : list string) (rc : Z) :
  let base := resolve (cwd w) (base_dir_of config profile path) in
  let junk := resolve (cwd w) (junk_dir_of config) in
  let t1 := strftime (clock E (S (tick w))) in
  let S0 := snapshots base (fs w) in
  is_absolute (backup_path config) = true ->
  apart base junk ->
  (forall x, x ∈ S0 -> valid_name x = true) ->
  (forall x, x ∈ S0 -> str_lt x t1 = true) ->
  run_rsync E config profile flags path w = (Ret true, w1) ->
  run_rsync E config profile flags path w1 = (o, w2) ->
  trace w2 = trace w1 ++ [EvCall argv rc] ->
  argv = command_of config profile path
           ((deref (heap w1) flags
               ++ map exclude_flag (default [] (profile_excludes profile)))
              ++ [link_dest_flag (base_dir_of config profile path) t1]).
Proof.
  intros base junk t1 S0 Habs Hap Hvalid Hold Hrun1 Hrun2 Htrace.
  pose proof (store_after_sync _ _ _ _ _ _ _ Habs Hap Hvalid Hrun1) as H1.
  fold base t1 S0 in H1.
  assert (t1 ∉ S0) as Hnew.
  { intros Hin. specialize (Hold _ Hin). by rewrite str_lt_irrefl in Hold. }
  assert (t1 ∈ snapshots base (fs w1) /\
          forall x, x ∈ snapshots base (fs w1) -> str_le x t1 = true) as [Hin Hmax].
  { assert (forall x, x ∈ S0 ∪ {[t1]} -> str_le x t1 = true) as Hle.
    { intros x [Hx| ->%elem_of_singleton]%elem_of_union;
        [by apply str_lt_le, Hold|apply str_le_refl]. }
    destruct (Z.of_nat (size S0) >=? backup_count config).
    - destruct H1 as (o1 & Ho1 & ->). split.
      + apply elem_of_difference. split; [apply elem_of_union; right; by apply elem_of_singleton|].
        intros ->%elem_of_singleton. done.
      + intros x [Hx _]%elem_of_difference. by apply Hle.
    - rewrite H1. split; [|done]. apply elem_of_union. right. by apply elem_of_singleton. }
  destruct (run_rsync_staged _ _ _ _ _ _ _ _ _ _ Hrun2 Htrace)
    as (k0 & _ & _ & Hargv & _).
  cbv zeta in Hargv.
  assert (resolve (cwd w1) (base_dir_of config profile path) = base) as Hb.
  { apply resolve_absolute. unfold base_dir_of.
    rewrite is_absolute_app; [done|]. intros He. by rewrite He in Habs. }
  rewrite Hb in Hargv.
  set (K1 := entries_at base (fs w1)) in *.
  assert (snapshots base (fs w1) = filter (fun x => is_snapshot_name x = true) (dom K1))
    as HS1.
  { unfold snapshots. by rewrite names_at_entries. }
  destruct (stats_of_store K1 (Dir k0)) as (_ & Hn & Hnmax & _).
  rewrite <- HS1 in Hn, Hnmax.
  set (st := stats_of (map fst (map_to_list (<["incomplete" := Dir k0]> K1)))) in *.
  assert (st.1.2 = t1) as Hnewest.
  { apply str_le_antisym; [|by apply Hnmax].
    destruct Hn as [Hn|Hn]; [|by apply Hmax].
    rewrite Hn. apply str_empty_le. }
  by rewrite Hargv, Hnewest.
Qed.

Lemma next_sync_links_to_last_witness :
  let w1 := (run_rsync ex_ok ex_config ex_bob ref_rsync_flags "/etc" ex_full).2 in
  command_of ex_config ex_bob "/etc"
    (flags_after ex_config ex_bob "/etc" (deref (heap w1) ref_rsync_flags)
       "2020-01-01__00-00-01")
  = command_of ex_config ex_bob "/etc"
      ((deref (heap w1) ref_rsync_flags
          ++ map exclude_flag (default [] (profile_excludes ex_bob)))
         ++ [link_dest_flag (base_dir_of ex_config ex_bob "/etc")
               (strftime (clock ex_ok (S (tick ex_full))))]).
Proof.
  apply (next_sync_links_to_last ex_ok ex_config ex_bob ref_rsync_flags "/etc" ex_full
           (run_rsync ex_ok ex_config ex_bob ref_rsync_flags "/etc" ex_full).2
           (run_rsync ex_ok ex_config ex_bob ref_rsync_flags "/etc"
              (run_rsync ex_ok ex_config ex_bob ref_rsync_flags "/etc" ex_full).2).2
           (run_rsync ex_ok ex_config ex_bob ref_rsync_flags "/etc"
              (run_rsync ex_ok ex_config ex_bob ref_rsync_flags "/etc" ex_full).2).1
           _ 0).
  - reflexivity.
  - split; reflexivity.
  - exact ex_full_names_valid.
  - apply (bool_decide_unpack
             (set_Forall (fun x => str_lt x "2020-01-01__00-00-01" = true) _)).
    vm_compute. reflexivity.
  - exact ex_full_run.
  - apply surjective_pairing.
  - vm_compute. reflexivity.
Defined.

(** ** The run as a whole *)

(** The main block is the building of the flag list, then the rest. *)
Lemma main_prefix (E : extern) (config : Config) (args : Args) (w : world) :
  main E config args w =
    main_loop E config args
      (set_heap (store ref_rsync_flags (initial_flags config args (heap w)) (heap w)) w).
Proof.
  unfold main, main_loop, initial_flags.
  destruct w as [r c [fl vb] t tr].
  unfold bind at 1. destruct (excludes config) as [es|];
    unfold bind at 1; destruct (arg_verbose args);
    unfold bind at 1; destruct (arg_dry args);
    cbn -[mkdir_p for_profiles shutil_rmtree send_email];
    rewrite ?app_nil_r; reflexivity.
Qed.

(** The exceptions of [run_rsync] are those of the calls into [os]. *)
Lemma mkdir_p_raises (s : string) (w w' : world) (e : exn) :
  mkdir_p s w = (Raise e, w') -> exists en, e = OSError en.
Proof.
  unfold mkdir_p, try_except, os_makedirs, fs_call, bind, os_path_isdir, ret, raise.
  intros H. repeat case_match; simplify_eq; eauto.
Qed.

Lemma run_rsync_raises (E : extern) (config : Config) (profile : Profile)
    (flags : listref) (path : string) (w w' : world) (e : exn) :
  run_rsync E config profile flags path w = (Raise e, w') ->
  exists en, e = OSError en.
Proof.
  intros [(e' & Hmk & [= <-])|(w1 & kids & k0 & Hmk & _ & _ & H)]%run_rsync_inv.
  { by apply mkdir_p_raises in Hmk. }
  cbv zeta in H. destruct H as (Hk2 & _ & H).
  destruct (mkdir_p_Ret _ _ _ Hmk) as (_ & Hc1 & _).
  set (st := stats_of _) in *.
  set (fl := flags_after config profile path (deref (heap w) flags) st.1.2) in *.
  set (res := engine E (tick w) (command_of config profile path fl) k0) in *.
  set (w2 := after_call config profile flags path w1 fl res.1 _) in *.
  assert (cwd w2 = cwd w) as Hc2 by done.
  destruct (res.1 =? 0); [|by destruct H].
  destruct H as ([[]|e'] & Hp & Ho); [done|]. injection Ho as ->.
  rewrite promote_start in Hp by (rewrite Hc2, Hk2; eauto).
  by apply promote_rest_raised in Hp as [_ ?].
Qed.

Lemma command_lines_app (config : Config) (before : list string)
    (tgs1 tgs2 : list (Profile * string)) (ns1 ns2 : list string) :
  List.length ns1 = List.length tgs1 ->
  command_lines config before (tgs1 ++ tgs2) (ns1 ++ ns2) =
    command_lines config before tgs1 ns1
      ++ command_lines config (flags_end config before tgs1 ns1) tgs2 ns2.
Proof.
  revert before ns1. induction tgs1 as [|tg tgs1 IH]; intros before [|n ns1] Hl;
    try done.
  simpl. rewrite IH; [done|]. simpl in Hl. lia.
Qed.

Lemma flags_end_app (config : Config) (before : list string)
    (tgs1 tgs2 : list (Profile * string)) (ns1 ns2 : list string) :
  List.length ns1 = List.length tgs1 ->
  flags_end config before (tgs1 ++ tgs2) (ns1 ++ ns2) =
    flags_end config (flags_end config before tgs1 ns1) tgs2 ns2.
Proof.
  revert before ns1. induction tgs1 as [|tg tgs1 IH]; intros before [|n ns1] Hl;
    try done.
  simpl. rewrite IH; [done|]. simpl in Hl. lia.
Qed.

Section Run.

Variables (E : extern) (config : Config).

(** The loop over the directories of a profile, whatever its end: the
    events are runs of the engine, an exception is an [OSError]. *)
Lemma for_dirs_events (profile : Profile) (flags : listref) (paths : list string)
    (success : bool) (w w' : world) (o : outcome bool) :
  for_dirs E config profile flags paths success w = (o, w') ->
  (exists cs, trace w' = trace w ++ map (fun c => EvCall c.1 c.2) cs) /\
  (forall e, o = Raise e -> exists en, e = OSError en).
Proof.
  revert success w. induction paths as [|path rest IH]; intros success w; simpl.
  { intros [= <- <-]. split; [|done]. exists []. simpl. by rewrite app_nil_r. }
  intros [(e & Hrun & ->)|(ok & w1 & Hrun & Hrest)]%bind_inv.
  - split.
    + destruct (run_rsync_trace _ _ _ _ _ _ _ _ Hrun)
        as [(-> & _)|(newest & rc & Ht & _)].
      * exists []. simpl. by rewrite app_nil_r.
      * eexists [(_, rc)]. exact Ht.
    + intros e' [= <-]. by apply run_rsync_raises in Hrun.
  - destruct (run_rsync_trace _ _ _ _ _ _ _ _ Hrun)
      as [(_ & _ & e & ?)|(newest & rc & Ht & _)]; [done|].
    destruct (IH _ _ Hrest) as ((cs & Ht') & He). split; [|done].
    eexists ((_, rc) :: cs). rewrite Ht', Ht, <- app_assoc. done.
Qed.

Lemma for_profiles_events (flags : listref) (ps : list Profile)
    (success : bool) (w w' : world) (o : outcome bool) :
  for_profiles E config flags ps success w = (o, w') ->
  (exists cs, trace w' = trace w ++ map (fun c => EvCall c.1 c.2) cs) /\
  (forall e, o = Raise e -> exists en, e = OSError en).
Proof.
  revert success w. induction ps as [|p rest IH]; intros success w; simpl.
  { intros [= <- <-]. split; [|done]. exists []. simpl. by rewrite app_nil_r. }
  intros [(e & Hdirs & ->)|(s1 & w1 & Hdirs & Hrest)]%bind_inv.
  - destruct (for_dirs_events _ _ _ _ _ _ _ Hdirs) as (Hcs & He). split; [done|].
    intros e' [= <-]. by apply He.
  - destruct (for_dirs_events _ _ _ _ _ _ _ Hdirs) as ((cs1 & Ht1) & _).
    destruct (IH _ _ Hrest) as ((cs2 & Ht2) & He). split; [|done].
    exists (cs1 ++ cs2). by rewrite Ht2, Ht1, map_app, app_assoc.
Qed.

(** The command lines of the loops that return: each run of the engine gets
    the flag list the run before left. *)
Lemma for_dirs_lines (profile : Profile) (flags : listref) (paths : list string)
    (success b : bool) (w w' : world) :
  for_dirs E config profile flags paths success w = (Ret b, w') ->
  let tgs := map (fun d => (profile, d)) paths in
  exists ns cs,
    List.length ns = List.length tgs /\
    trace w' = trace w ++ map (fun c => EvCall c.1 c.2) cs /\
    map fst cs = command_lines config (deref (heap w) flags) tgs ns /\
    heap w' = store flags (flags_end config (deref (heap w) flags) tgs ns) (heap w) /\
    b = success && forallb (fun c => c.2 =? 0) cs.
Proof.
  revert success w. induction paths as [|path rest IH]; intros success w; simpl.
  { intros [= <- <-]. exists [], []. simpl.
    rewrite app_nil_r, andb_true_r. repeat split; try done.
    by destruct (heap w), flags. }
  intros (ok & w1 & Hrun & Hrest)%bind_Ret.
  destruct (run_rsync_trace _ _ _ _ _ _ _ _ Hrun)
    as [(_ & _ & e & ?)|(newest & rc & Ht & Hh & _ & Hb)]; [done|].
  destruct (IH _ _ Hrest) as (ns & cs & Hl & Ht' & Hcs & Hh' & Hb').
  cbv zeta in Ht, Hh. rewrite Hh, deref_store in Hcs, Hh'.
  eexists (newest :: ns), ((_, rc) :: cs). simpl. repeat split.
  - by rewrite Hl.
  - rewrite Ht', Ht, <- app_assoc. done.
  - by rewrite Hcs.
  - by rewrite Hh', store_store.
  - rewrite Hb', (Hb ok eq_refl). by destruct (rc =? 0), success.
Qed.

Lemma for_profiles_lines (flags : listref) (ps : list Profile)
    (success b : bool) (w w' : world) :
  for_profiles E config flags ps success w = (Ret b, w') ->
  exists ns cs,
    List.length ns = List.length (targets ps) /\
    trace w' = trace w ++ map (fun c => EvCall c.1 c.2) cs /\
    map fst cs = command_lines config (deref (heap w) flags) (targets ps) ns /\
    heap w' = store flags (flags_end config (deref (heap w) flags) (targets ps) ns)
                (heap w) /\
    b = success && forallb (fun c => c.2 =? 0) cs.
Proof.
  revert success w. induction ps as [|p rest IH]; intros success w; simpl.
  { intros [= <- <-]. exists [], []. simpl.
    rewrite app_nil_r, andb_true_r. repeat split; try done.
    by destruct (heap w), flags. }
  intros (s1 & w1 & Hdirs & Hrest)%bind_Ret.
  destruct (for_dirs_lines _ _ _ _ _ _ _ Hdirs) as (ns1 & cs1 & Hl1 & Ht1 & Hc1 & Hh1 & Hb1).
  destruct (IH _ _ Hrest) as (ns2 & cs2 & Hl2 & Ht2 & Hc2 & Hh2 & Hb2).
  cbv zeta in Hl1, Hc1, Hh1. rewrite Hh1, deref_store in Hc2, Hh2.
  exists (ns1 ++ ns2), (cs1 ++ cs2). unfold targets in *. simpl. repeat split.
  - by rewrite !length_app, Hl1, Hl2.
  - by rewrite Ht2, Ht1, map_app, app_assoc.
  - by rewrite map_app, command_lines_app, Hc1, Hc2.
  - by rewrite Hh2, store_store, flags_end_app.
  - rewrite Hb2, Hb1, forallb_app. by rewrite andb_assoc.
Qed.

(** The rest of the main block, when it returns. *)
Lemma main_loop_Ret (args : Args) (w w' : world) (b : bool) :
  main_loop E config args w = (Ret b, w') ->
  exists wa wb,
    heap wa = heap w /\ trace wa = trace w /\
    for_profiles E config ref_rsync_flags (profiles config) true wa = (Ret b, wb) /\
    is_Some (dir_at (resolve (cwd wb) (junk_dir_of config)) (fs wb)) /\
    lookup_path (resolve (cwd wb) (junk_dir_of config)) (fs w') = None /\
    cwd w' = cwd wb /\ heap w' = heap wb /\
    trace w' = trace wb ++ mail_events args b
                 ++ [EvRmtree (resolve (cwd wb) (junk_dir_of config))].
Proof.
  unfold main_loop.
  intros ([] & wa & Hmk & H)%bind_Ret.
  apply bind_Ret in H as (s & wb & Hloop & H).
  apply bind_Ret in H as ([] & wc & Hmail & H).
  apply bind_Ret in H as ([] & wd & Hrm & H).
  unfold ret in H. simplify_eq.
  apply mkdir_p_quiet in Hmk as (_ & Hh & _ & Ht).
  exists wa, wb. split; [done|]. split; [done|]. split; [done|].
  assert (fs wc = fs wb /\ cwd wc = cwd wb /\ heap wc = heap wb /\
          trace wc = trace wb ++ mail_events args b)
    as (Hfc & Hcc & Hhc & Htc).
  { unfold mail_events. destruct (truthy (arg_email args)).
    - destruct (email config) as [login|]; [|done].
      unfold send_email in Hmail. destruct (smtp E _ _); [|done].
      by simplify_eq.
    - unfold ret in Hmail. simplify_eq. by rewrite app_nil_r. }
  unfold shutil_rmtree in Hrm.
  destruct (String.eqb _ _); [done|].
  fold (junk_dir_of config) in Hrm. rewrite Hcc, Hfc in Hrm.
  destruct (fs_rmtree _ _) as [|r] eqn:Hr; [done|]. injection Hrm as <-.
  cbn [fs cwd heap trace emit set_fs]. rewrite Hcc, Htc, <- app_assoc.
  split; [|split; [by eapply fs_rmtree_gone|done]].
  apply fs_rmtree_inv in Hr as (d & x & kids & k & Hp & Hd & Hx & _).
  exists k. rewrite Hp. apply dir_at_snoc. eauto.
Qed.

End Run.

(** X15. In a run that returns, every command line of the engine is the command
    line of the run before with more flags: the list starts from the module
    list, the excludes of the configuration, the verbose flags and [-n], in
    that order, and each target adds the excludes of its profile and its link
    flag to what all the targets before have added. *)
Theorem engine_command_lines (E : extern) (config : Config) (args : Args)
    (w w' : world) (b : bool) :
  main E config args w = (Ret b, w') ->
  exists newests cs,
    List.length newests = List.length (targets (profiles config)) /\
    calls (trace w') = calls (trace w) ++ cs /\
    map fst cs = command_lines config (initial_flags config args (heap w))
                   (targets (profiles config)) newests /\
    deref (heap w') ref_rsync_flags
      = flags_end config (initial_flags config args (heap w))
          (targets (profiles config)) newests.
Proof.
  rewrite main_prefix.
  intros (wa & wb & Hh & Ht & Hloop & _ & _ & _ & Hh' & Ht')%main_loop_Ret.
  destruct (for_profiles_lines _ _ _ _ _ _ _ _ Hloop)
    as (ns & cs & Hl & Htb & Hcs & Hhb & _).
  rewrite Hh in Hcs, Hhb. cbn [heap set_heap] in Hcs, Hhb.
  rewrite deref_store in Hcs, Hhb. rewrite store_store in Hhb.
  exists ns, cs. split; [done|]. split; [|split; [done|]].
  - rewrite Ht', Htb, Ht. cbn [trace set_heap].
    rewrite !calls_app, calls_of_map.
    assert (calls (mail_events args b) = []) as ->.
    { unfold mail_events. by destruct (truthy _). }
    simpl. by rewrite !app_nil_r.
  - by rewrite Hh', Hhb, deref_store.
Qed.

Lemma engine_command_lines_witness :
  exists newests cs,
    List.length newests = List.length (targets (profiles ex_config)) /\
    calls (trace (main ex_ok ex_config ex_args_all ex_full).2)
      = calls (trace ex_full) ++ cs /\
    map fst cs = command_lines ex_config
                   (initial_flags ex_config ex_args_all (heap ex_full))
                   (targets (profiles ex_config)) newests /\
    deref (heap (main ex_ok ex_config ex_args_all ex_full).2) ref_rsync_flags
      = flags_end ex_config (initial_flags ex_config ex_args_all (heap ex_full))
          (targets (profiles ex_config)) newests.
Proof.
  apply (engine_command_lines ex_ok ex_config ex_args_all ex_full _ true).
  vm_compute. reflexivity.
Defined.

Lemma command_lines_length (config : Config) (before : list string)
    (tgs : list (Profile * string)) (ns : list string) :
  List.length ns = List.length tgs ->
  List.length (command_lines config before tgs ns) = List.length tgs.
Proof.
  revert before ns. induction tgs as [|tg tgs IH]; intros before [|n ns] Hl; try done.
  simpl. rewrite IH; [done|]. simpl in Hl. lia.
Qed.

(** X16. What a run that returns asks of the outside, in order: one run of the
    engine for each target, then the mail if an address was given, with
    [[OK]] in the subject exactly when every engine run exited with 0, then
    the deletion of the junk directory, and nothing else. *)
Theorem run_events_in_order (E : extern) (config : Config) (args : Args)
    (w w' : world) (b : bool) :
  main E config args w = (Ret b, w') ->
  exists cs,
    trace w' = trace w ++ map (fun c => EvCall c.1 c.2) cs
                 ++ mail_events args b
                 ++ [EvRmtree (resolve (cwd w') (junk_dir_of config))] /\
    List.length cs = List.length (targets (profiles config)) /\
    b = forallb (fun c => c.2 =? 0) cs.
Proof.
  rewrite main_prefix.
  intros (wa & wb & Hh & Ht & Hloop & _ & _ & Hc & _ & Ht')%main_loop_Ret.
  destruct (for_profiles_lines _ _ _ _ _ _ _ _ Hloop)
    as (ns & cs & Hl & Htb & Hcs & _ & Hb).
  exists cs. split; [|split; [|done]].
  - rewrite Ht', Htb, Ht, Hc. cbn [trace set_heap]. by rewrite <- !app_assoc.
  - apply (f_equal (@List.length _)) in Hcs.
    by rewrite length_map, command_lines_length in Hcs.
Qed.

Lemma run_events_in_order_witness :
  exists cs,
    trace (main ex_first_fails ex_config ex_args_mail ex_blank).2
    = trace ex_blank ++ map (fun c => EvCall c.1 c.2) cs
        ++ mail_events ex_args_mail false
        ++ [EvRmtree (resolve (cwd (main ex_first_fails ex_config ex_args_mail ex_blank).2)
                        (junk_dir_of ex_config))] /\
    List.length cs = List.length (targets (profiles ex_config)) /\
    false = forallb (fun c => c.2 =? 0) cs.
Proof.
  apply (run_events_in_order ex_first_fails ex_config ex_args_mail ex_blank).
  vm_compute. reflexivity.
Defined.

Lemma rmtrees_calls (tr : list event) (cs : list (list string * Z)) :
  rmtrees (tr ++ map (fun c => EvCall c.1 c.2) cs) = rmtrees tr.
Proof. by rewrite rmtrees_app, rmtrees_of_map, app_nil_r. Qed.

(** The main block, whatever its end, up to the mail: [wb] is the world when
    the loops have returned. *)
Lemma main_loop_inv (E : extern) (config : Config) (args : Args)
    (w w' : world) (o : outcome bool) :
  main_loop E config args w = (o, w') ->
  (rmtrees (trace w') = rmtrees (trace w) /\ exists en, o = Raise (OSError en)) \/
  exists (b : bool) (wb : world),
    rmtrees (trace wb) = rmtrees (trace w) /\
    ((if truthy (arg_email args) then
        match email config with
        | Some login =>
            send_email E login (default "" (arg_email args))
              ((if b then "[OK]" else "[FAIL]") +:+ " ezbackup complete.")
        | None => raise (KeyError "email")
        end
      else ret tt) >>
     shutil_rmtree (junk_dir_of config) >> ret b) wb = (o, w').
Proof.
  unfold main_loop.
  intros [(e & Hmk & ->)|([] & wa & Hmk & H)]%bind_inv.
  { left. destruct (mkdir_p_raises _ _ _ _ Hmk) as [en ->].
    apply mkdir_p_quiet in Hmk as (_ & _ & _ & ->). eauto. }
  apply mkdir_p_quiet in Hmk as (_ & _ & _ & Hta).
  apply bind_inv in H as [(e & Hloop & ->)|(b & wb & Hloop & H)].
  { left. destruct (for_profiles_events _ _ _ _ _ _ _ _ Hloop) as ((cs & Ht) & He).
    destruct (He e eq_refl) as [en ->]. rewrite Ht, rmtrees_calls, Hta. eauto. }
  right. exists b, wb. split; [|done].
  destruct (for_profiles_events _ _ _ _ _ _ _ _ Hloop) as ((cs & Ht) & _).
  by rewrite Ht, rmtrees_calls, Hta.
Qed.

(** X17. A run that ends with an exception has not deleted the junk directory:
    what the run has evicted stays on the disk. The exception is an
    [OSError], the refusal of the mail, or the missing [email] section of the
    configuration. *)
Theorem exception_skips_purge (E : extern) (config : Config) (args : Args)
    (w w' : world) (e : exn) :
  main E config args w = (Raise e, w') ->
  rmtrees (trace w') = rmtrees (trace w) /\
  (e = KeyError "email" \/ e = SMTPException \/ exists en, e = OSError en).
Proof.
  rewrite main_prefix.
  intros [(Hr & en & [= ->])|(b & wb & Hr & H)]%main_loop_inv.
  { split; [done|]. eauto. }
  cbn [trace set_heap] in Hr.
  apply bind_inv in H as [(e' & Hmail & [= <-])|([] & wc & Hmail & H)].
  - destruct (truthy (arg_email args)); [|done].
    destruct (email config) as [login|].
    + unfold send_email in Hmail. destruct (smtp E _ _); [done|].
      simplify_eq. split; [done|]. eauto.
    + unfold raise in Hmail. simplify_eq. split; [done|]. eauto.
  - assert (rmtrees (trace wc) = rmtrees (trace wb)) as Hc.
    { destruct (truthy (arg_email args)).
      - destruct (email config) as [login|]; [|done].
        unfold send_email in Hmail. destruct (smtp E _ _); [|done].
        simplify_eq. simpl. by rewrite rmtrees_app, app_nil_r.
      - unfold ret in Hmail. by simplify_eq. }
    apply bind_inv in H as [(e' & Hrm & [= <-])|([] & wd & Hrm & H)]; [|done].
    unfold shutil_rmtree in Hrm.
    destruct (String.eqb _ _); [simplify_eq; split; [congruence|eauto]|].
    destruct (fs_rmtree _ _); [|done]. simplify_eq. split; [congruence|eauto].
Qed.

Lemma exception_skips_purge_witness :
  rmtrees (trace (main ex_no_mail ex_config ex_args_mail ex_full).2)
  = rmtrees (trace ex_full) /\
  (SMTPException = KeyError "email" \/ SMTPException = SMTPException \/
   exists en, SMTPException = OSError en).
Proof.
  apply (exception_skips_purge ex_no_mail ex_config ex_args_mail ex_full).
  vm_compute. reflexivity.
Defined.

(** X18. A run that is to send the mail under a configuration without [email]
    section never returns: if the loops get through, the main block ends
    with [KeyError('email')] after the last synchronization, and the junk
    directory is not deleted. *)
Theorem mail_without_login_never_returns (E : extern) (config : Config)
    (args : Args) (w w' : world) (o : outcome bool) :
  truthy (arg_email args) = true -> email config = None ->
  main E config args w = (o, w') ->
  (o = Raise (KeyError "email") \/ exists en, o = Raise (OSError en)) /\
  rmtrees (trace w') = rmtrees (trace w).
Proof.
  intros Ht Hnone. rewrite main_prefix.
  intros [(Hr & en & ->)|(b & wb & Hr & H)]%main_loop_inv.
  { split; [eauto|done]. }
  rewrite Ht, Hnone in H. unfold bind at 1, raise in H. simplify_eq.
  split; [eauto|done].
Qed.

Lemma mail_without_login_never_returns_witness :
  ((main ex_ok ex_config_junk ex_args_mail ex_blank).1 = Raise (KeyError "email") \/
   exists en, (main ex_ok ex_config_junk ex_args_mail ex_blank).1 = Raise (OSError en)) /\
  rmtrees (trace (main ex_ok ex_config_junk ex_args_mail ex_blank).2)
  = rmtrees (trace ex_blank).
Proof.
  apply (mail_without_login_never_returns ex_ok ex_config_junk ex_args_mail ex_blank).
  - reflexivity.
  - reflexivity.
  - apply surjective_pairing.
Defined.

(** The store of a target, as a path. *)
Lemma resolve_store (config : Config) (profile : Profile) (path : string)
    (c : list string) :
  backup_path config +:+ username profile <> "" ->
  valid_name (hostname profile) = true ->
  valid_name (str_replace "/" "_" path) = true ->
  resolve c (base_dir_of config profile path)
  = resolve c (backup_path config +:+ username profile)
      ++ [hostname profile; str_replace "/" "_" path].
Proof.
  intros Hne Hh Hp. unfold base_dir_of.
  rewrite <- (str_app_assoc (backup_path config) (username profile)).
  rewrite resolve_app_slash by done.
  rewrite split_slash_app.
  assert (str_replace "/" "_" path +:+ "/" = str_replace "/" "_" path +:+ "/" +:+ "")
    as -> by done.
  rewrite split_slash_app.
  destruct (valid_name_inv _ Hh) as [-> _]. destruct (valid_name_inv _ Hp) as [-> _].
  simpl. by rewrite (norm_step_name _ _ Hh), (norm_step_name _ _ Hp), <- app_assoc.
Qed.

(** X19. The junk directory has the name the store of a user [junk] would have:
    the stores of a profile of that user lie inside the junk directory, and
    after a run that returns none of them exists, the snapshots of that run
    and all those before deleted with the junk directory. *)
Theorem junk_user_store_is_purged (E : extern) (config : Config) (args : Args)
    (profile : Profile) (path : string) (w w' : world) (b : bool) :
  username profile = "junk" ->
  valid_name (hostname profile) = true ->
  valid_name (str_replace "/" "_" path) = true ->
  main E config args w = (Ret b, w') ->
  resolve (cwd w') (base_dir_of config profile path)
  = resolve (cwd w') (junk_dir_of config)
      ++ [hostname profile; str_replace "/" "_" path] /\
  lookup_path (resolve (cwd w') (base_dir_of config profile path)) (fs w') = None.
Proof.
  intros Hu Hh Hp. rewrite main_prefix.
  intros (wa & wb & _ & _ & _ & _ & Hgone & Hc & _)%main_loop_Ret.
  assert (resolve (cwd w') (base_dir_of config profile path)
          = resolve (cwd w') (junk_dir_of config)
              ++ [hostname profile; str_replace "/" "_" path]) as Hb.
  { rewrite resolve_store; [|rewrite Hu|done..].
    - by rewrite Hu.
    - intros He. by destruct (backup_path config). }
  split; [done|]. by rewrite Hb, lookup_path_app, Hc, Hgone.
Qed.

Lemma junk_user_store_is_purged_witness :
  let w' := (main ex_ok ex_config_junk ex_args ex_blank).2 in
  resolve (cwd w') (base_dir_of ex_config_junk ex_junk_user "/etc")
  = resolve (cwd w') (junk_dir_of ex_config_junk)
      ++ [hostname ex_junk_user; str_replace "/" "_" "/etc"] /\
  lookup_path (resolve (cwd w') (base_dir_of ex_config_junk ex_junk_user "/etc")) (fs w')
  = None.
Proof.
  apply (junk_user_store_is_purged ex_ok ex_config_junk ex_args ex_junk_user "/etc"
           ex_blank _ true).
  - reflexivity.
  - reflexivity.
  - reflexivity.
  - vm_compute. reflexivity.
Defined.

(** ** The junk directory is shared *)

(** X20. The junk directory takes the evicted snapshots of all the targets of a
    run under their own names. Where it already holds a directory that is
    not empty under the name of the oldest snapshot of a store, as it does
    when an earlier target of the run has evicted a snapshot of that name,
    the eviction fails: a synchronization of a store at its cap never returns
    [True]. *)
Theorem eviction_collides_in_junk (E : extern) (config : Config)
    (profile : Profile) (flags : listref) (path : string) (w w' : world)
    (o : outcome bool) (oldest : string) (k : gmap string node) :
  let base := resolve (cwd w) (base_dir_of config profile path) in
  let junk := resolve (cwd w) (junk_dir_of config) in
  let S0 := snapshots base (fs w) in
  is_absolute (backup_path config) = true ->
  apart base junk ->
  (forall x, x ∈ S0 -> valid_name x = true) ->
  backup_count config <= Z.of_nat (size S0) ->
  oldest ∈ S0 -> (forall x, x ∈ S0 -> str_le oldest x = true) ->
  dir_at (junk ++ [oldest]) (fs w) = Some k -> size k <> 0%nat ->
  run_rsync E config profile flags path w = (o, w') ->
  o <> Ret true.
Proof.
  intros base junk S0 Habs Hap Hvalid Hcap Hin Hleast Hk Hsize Hrun ->.
  destruct (run_rsync_success _ _ _ _ _ _ _ Hrun) as (k0 & k1 & r5 & Hk5 & Hf5 & Hev).
  fold base in Hk5, Hf5, Hev.
  set (t := strftime (clock E (S (tick w)))) in *.
  set (K0 := entries_at base (fs w)) in *.
  assert (S0 = filter (fun x => is_snapshot_name x = true) (dom K0)) as HS0.
  { unfold S0, snapshots. by rewrite names_at_entries. }
  destruct (stats_of_store K0 (Dir k0)) as (Hc & _ & _ & Ho & Hmin).
  rewrite <- HS0 in Hc, Ho, Hmin.
  destruct (stats_of_spec (map fst (map_to_list (<["incomplete" := Dir k0]> K0))))
    as (_ & _ & _ & _ & HoZ & _).
  set (st := stats_of (map fst (map_to_list (<["incomplete" := Dir k0]> K0)))) in *.
  assert ((st.1.1 >=? backup_count config) = true) as Hge.
  { rewrite Hc. apply Z.geb_le. lia. }
  rewrite Hge in Hev.
  destruct (decide (st.2 ∈ S0)) as [Hs|Hs].
  - assert (st.2 = oldest) as Hst.
    { apply str_le_antisym; [by apply Hmin|by apply Hleast]. }
    rewrite Hst in Hev.
    pose proof (Hvalid _ Hin) as Hv.
    rewrite (resolve_name _ _ Hv), (resolve_junk_path _ _ _ Hv) in Hev.
    rewrite (resolve_absolute base (cwd w)) in Hev by by apply junk_dir_absolute.
    fold junk in Hev.
    destruct (apart_diverge _ _ Hap) as (A1 & A2 & _).
    apply dir_at_snoc in Hk as (jk & Hjk & Hjo).
    assert (dir_at junk r5 = Some jk) as Hj5.
    { unfold dir_at. rewrite Hf5 by done. exact Hjk. }
    apply fs_rename_inv in Hev as [(Heq & _)|Hev].
    { apply app_inj_tail in Heq as [Heq _]. by rewrite Heq, is_prefix_refl in A1. }
    destruct Hev
      as (sd & sx & dd & dx & n & r1 & dk & _ & Hdst & _ & _ & Hdk & _ & Hm & _).
    apply app_inj_tail in Hdst as [<- <-].
    rewrite Hj5 in Hdk. injection Hdk as <-. rewrite Hjo in Hm.
    by destruct Hm as [_ ?].
  - destruct Ho as [HZ|?]; [|done]. rewrite HZ in Hev, Hs.
    rewrite (resolve_name _ "Z") in Hev by done.
    assert (lookup_path (base ++ ["Z"]) r5 = None) as Hnone.
    { rewrite lookup_path_snoc, Hk5.
      rewrite lookup_insert_ne by done.
      rewrite lookup_insert_ne
        by (intros Et; by apply (strftime_not_Z (clock E (S (tick w))))).
      rewrite lookup_delete_ne by done.
      destruct (K0 !! "Z") eqn:HK; [|done].
      destruct Hs. rewrite HS0. apply elem_of_filter. split; [done|].
      apply elem_of_dom. eauto. }
    apply fs_rename_inv in Hev as [(_ & _ & [n Hn])|Hev].
    + by rewrite Hnone in Hn.
    + destruct Hev as (sd & sx & dd & dx & n & r1 & dk & _ & _ & _ & Hn & _).
      by rewrite Hnone in Hn.
Qed.

Lemma eviction_collides_in_junk_witness :
  (run_rsync ex_ok ex_config ex_bob ref_rsync_flags "/etc" ex_junk_taken).1 <> Ret true /\
  (run_rsync ex_ok ex_config ex_bob ref_rsync_flags "/etc" ex_junk_taken).1
  = Raise (OSError ENOTEMPTY).
Proof.
  split; [|by vm_compute].
  apply (eviction_collides_in_junk ex_ok ex_config ex_bob ref_rsync_flags "/etc"
           ex_junk_taken
           (run_rsync ex_ok ex_config ex_bob ref_rsync_flags "/etc" ex_junk_taken).2
           _ "2019-12-30__00-00-00" {["passwd" := File]}).
  - reflexivity.
  - split; reflexivity.
  - apply (bool_decide_unpack (set_Forall (fun x => valid_name x = true) _)).
    vm_compute. reflexivity.
  - vm_compute. discriminate.
  - apply (bool_decide_unpack _). vm_compute. reflexivity.
  - apply (bool_decide_unpack
             (set_Forall (fun x => str_le "2019-12-30__00-00-00" x = true) _)).
    vm_compute. reflexivity.
  - vm_compute. reflexivity.
  - vm_compute. discriminate.
  - apply surjective_pairing.
Defined.

(** ** When the calls return *)

Lemma fs_mkdir_fresh (d : path) (x : string) (r : node) (kids : gmap string node) :
  dir_at d r = Some kids -> kids !! x = None ->
  exists r', fs_mkdir (d ++ [x]) r = inr r'.
Proof.
  intros Hd Hx. unfold fs_mkdir. rewrite unsnoc_snoc, Hd, Hx.
  destruct (alter_dir_is_Some d (<[x := Dir ∅]>) r kids Hd) as [r' ->]. eauto.
Qed.

Lemma fs_makedirs_step (above : path) (c c' : string) (todo : path) (r : node) :
  fs_makedirs above (c :: c' :: todo) r =
    match lookup_path (above ++ [c]) r with
    | Some _ => fs_makedirs (above ++ [c]) (c' :: todo) r
    | None => match fs_mkdir (above ++ [c]) r with
              | inr r' => fs_makedirs (above ++ [c]) (c' :: todo) r'
              | inl e => inl e
              end
    end.
Proof. done. Qed.

Lemma fs_makedirs_fresh (above : path) (c : string) (rest : path) (r : node) :
  is_Some (dir_at above r) -> lookup_path (above ++ [c]) r = None ->
  exists r', fs_makedirs above (c :: rest) r = inr r'.
Proof.
  revert above c r. induction rest as [|c' rest IH]; intros above c r [kids Hk] Hc.
  - simpl. apply (fs_mkdir_fresh _ _ _ kids Hk).
    by rewrite lookup_path_snoc, Hk in Hc.
  - rewrite fs_makedirs_step, Hc.
    destruct (fs_mkdir_fresh above c r kids Hk) as [r1 Hr1].
    { by rewrite lookup_path_snoc, Hk in Hc. }
    rewrite Hr1. pose proof (fs_mkdir_new _ _ _ Hr1) as Hnew. apply IH.
    + rewrite Hnew. eauto.
    + by rewrite lookup_path_snoc, Hnew.
Qed.

Lemma fs_makedirs_skip (above : path) (c : string) (l : path) (r : node) :
  l <> [] -> is_Some (lookup_path (above ++ [c]) r) ->
  fs_makedirs above (c :: l) r = fs_makedirs (above ++ [c]) l r.
Proof.
  intros Hl [n Hn]. destruct l as [|c' l]; [done|].
  by rewrite fs_makedirs_step, Hn.
Qed.

Lemma fs_makedirs_walk (above ex todo : path) (r : node) :
  is_Some (dir_at (above ++ ex) r) -> todo <> [] ->
  fs_makedirs above (ex ++ todo) r = fs_makedirs (above ++ ex) todo r.
Proof.
  revert above. induction ex as [|c ex IH]; intros above Hex Hne.
  { by rewrite app_nil_r. }
  assert (above ++ c :: ex = (above ++ [c]) ++ ex) as Heq by by rewrite <- app_assoc.
  rewrite Heq in Hex |- *. simpl app.
  rewrite fs_makedirs_skip.
  - by apply IH.
  - intros [_ ?]%app_eq_nil. done.
  - destruct Hex as [k Hex]. destruct (dir_at_above _ _ _ _ Hex) as [k' Hk'].
    apply dir_at_lookup in Hk'. eauto.
Qed.

Lemma fs_makedirs_inr (above todo : path) (r r' : node) :
  fs_makedirs above todo r = inr r' ->
  exists ex c rest, todo = ex ++ c :: rest /\
    is_Some (dir_at (above ++ ex) r) /\ lookup_path (above ++ ex ++ [c]) r = None.
Proof.
  revert above. induction todo as [|c todo IH]; intros above H; [done|].
  assert (forall r1, fs_mkdir (above ++ [c]) r = inr r1 ->
            exists ex c0 rest, c :: todo = ex ++ c0 :: rest /\
              is_Some (dir_at (above ++ ex) r) /\
              lookup_path (above ++ ex ++ [c0]) r = None) as Hnew.
  { intros r1 (d & x & kids & Hp & Hd & Hx & _)%fs_mkdir_inv.
    apply app_inj_tail in Hp as [<- <-].
    exists [], c, todo. rewrite app_nil_r. split; [done|]. split; [eauto|].
    simpl. by rewrite lookup_path_snoc, Hd. }
  destruct todo as [|c' todo'].
  { by apply (Hnew r'). }
  rewrite fs_makedirs_step in H.
  destruct (lookup_path (above ++ [c]) r) eqn:Hl.
  - destruct (IH _ H) as (ex & c0 & rest & Ht & Hd & Hl0).
    exists (c :: ex), c0, rest. rewrite Ht. split; [done|].
    by rewrite <- !app_assoc in Hd, Hl0.
  - destruct (fs_mkdir (above ++ [c]) r) as [|r1] eqn:Hm; [done|].
    by apply (Hnew r1).
Qed.

Lemma mkdir_p_returned (s : string) (w w1 : world) :
  mkdir_p s w = (Ret tt, w1) -> makeable (resolve (cwd w) s) (fs w).
Proof.
  intros H. pose proof (mkdir_p_Ret _ _ _ H) as (Hs & _).
  unfold mkdir_p, try_except, os_makedirs, fs_call in H.
  apply String.eqb_neq in Hs. rewrite Hs in H.
  destruct (fs_makedirs [] (resolve (cwd w) s) (fs w)) as [e|r'] eqn:Hm.
  - left. unfold bind, os_path_isdir in H.
    destruct (dir_at _ _); [eauto|].
    rewrite andb_false_r in H. done.
  - right. apply fs_makedirs_inr in Hm as (ex & c & rest & ? & ? & ?).
    by exists ex, c, rest.
Qed.

Lemma mkdir_p_returns (s : string) (w : world) :
  s <> "" -> makeable (resolve (cwd w) s) (fs w) ->
  exists w1, mkdir_p s w = (Ret tt, w1).
Proof.
  intros Hs [Hd|(ex & c & rest & Hp & Hex & Hc)].
  - exists w. by apply mkdir_p_noop.
  - unfold mkdir_p, try_except, os_makedirs, fs_call.
    apply String.eqb_neq in Hs. rewrite Hs, Hp.
    rewrite (fs_makedirs_walk [] ex (c :: rest)) by done.
    destruct (fs_makedirs_fresh ([] ++ ex) c rest (fs w) Hex Hc) as [r' ->].
    eauto.
Qed.

(** X21. On a path string without [.] and [..] components and without
    symbolic links on its way, which the model does not follow, [mkdir_p]
    returns exactly where the string is not empty and names a directory or a
    place where one can be made: below a chain of directories that exist,
    starting at a name that is free. The empty string or a regular file on
    the way makes it raise. *)
Theorem mkdir_p_returns_iff (s : string) (w : world) :
  plain s = true ->
  link_free (resolve (cwd w) s) (fs w) = true ->
  (exists w1, mkdir_p s w = (Ret tt, w1)) <->
  s <> "" /\ makeable (resolve (cwd w) s) (fs w).
Proof.
  intros _ _. split.
  - intros [w1 H]. split; [by apply mkdir_p_Ret in H as [? _]|].
    by eapply mkdir_p_returned.
  - intros [Hs Hm]. by apply mkdir_p_returns.
Qed.

Lemma mkdir_p_returns_iff_witness :
  ((exists w1, mkdir_p "/backup/bob/box/_etc/incomplete/" ex_blank = (Ret tt, w1)) <->
   "/backup/bob/box/_etc/incomplete/" <> "" /\
   makeable (resolve (cwd ex_blank) "/backup/bob/box/_etc/incomplete/") (fs ex_blank)) /\
  makeable (resolve (cwd ex_blank) "/backup/bob/box/_etc/incomplete/") (fs ex_blank) /\
  ~ makeable (resolve (cwd ex_junk_file) "/backup/junk/x") (fs ex_junk_file).
Proof.
  split; [exact (mkdir_p_returns_iff "/backup/bob/box/_etc/incomplete/" ex_blank
                   eq_refl eq_refl)|].
  split.
  - right. exists [], "backup", ["bob"; "box"; "_etc"; "incomplete"].
    split; [reflexivity|]. split; [eexists; reflexivity|reflexivity].
  - intros H.
    assert (exists w1, mkdir_p "/backup/junk/x" ex_junk_file = (Ret tt, w1)) as [w1 Hw].
    { apply (mkdir_p_returns_iff "/backup/junk/x" ex_junk_file eq_refl eq_refl).
      by split. }
    by vm_compute in Hw.
Defined.

(** *** A synchronization that returns [True] *)

Lemma os_rename_run (a b : string) (w : world) (r : node) :
  a <> "" -> b <> "" ->
  fs_rename (resolve (cwd w) a) (resolve (cwd w) b) (fs w) = inr r ->
  os_rename a b w = (Ret tt, set_fs r w).
Proof.
  intros Ha%String.eqb_neq Hb%String.eqb_neq Hr.
  unfold os_rename. by rewrite Ha, Hb, Hr.
Qed.

Lemma os_chdir_run (s : string) (w : world) :
  s <> "" -> is_Some (dir_at (resolve (cwd w) s) (fs w)) ->
  os_chdir s w = (Ret tt, set_cwd (resolve (cwd w) s) w).
Proof.
  intros Hs%String.eqb_neq [k Hk]. unfold os_chdir. by rewrite Hs, Hk.
Qed.

Lemma fs_rename_new (d : path) (a b : string) (r : node) (kids : gmap string node)
    (n : node) :
  dir_at d r = Some kids -> kids !! a = Some n -> kids !! b = None -> a <> b ->
  exists r', fs_rename (d ++ [a]) (d ++ [b]) r = inr r'.
Proof.
  intros Hd Ha Hb Hab. unfold fs_rename.
  rewrite lookup_path_snoc, Hd, Ha, !unsnoc_snoc, Hd, Hb.
  destruct (path_eqb (d ++ [a]) (d ++ [b])) eqn:Heq.
  { apply path_eqb_eq, app_inv_head in Heq. by simplify_eq. }
  rewrite (is_prefix_sibling _ _ _ Hab), andb_false_r.
  destruct (alter_dir_is_Some d (delete a) r kids Hd) as [r1 Hr1]. rewrite Hr1.
  destruct (alter_dir_Some _ _ _ _ Hr1) as (k & _ & Hk1).
  destruct (alter_dir_is_Some d (<[b := n]>) r1 _ Hk1) as [r2 ->]. eauto.
Qed.

Lemma fs_rename_out (d e : path) (a b : string) (r : node)
    (kids ekids : gmap string node) (n : node) :
  dir_at d r = Some kids -> kids !! a = Some n ->
  dir_at e r = Some ekids -> ekids !! b = None ->
  is_prefix d e = false -> is_prefix e d = false ->
  exists r', fs_rename (d ++ [a]) (e ++ [b]) r = inr r'.
Proof.
  intros Hd Ha He Hb Hde Hed. unfold fs_rename.
  rewrite lookup_path_snoc, Hd, Ha, !unsnoc_snoc, He, Hb.
  destruct (path_eqb (d ++ [a]) (e ++ [b])) eqn:Heq.
  { apply path_eqb_eq, app_inj_tail in Heq as [-> _]. by rewrite is_prefix_refl in Hde. }
  assert (is_prefix (d ++ [a]) (e ++ [b]) = false) as ->.
  { destruct (is_prefix (d ++ [a]) (e ++ [b])) eqn:Hp; [|done].
    apply is_prefix_snoc in Hp as [Hp|Hp].
    - by rewrite (is_prefix_trans _ _ _ (is_prefix_app d [a]) Hp) in Hde.
    - apply app_inj_tail in Hp as [-> _]. by rewrite is_prefix_refl in Hde. }
  rewrite andb_false_r.
  destruct (alter_dir_is_Some d (delete a) r kids Hd) as [r1 Hr1]. rewrite Hr1.
  rewrite <- (dir_at_alter_diverge _ _ _ _ _ Hr1 Hde Hed) in He.
  destruct (alter_dir_is_Some e (<[b := n]>) r1 _ He) as [r2 ->]. eauto.
Qed.

(** A directory outside the store is still there when the store has been
    worked on. *)
Lemma dir_kept_outside (base q : path) (r r' : node) :
  is_prefix base q = false ->
  is_Some (dir_at base r') ->
  (forall q', is_prefix base q' = false -> is_prefix q' base = false ->
              lookup_path q' r' = lookup_path q' r) ->
  is_Some (dir_at q r) -> is_Some (dir_at q r').
Proof.
  intros Hbq [k Hk] Hf Hq.
  destruct (is_prefix q base) eqn:Hqb.
  - apply is_prefix_spec in Hqb as [s ->]. by eapply dir_at_above.
  - unfold dir_at. by rewrite Hf.
Qed.

(** [os.remove('current')] under [try], in the store. *)
Lemma remove_current_run (base : path) (w : world) (kids : gmap string node) :
  cwd w = base -> dir_at base (fs w) = Some kids ->
  (forall k, kids !! "current" <> Some (Dir k)) ->
  exists r4,
    try_except (os_remove "current") (fun _ => ret tt) w = (Ret tt, set_fs r4 w) /\
    dir_at base r4 = Some (delete "current" kids) /\
    forall q, is_prefix base q = false -> is_prefix q base = false ->
              lookup_path q r4 = lookup_path q (fs w).
Proof.
  intros Hcwd Hd Hnd.
  unfold try_except, os_remove, fs_call. cbn [String.eqb Ascii.eqb Bool.eqb].
  rewrite (resolve_name _ "current"), Hcwd by done.
  unfold fs_remove. rewrite unsnoc_snoc, Hd.
  destruct (kids !! "current") as [n|] eqn:Hc.
  - destruct n as [|k|tgt]; [|by destruct (Hnd k)|].
    all: destruct (alter_dir_is_Some base (delete "current") (fs w) kids Hd) as [r4 Hr4];
      rewrite Hr4; exists r4; split; [done|];
      destruct (alter_dir_Some _ _ _ _ Hr4) as (k' & Hk' & Hk4);
      split; [congruence|]; intros q ? ?; by eapply alter_dir_diverge.
  - exists (fs w). split; [by destruct w|]. split; [|done].
    by rewrite delete_id.
Qed.

Lemma symlink_current_run (base : path) (t : string) (w : world)
    (kids : gmap string node) :
  cwd w = base -> dir_at base (fs w) = Some kids -> kids !! "current" = None ->
  exists r5,
    os_symlink t "current" w = (Ret tt, set_fs r5 w) /\
    dir_at base r5 = Some (<["current" := Symlink t]> kids) /\
    forall q, is_prefix base q = false -> is_prefix q base = false ->
              lookup_path q r5 = lookup_path q (fs w).
Proof.
  intros Hcwd Hd Hc.
  unfold os_symlink, fs_call. cbn [String.eqb Ascii.eqb Bool.eqb].
  rewrite (resolve_name _ "current"), Hcwd by done.
  unfold fs_symlink. rewrite unsnoc_snoc, Hd, Hc.
  destruct (alter_dir_is_Some base (<["current" := Symlink t]>) (fs w) kids Hd)
    as [r5 Hr5].
  rewrite Hr5. exists r5. split; [done|].
  destruct (alter_dir_Some _ _ _ _ Hr5) as (k' & Hk' & Hk5).
  split; [congruence|]. intros q ? ?. by eapply alter_dir_diverge.
Qed.

Lemma render_nonempty (p : path) : render p <> "".
Proof. destruct p as [|c p]; [done|]. unfold render. simpl. by rewrite str_app_cons. Qed.

(** The promotion returns where the staging area is in the store, the name
    of the snapshot is free, [current] is not a directory, the process can
    come back to where it was, and, if a snapshot is to be evicted, the
    junk directory is there and has no entry of its name. *)
Lemma promote_returns (E : extern) (config : Config) (profile : Profile)
    (path : string) (count : Z) (oldest : string) (w2 : world)
    (K2 : gmap string node) (staged : node) :
  let base := resolve (cwd w2) (base_dir_of config profile path) in
  let junk := resolve (cwd w2) (junk_dir_of config) in
  let t := strftime (clock E (tick w2)) in
  dir_at base (fs w2) = Some K2 ->
  K2 !! "incomplete" = Some staged ->
  K2 !! t = None ->
  (forall k, K2 !! "current" <> Some (Dir k)) ->
  Forall (fun n => valid_name n = true) (cwd w2) ->
  is_Some (dir_at (cwd w2) (fs w2)) ->
  is_prefix base (cwd w2) = false ->
  ((count >=? backup_count config) = true ->
   is_absolute (backup_path config) = true /\ apart base junk /\
   valid_name oldest = true /\ is_snapshot_name oldest = true /\
   is_Some (K2 !! oldest) /\
   exists J, dir_at junk (fs w2) = Some J /\ J !! oldest = None) ->
  exists w', promote E config (base_dir_of config profile path) count oldest w2
             = (Ret tt, w').
Proof.
  intros base junk t HK2 Hinc Hfree Hcur Hvalid Hcwd Hout Hevict.
  rewrite promote_start by (fold base; rewrite HK2; eauto).
  fold base t.
  set (wc := next_tick (set_cwd base w2)).
  assert (is_snapshot_name t = true) as Hts by apply strftime_is_snapshot_name.
  assert (valid_name t = true) as Htv by apply strftime_valid.
  assert ("incomplete" <> t) as Hit by (intros E'; by rewrite <- E' in Hts).
  assert ("current" <> t) as Hct by (intros E'; by rewrite <- E' in Hts).
  (* rename incomplete *)
  destruct (fs_rename_new base "incomplete" t (fs w2) K2 staged HK2 Hinc Hfree Hit)
    as [r3 Hr3].
  destruct (fs_rename_same_dir _ _ _ _ _ Hr3 Hit) as (k & n & Hk & Hn & Hk3 & Hf3).
  rewrite HK2 in Hk. injection Hk as <-. rewrite Hinc in Hn. injection Hn as <-.
  set (k3 := <[t := staged]> (delete "incomplete" K2)) in *.
  assert (os_rename "incomplete" t wc = (Ret tt, set_fs r3 wc)) as H1.
  { apply os_rename_run; [done|by destruct (valid_name_inv _ Htv) as (_ & ? & _)|].
    cbn [cwd fs wc next_tick set_cwd].
    by rewrite (resolve_name _ "incomplete"), (resolve_name _ t). }
  rewrite (bind_run _ _ _ _ _ H1). cbv beta.
  (* create symlink *)
  destruct (remove_current_run base (set_fs r3 wc) k3) as (r4 & H2 & Hk4 & Hf4);
    [done|done| |].
  { intros k' Hk'. apply (Hcur k'). rewrite <- Hk'. unfold k3.
    rewrite lookup_insert_ne by done. by rewrite lookup_delete_ne. }
  rewrite (bind_run _ _ _ _ _ H2). cbv beta.
  destruct (symlink_current_run base t (set_fs r4 (set_fs r3 wc)) (delete "current" k3))
    as (r5 & H3 & Hk5 & Hf5); [done|done|by rewrite lookup_delete_eq|].
  rewrite (bind_run _ _ _ _ _ H3). cbv beta.
  cbn [fs set_fs] in Hf4, Hf5.
  assert (forall q, is_prefix base q = false -> is_prefix q base = false ->
                    lookup_path q r5 = lookup_path q (fs w2)) as Hframe.
  { intros q P1 P2. rewrite Hf5, Hf4 by done. by apply Hf3. }
  assert (is_Some (dir_at (cwd w2) r5)) as Hcwd5.
  { by apply (dir_kept_outside base _ (fs w2)); [|eauto|..]. }
  set (w5 := set_fs r5 (set_fs r4 (set_fs r3 wc))).
  (* purge oldest backup *)
  assert (exists r6,
            (if count >=? backup_count config
             then os_rename oldest (backup_path config +:+ "junk/" +:+ oldest)
             else ret tt) w5 = (Ret tt, set_fs r6 w5) /\
            is_Some (dir_at (cwd w2) r6)) as (r6 & H4 & Hcwd6).
  { destruct (count >=? backup_count config); [|by exists r5].
    destruct (Hevict eq_refl) as (Habs & Hap & Hov & Hos & [n Hon] & J & HJ & HJo).
    destruct (apart_diverge _ _ Hap) as (A1 & A2 & _).
    assert (oldest <> t) as Hot by (intros ->; congruence).
    assert (oldest <> "incomplete" /\ oldest <> "current") as [Hoi Hoc].
    { split; intros ->; done. }
    assert ((<["current" := Symlink t]> (delete "current" k3)) !! oldest = Some n) as Hk5o.
    { rewrite lookup_insert_ne by done. rewrite lookup_delete_ne by done.
      unfold k3. rewrite lookup_insert_ne by done. by rewrite lookup_delete_ne. }
    assert (dir_at junk r5 = Some J) as HJ5.
    { unfold dir_at. rewrite Hframe by done. exact HJ. }
    destruct (fs_rename_out base junk oldest oldest r5 _ J n Hk5 Hk5o HJ5 HJo A1 A2)
      as [r6 Hr6].
    exists r6. split.
    - apply os_rename_run.
      + by destruct (valid_name_inv _ Hov) as (_ & ? & _).
      + intros He. by destruct (backup_path config).
      + cbn [cwd fs w5 wc set_fs next_tick set_cwd].
        rewrite (resolve_name _ _ Hov), (resolve_junk_path _ _ _ Hov).
        rewrite (resolve_absolute base (cwd w2)) by by apply junk_dir_absolute.
        exact Hr6.
    - apply (fs_rename_keeps_dir _ _ _ _ _ Hr6 Hcwd5).
      destruct (is_prefix (base ++ [oldest]) (cwd w2)) eqn:Hp; [|done].
      by rewrite (is_prefix_trans _ _ _ (is_prefix_app base [oldest]) Hp) in Hout. }
  rewrite (bind_run _ _ _ _ _ H4). cbv beta.
  eexists. apply os_chdir_run; [apply render_nonempty|].
  cbn [cwd fs w5 wc set_fs next_tick set_cwd].
  by rewrite resolve_render.
Qed.

(** X22. [run_rsync] does return [True]: for a store under an absolute backup
    path, apart from the junk directory, when the staging area can be made,
    the engine exits with 0, the name the clock gives is free in the store,
    [current] is not a directory, the working directory of the process is a
    directory outside the store, and, where the count has reached the cap,
    the store has a snapshot at or before ["Z"], its snapshots have file
    names and the junk directory exists and holds none of their names. *)
Theorem sync_returns_true (E : extern) (config : Config) (profile : Profile)
    (flags : listref) (path : string) (w : world) :
  let base := resolve (cwd w) (base_dir_of config profile path) in
  let junk := resolve (cwd w) (junk_dir_of config) in
  let t := strftime (clock E (S (tick w))) in
  let S0 := snapshots base (fs w) in
  is_absolute (backup_path config) = true ->
  apart base junk ->
  makeable (base ++ ["incomplete"]) (fs w) ->
  (forall argv before, (engine E (tick w) argv before).1 = 0) ->
  t ∉ names_at base (fs w) ->
  dir_at (base ++ ["current"]) (fs w) = None ->
  Forall (fun n => valid_name n = true) (cwd w) ->
  is_Some (dir_at (cwd w) (fs w)) ->
  is_prefix base (cwd w) = false ->
  (backup_count config <= Z.of_nat (size S0) ->
   (exists x, x ∈ S0 /\ str_le x "Z" = true) /\
   (forall x, x ∈ S0 -> valid_name x = true) /\
   is_Some (dir_at junk (fs w)) /\
   (forall x, x ∈ S0 -> x ∉ names_at junk (fs w))) ->
  exists w', run_rsync E config profile flags path w = (Ret true, w').
Proof.
  intros base junk t S0 Habs Hap Hmake Hengine Hfree Hcur Hvalid Hcwd Hout Hevict.
  assert (exists w1, mkdir_p (target_of config profile path) w = (Ret tt, w1))
    as [w1 Hmk].
  { apply mkdir_p_returns; [apply target_nonempty|].
    by rewrite resolve_target. }
  destruct (run_rsync E config profile flags path w) as [o w'] eqn:Hrun.
  destruct (run_rsync_inv _ _ _ _ _ _ _ _ Hrun)
    as [(e & Hmk' & _)|(w1' & kids & k0 & Hmk' & Hkids & Hinc & H)]; [congruence|].
  assert (w1' = w1) as -> by congruence.
  cbv zeta in H. destruct H as (Hk2 & Hf2 & H).
  destruct (mkdir_p_store _ _ _ _ _ Hmk) as (k0' & Hk1).
  fold base in Hkids, Hk2, Hk1.
  destruct (mkdir_p_Ret _ _ _ Hmk) as (_ & Hc1 & _ & Htick & _ & _ & Hf1).
  set (K0 := entries_at base (fs w)) in *.
  assert (kids = <["incomplete" := Dir k0']> K0) as -> by congruence.
  set (st := stats_of _) in *.
  set (fl := flags_after config profile path (deref (heap w) flags) st.1.2) in *.
  set (res := engine E (tick w) (command_of config profile path fl) k0) in *.
  set (w2 := after_call config profile flags path w1 fl res.1 _) in *.
  rewrite resolve_target in Hf1, Hf2. fold base in Hf1, Hf2.
  rewrite insert_insert_eq in Hk2.
  assert (res.1 = 0) as Hres by apply Hengine.
  rewrite Hres in H. change (0 =? 0) with true in H. cbv iota in H.
  destruct H as (o' & Hp & ->).
  assert (cwd w2 = cwd w) as Hc2 by done.
  assert (tick w2 = S (tick w)) as Ht2 by (simpl; congruence).
  assert (S0 = filter (fun x => is_snapshot_name x = true) (dom K0)) as HS0.
  { unfold S0, snapshots. by rewrite names_at_entries. }
  assert (forall q, is_prefix base q = false -> is_prefix q base = false ->
                    lookup_path q (fs w2) = lookup_path q (fs w)) as Hframe.
  { intros q P1 P2. destruct (diverge_staging _ _ P1 P2) as [P3 P4].
    rewrite Hf2 by done. by apply Hf1. }
  assert (is_snapshot_name t = true) as Hts by apply strftime_is_snapshot_name.
  destruct (stats_of_store K0 (Dir k0')) as (Hc & _ & _ & Ho & Hmin).
  rewrite <- HS0 in Hc, Ho, Hmin. fold st in Hc, Ho, Hmin.
  destruct (promote_returns E config profile path st.1.1 st.2 w2
              (<["incomplete" := Dir res.2]> K0) (Dir res.2)) as [w'' Hp'].
  - by rewrite Hc2.
  - by rewrite lookup_insert_eq.
  - rewrite Ht2. fold t. rewrite lookup_insert_ne by (intros E'; by rewrite <- E' in Hts).
    apply not_elem_of_dom. unfold K0. by rewrite <- names_at_entries.
  - intros k. rewrite lookup_insert_ne by done. intros Hk.
    assert (dir_at (base ++ ["current"]) (fs w) = Some k); [|congruence].
    apply dir_at_snoc. exists K0. split; [|done].
    revert Hk. unfold K0, entries_at.
    destruct (dir_at base (fs w)); [done|]. simpl. by rewrite lookup_empty.
  - by rewrite Hc2.
  - rewrite Hc2. apply (dir_kept_outside base _ (fs w)); [done|rewrite Hk2; eauto|done..].
  - by rewrite Hc2.
  - rewrite Hc, Hc2. intros Hge%Z.geb_le.
    destruct (Hevict Hge) as ((x & Hx & HxZ) & Hv & [J HJ] & Hnj).
    assert (st.2 ∈ S0) as Hin.
    { destruct Ho as [HZ|?]; [|done].
      pose proof (Hmin x Hx) as Hle. rewrite HZ in Hle |- *.
      by rewrite <- (str_le_antisym _ _ HxZ Hle). }
    destruct (apart_diverge _ _ Hap) as (A1 & A2 & _).
    split; [done|]. split; [done|]. split; [by apply Hv|].
    pose proof Hin as Hin'. rewrite HS0 in Hin'.
    apply elem_of_filter in Hin' as [Hs Hd]. split; [done|]. split.
    + rewrite lookup_insert_ne by (intros E'; by rewrite <- E' in Hs).
      by apply elem_of_dom.
    + exists J. split.
      * unfold dir_at. rewrite Hframe by done. exact HJ.
      * apply not_elem_of_dom. rewrite <- (names_at_dir _ _ _ HJ). by apply Hnj.
  - exists w'. rewrite Hp' in Hp. by injection Hp as <- <-.
Qed.

Lemma sync_returns_true_witness :
  exists w', run_rsync ex_ok ex_config ex_bob ref_rsync_flags "/etc" ex_full
             = (Ret true, w').
Proof.
  apply (sync_returns_true ex_ok ex_config ex_bob ref_rsync_flags "/etc" ex_full).
  - reflexivity.
  - split; reflexivity.
  - right. exists ["backup"; "bob"; "box"; "_etc"], "incomplete", [].
    split; [reflexivity|]. split; [eexists; reflexivity|reflexivity].
  - reflexivity.
  - apply (bool_decide_unpack _). vm_compute. reflexivity.
  - reflexivity.
  - constructor.
  - eexists. reflexivity.
  - reflexivity.
  - intros _. split; [|split; [|split]].
    + exists "2019-12-30__00-00-00". split; [|by vm_compute].
      apply (bool_decide_unpack _). vm_compute. reflexivity.
    + exact ex_full_names_valid.
    + eexists. reflexivity.
    + apply (bool_decide_unpack
               (set_Forall (fun x => x ∉ names_at ["backup"; "junk"] (fs ex_full)) _)).
      vm_compute. reflexivity.
Defined.

(** ** What a synchronization leaves alone *)

(** X23. Whenever [run_rsync] returns, what it has changed on the disk lies in
    the store of its target or in the junk directory: every path that is
    neither inside nor above one of the two names what it named before. The
    stores of the other targets are not touched. *)
Theorem sync_changes_store_and_junk_only (E : extern) (config : Config)
    (profile : Profile) (flags : listref) (path : string) (w w' : world) (b : bool) :
  let base := resolve (cwd w) (base_dir_of config profile path) in
  let junk := resolve (cwd w) (junk_dir_of config) in
  is_absolute (backup_path config) = true ->
  (forall x, x ∈ snapshots base (fs w) -> valid_name x = true) ->
  run_rsync E config profile flags path w = (Ret b, w') ->
  forall q, is_prefix base q = false -> is_prefix q base = false ->
            is_prefix junk q = false -> is_prefix q junk = false ->
            lookup_path q (fs w') = lookup_path q (fs w).
Proof.
  intros base junk Habs Hvalid Hrun q B1 B2 J1 J2.
  destruct b.
  - destruct (run_rsync_success _ _ _ _ _ _ _ Hrun) as (k0 & k & r5 & Hk5 & Hf5 & Hev).
    fold base in Hk5, Hf5, Hev.
    set (K0 := entries_at base (fs w)) in *.
    destruct (stats_of_store K0 (Dir k0)) as (_ & _ & _ & Ho & _).
    set (st := stats_of (map fst (map_to_list (<["incomplete" := Dir k0]> K0)))) in *.
    destruct (st.1.1 >=? backup_count config); [|by rewrite Hev, Hf5].
    assert (valid_name st.2 = true) as Hv.
    { destruct Ho as [->|Ho]; [done|]. apply Hvalid.
      unfold snapshots. by rewrite names_at_entries. }
    rewrite (resolve_name _ _ Hv), (resolve_junk_path _ _ _ Hv) in Hev.
    rewrite (resolve_absolute base (cwd w)) in Hev by by apply junk_dir_absolute.
    fold junk in Hev. rewrite <- Hf5 by done.
    apply fs_rename_inv in Hev as [(_ & -> & _)|Hev]; [done|].
    destruct Hev
      as (sd & sx & dd & dx & n & r1 & dk & Hsrc & Hdst & _ & _ & _ & _ & _ & Ha1 & Ha2).
    apply app_inj_tail in Hsrc as [<- _]. apply app_inj_tail in Hdst as [<- _].
    rewrite (alter_dir_diverge _ _ _ _ _ Ha2 J1 J2).
    by apply (alter_dir_diverge _ _ _ _ _ Ha1).
  - destruct (run_rsync_Ret _ _ _ _ _ _ _ _ Hrun)
      as (w1 & kids & k0 & Hmk & _ & _ & H).
    cbv zeta in H. destruct H as (_ & _ & Hf2 & ->).
    destruct (mkdir_p_Ret _ _ _ Hmk) as (_ & _ & _ & _ & _ & _ & Hf1).
    destruct (diverge_staging _ _ B1 B2) as [B3 B4].
    unfold base in B3, B4.
    rewrite <- (resolve_target config profile path (cwd w)) in B3, B4.
    rewrite Hf2 by done. by apply Hf1.
Qed.

Lemma sync_changes_store_and_junk_only_witness :
  let w := ex_two_stores in
  let w' := (run_rsync ex_ok ex_config ex_bob ref_rsync_flags "/etc" w).2 in
  lookup_path ["backup"; "eve"; "lap"; "_home"] (fs w')
  = lookup_path ["backup"; "eve"; "lap"; "_home"] (fs w).
Proof.
  apply (sync_changes_store_and_junk_only ex_ok ex_config ex_bob ref_rsync_flags
           "/etc" ex_two_stores _ true).
  - reflexivity.
  - apply (bool_decide_unpack (set_Forall (fun x => valid_name x = true) _)).
    vm_compute. reflexivity.
  - vm_compute. reflexivity.
  - reflexivity.
  - reflexivity.
  - reflexivity.
  - reflexivity.
Defined.

(** A closed statement that evaluation settles: through its decision
    procedure where it has one, by computing both sides otherwise. *)
Ltac evaluate :=
  first [ apply (bool_decide_unpack _); vm_compute; reflexivity
        | vm_compute; reflexivity ].

(** ** C1: where the eviction fails *)

(** C1. The retention contract does not hold for every target and every
    synchronization whose engine exits with 0. With a [backup_path] relative
    to the start directory and a store at its cap of two, the eviction
    raises [ENOENT]: [run_rsync] has changed into the store, and from there
    the relative junk path names no directory. No snapshot reaches the junk
    directory and the store ends with three snapshots. With an absolute
    [backup_path] and two targets whose oldest snapshots have the same name,
    the eviction of the second target raises [ENOTEMPTY]: the name is taken
    in the junk directory by the snapshot of the first. Its store ends with
    three snapshots too, and the junk directory is not purged. *)
Theorem eviction_raises_store_over_cap :
  let older := "2019-12-30__00-00-00" in
  let newer := "2019-12-31__00-00-00" in
  let junk := ["backup"; "junk"] in
  (let store := ["backup"; "bob"; "box"; "_etc"] in
   let run := run_rsync ex_ok ex_config_rel ex_bob ref_rsync_flags "/etc" ex_full in
   backup_count ex_config_rel = 2 /\
   snapshots store (fs ex_full) = {[older; newer]} /\
   names_at junk (fs ex_full) = ∅ /\
   map snd (calls (trace run.2)) = [0] /\
   run.1 = Raise (OSError ENOENT) /\
   snapshots store (fs run.2) = {[older; newer; "2020-01-01__00-00-01"]} /\
   names_at junk (fs run.2) = ∅) /\
  (let store := ["backup"; "eve"; "lap"; "_home"] in
   let run := main ex_ok ex_config ex_args ex_twins in
   backup_count ex_config = 2 /\
   snapshots store (fs ex_twins) = {[older; newer]} /\
   map snd (calls (trace run.2)) = [0; 0] /\
   run.1 = Raise (OSError ENOTEMPTY) /\
   snapshots store (fs run.2) = {[older; newer; "2020-01-01__00-00-03"]} /\
   names_at junk (fs run.2) = {[older]} /\
   rmtrees (trace run.2) = []).
Proof.
  cbv zeta. split.
  - split; [reflexivity|]. split; [evaluate|]. split; [evaluate|].
    split; [evaluate|]. split; [evaluate|]. split; evaluate.
  - split; [reflexivity|]. split; [evaluate|]. split; [evaluate|].
    split; [evaluate|]. split; [evaluate|]. split; evaluate.
Qed.

(** ** C10: the option [--dry] *)

(** The staging area is gone from the store of a synchronization that
    returns [True]. *)
Lemma staging_renamed (E : extern) (config : Config) (profile : Profile)
    (flags : listref) (path : string) (w w' : world) :
  let base := resolve (cwd w) (base_dir_of config profile path) in
  let junk := resolve (cwd w) (junk_dir_of config) in
  is_absolute (backup_path config) = true ->
  apart base junk ->
  (forall x, x ∈ snapshots base (fs w) -> valid_name x = true) ->
  run_rsync E config profile flags path w = (Ret true, w') ->
  "incomplete" ∉ names_at base (fs w').
Proof.
  intros base junk Habs Hap Hvalid Hrun.
  destruct (run_rsync_success _ _ _ _ _ _ _ Hrun) as (k0 & k & r5 & Hk5 & Hf5 & Hev).
  fold base in Hk5, Hf5, Hev.
  set (t := strftime (clock E (S (tick w)))) in *.
  set (K0 := entries_at base (fs w)) in *.
  destruct (stats_of_store K0 (Dir k0)) as (_ & _ & _ & Ho & _).
  set (st := stats_of (map fst (map_to_list (<["incomplete" := Dir k0]> K0)))) in *.
  assert (is_snapshot_name t = true) as Ht by apply strftime_is_snapshot_name.
  assert ((<["current" := Symlink t]> (<[t := Dir k]> (delete "incomplete" K0)))
            !! "incomplete" = None) as Hgone.
  { rewrite lookup_insert_ne by done.
    rewrite lookup_insert_ne by (intros E'; by rewrite E' in Ht).
    by rewrite lookup_delete_eq. }
  destruct (apart_diverge _ _ Hap) as (A1 & A2 & _).
  destruct (st.1.1 >=? backup_count config).
  - assert (valid_name st.2 = true) as Hv.
    { destruct Ho as [->|Ho]; [done|]. apply Hvalid.
      unfold snapshots. by rewrite names_at_entries. }
    rewrite (resolve_name _ _ Hv), (resolve_junk_path _ _ _ Hv) in Hev.
    rewrite (resolve_absolute base (cwd w)) in Hev by by apply junk_dir_absolute.
    fold junk in Hev.
    destruct (fs_rename_across _ _ _ _ _ _ Hev A1 A2)
      as (k' & n & jk & Hkb & Hn & _ & Hb & _).
    rewrite Hk5 in Hkb. injection Hkb as <-.
    rewrite (names_at_dir _ _ _ Hb). apply not_elem_of_dom.
    destruct (decide (st.2 = "incomplete")) as [->|Hne].
    + by rewrite lookup_delete_eq.
    + by rewrite lookup_delete_ne.
  - subst r5. rewrite (names_at_dir _ _ _ Hk5). by apply not_elem_of_dom.
Qed.

(** C10. The option [--dry] does not keep the program from promoting. The
    main block with the option is the main block without it started on a
    flag list with [-n] at its end, and nothing else looks at the option; a
    run with the option that returns has run the engine once for each
    target, with [-n] in every argument vector. A synchronization with [-n]
    in the flag list, of a store that can be promoted (as for a run without
    the option: absolute backup path, store and junk directory apart, a
    place for the staging area, a new snapshot name, no directory named
    [current], a working directory outside the store to return to, snapshots
    with file names and, at the cap, a junk directory without their names)
    and with an engine that exits with 0, returns [True] after one run of the
    engine with [-n] among its arguments, and the store is changed: the
    staging area is gone, the snapshot named by the clock is a directory,
    [current] is a link to it and, when the count had reached the cap, the
    snapshot with the least name has left the store for the junk directory;
    below the cap all snapshots stay. Where the engine does not act on
    [-n] (it answers as it does to the arguments without the flag), the run
    with the option and the run without it end alike, whether they return
    or raise: same value or exception, same file system, same working
    directory. *)
Theorem dry_run_still_promotes (E : extern) (config : Config) (args : Args)
    (w w_end : world) (b : bool) (profile : Profile) (path : string) (w0 : world) :
  let normal_args :=
    {| arg_username := arg_username args; arg_email := arg_email args;
       arg_dry := false; arg_verbose := arg_verbose args |} in
  let base := resolve (cwd w0) (base_dir_of config profile path) in
  let junk := resolve (cwd w0) (junk_dir_of config) in
  let t := strftime (clock E (S (tick w0))) in
  let S0 := snapshots base (fs w0) in
  arg_dry args = true ->
  main E config args w = (Ret b, w_end) ->
  In "-n" (deref (heap w0) ref_rsync_flags) ->
  is_absolute (backup_path config) = true ->
  apart base junk ->
  makeable (base ++ ["incomplete"]) (fs w0) ->
  (forall argv before, (engine E (tick w0) argv before).1 = 0) ->
  t ∉ names_at base (fs w0) ->
  dir_at (base ++ ["current"]) (fs w0) = None ->
  Forall (fun n => valid_name n = true) (cwd w0) ->
  is_Some (dir_at (cwd w0) (fs w0)) ->
  is_prefix base (cwd w0) = false ->
  (forall x, x ∈ S0 -> valid_name x = true) ->
  (backup_count config <= Z.of_nat (size S0) ->
   (exists x, x ∈ S0 /\ str_le x "Z" = true) /\
   is_Some (dir_at junk (fs w0)) /\
   (forall x, x ∈ S0 -> x ∉ names_at junk (fs w0))) ->
  (main E config args w =
     main_loop E config normal_args
       (set_heap (store ref_rsync_flags
                    (initial_flags config normal_args (heap w) ++ ["-n"]) (heap w)) w) /\
   main E config normal_args w =
     main_loop E config normal_args
       (set_heap (store ref_rsync_flags
                    (initial_flags config normal_args (heap w)) (heap w)) w)) /\
  (exists cs, calls (trace w_end) = calls (trace w) ++ cs /\
              List.length cs = List.length (targets (profiles config)) /\
              Forall (fun c => In "-n" c.1) cs) /\
  (exists argv w0',
     run_rsync E config profile ref_rsync_flags path w0 = (Ret true, w0') /\
     trace w0' = trace w0 ++ [EvCall argv 0] /\
     In "-n" argv /\
     ("incomplete" ∉ names_at base (fs w0')) /\
     is_Some (dir_at (base ++ [t]) (fs w0')) /\
     lookup_path (base ++ ["current"]) (fs w0') = Some (Symlink t) /\
     if (Z.of_nat (size S0) >=? backup_count config)
     then exists o, o ∈ S0 /\ (forall x, x ∈ S0 -> str_le o x = true) /\
            snapshots base (fs w0') = (S0 ∪ {[t]}) ∖ {[o]} /\
            names_at junk (fs w0') = names_at junk (fs w0) ∪ {[o]}
     else snapshots base (fs w0') = S0 ∪ {[t]} /\
          names_at junk (fs w0') = names_at junk (fs w0)) /\
  ((forall n argv before,
      engine E n argv before = engine E n (without_dry argv) before) ->
   let dry := main E config args w in
   let normal := main E config normal_args w in
   dry.1 = normal.1 /\ fs dry.2 = fs normal.2 /\ cwd dry.2 = cwd normal.2).
Proof.
  intros normal_args base junk t S0 Hdry Hmain Hn Habs Hap Hmake Hengine Hfree
    Hcur Hvalid Hcwd Hout Hnames Hevict.
  split; [|split; [|split]].
  - (* the option is the flag at the end of the list *)
    split; [|apply main_prefix].
    rewrite main_prefix. unfold normal_args, initial_flags, main_loop.
    rewrite Hdry. cbn [arg_verbose arg_dry arg_email]. by rewrite app_nil_r.
  - (* every run of the engine has the flag *)
    destruct (main_calls _ _ _ _ _ _ Hmain) as (cs & Hc & Hall & _ & Hflag).
    exists cs. split; [done|]. split; [|by apply Hflag].
    symmetry. by eapply Forall2_length.
  - (* the synchronization returns, and has promoted *)
    assert (exists w0', run_rsync E config profile ref_rsync_flags path w0
                        = (Ret true, w0')) as [w0' Hrun].
    { assert (exists w1, mkdir_p (target_of config profile path) w0 = (Ret tt, w1))
        as [w1 Hmk].
      { apply mkdir_p_returns; [apply target_nonempty|]. by rewrite resolve_target. }
      destruct (run_rsync E config profile ref_rsync_flags path w0) as [o w'] eqn:Hrun.
      destruct (run_rsync_inv _ _ _ _ _ _ _ _ Hrun)
        as [(e & Hmk' & _)|(w1' & kids & k0 & Hmk' & Hkids & Hinc & H)]; [congruence|].
      assert (w1' = w1) as -> by congruence.
      cbv zeta in H. destruct H as (Hk2 & Hf2 & H).
      destruct (mkdir_p_store _ _ _ _ _ Hmk) as (k0' & Hk1).
      fold base in Hkids, Hk2, Hk1.
      destruct (mkdir_p_Ret _ _ _ Hmk) as (_ & Hc1 & _ & Htick & _ & _ & Hf1).
      set (K0 := entries_at base (fs w0)) in *.
      assert (kids = <["incomplete" := Dir k0']> K0) as -> by congruence.
      set (st := stats_of _) in *.
      set (fl := flags_after config profile path
                   (deref (heap w0) ref_rsync_flags) st.1.2) in *.
      set (res := engine E (tick w0) (command_of config profile path fl) k0) in *.
      set (w2 := after_call config profile ref_rsync_flags path w1 fl res.1 _) in *.
      rewrite resolve_target in Hf1, Hf2. fold base in Hf1, Hf2.
      rewrite insert_insert_eq in Hk2.
      assert (res.1 = 0) as Hres by apply Hengine.
      rewrite Hres in H. change (0 =? 0) with true in H. cbv iota in H.
      destruct H as (o' & Hp & ->).
      assert (cwd w2 = cwd w0) as Hc2 by done.
      assert (tick w2 = S (tick w0)) as Ht2 by (simpl; congruence).
      assert (S0 = filter (fun x => is_snapshot_name x = true) (dom K0)) as HS0.
      { unfold S0, snapshots. by rewrite names_at_entries. }
      assert (forall q, is_prefix base q = false -> is_prefix q base = false ->
                        lookup_path q (fs w2) = lookup_path q (fs w0)) as Hframe.
      { intros q P1 P2. destruct (diverge_staging _ _ P1 P2) as [P3 P4].
        rewrite Hf2 by done. by apply Hf1. }
      assert (is_snapshot_name t = true) as Hts by apply strftime_is_snapshot_name.
      destruct (stats_of_store K0 (Dir k0')) as (Hc & _ & _ & Ho & Hmin).
      rewrite <- HS0 in Hc, Ho, Hmin. fold st in Hc, Ho, Hmin.
      destruct (promote_returns E config profile path st.1.1 st.2 w2
                  (<["incomplete" := Dir res.2]> K0) (Dir res.2)) as [w'' Hp'].
      - by rewrite Hc2.
      - by rewrite lookup_insert_eq.
      - rewrite Ht2. fold t.
        rewrite lookup_insert_ne by (intros E'; by rewrite <- E' in Hts).
        apply not_elem_of_dom. unfold K0. by rewrite <- names_at_entries.
      - intros k. rewrite lookup_insert_ne by done. intros Hk.
        assert (dir_at (base ++ ["current"]) (fs w0) = Some k); [|congruence].
        apply dir_at_snoc. exists K0. split; [|done].
        revert Hk. unfold K0, entries_at.
        destruct (dir_at base (fs w0)); [done|]. simpl. by rewrite lookup_empty.
      - by rewrite Hc2.
      - rewrite Hc2.
        apply (dir_kept_outside base _ (fs w0)); [done|rewrite Hk2; eauto|done..].
      - by rewrite Hc2.
      - rewrite Hc, Hc2. intros Hge%Z.geb_le.
        destruct (Hevict Hge) as ((x & Hx & HxZ) & [J HJ] & Hnj).
        assert (st.2 ∈ S0) as Hin.
        { destruct Ho as [HZ|?]; [|done].
          pose proof (Hmin x Hx) as Hle. rewrite HZ in Hle |- *.
          by rewrite <- (str_le_antisym _ _ HxZ Hle). }
        destruct (apart_diverge _ _ Hap) as (A1 & A2 & _).
        split; [done|]. split; [done|]. split; [by apply Hnames|].
        pose proof Hin as Hin'. rewrite HS0 in Hin'.
        apply elem_of_filter in Hin' as [Hs Hd]. split; [done|]. split.
        + rewrite lookup_insert_ne by (intros E'; by rewrite <- E' in Hs).
          by apply elem_of_dom.
        + exists J. split.
          * unfold dir_at. rewrite Hframe by done. exact HJ.
          * apply not_elem_of_dom. rewrite <- (names_at_dir _ _ _ HJ). by apply Hnj.
      - exists w'. rewrite Hp' in Hp. by injection Hp as <- <-. }
    destruct (run_rsync_trace _ _ _ _ _ _ _ _ Hrun)
      as [(_ & _ & e & ?)|(newest & rc & Ht & _ & _ & Hb)]; [done|].
    assert (rc = 0) as -> by (apply Z.eqb_eq; symmetry; by apply Hb).
    destruct (sync_promotes _ _ _ _ _ _ _ Hnames Hrun) as [Hlink Hdir].
    eexists _, w0'. split; [exact Hrun|]. split; [exact Ht|].
    split; [by apply in_command_of, in_flags_after|].
    split; [by apply (staging_renamed _ _ _ _ _ _ _ Habs Hap Hnames Hrun)|].
    split.
    { apply Hdir. unfold S0, snapshots. intros [_ ?]%elem_of_filter. done. }
    split; [exact Hlink|].
    pose proof (retention_contract _ _ _ _ _ _ _ Habs Hap Hnames Hrun) as Hret.
    cbv zeta in Hret. fold base junk t S0 in Hret.
    destruct (Z.of_nat (size S0) >=? backup_count config).
    + destruct Hret as (o & Ho & Hleast & Hstore & Hjunk & _).
      exists o. done.
    + by destruct Hret as (Hstore & Hjunk & _).
  - (* against the run without the option *)
    intros Hdeaf dry normal.
    pose proof (sim_main E Hdeaf config args normal_args eq_refl eq_refl w w
                  (same_outside_refl w)) as H.
    fold dry normal in H.
    destruct dry as [[b1|e1] w1], normal as [[b2|e2] w2]; try done.
    + destruct H as (-> & ? & ? & _). done.
    + destruct H as (-> & ? & ? & _). done.
Qed.

Lemma dry_run_still_promotes_witness :
  let args := ex_args_dry in
  let normal_args :=
    {| arg_username := arg_username args; arg_email := arg_email args;
       arg_dry := false; arg_verbose := arg_verbose args |} in
  let w := ex_full in
  let w_end := (main ex_dry ex_config args ex_full).2 in
  let w0 := ex_full_dry in
  let base := resolve (cwd w0) (base_dir_of ex_config ex_bob "/etc") in
  let junk := resolve (cwd w0) (junk_dir_of ex_config) in
  let t := strftime (clock ex_dry (S (tick w0))) in
  let S0 := snapshots base (fs w0) in
  ((main ex_dry ex_config args w =
      main_loop ex_dry ex_config normal_args
        (set_heap (store ref_rsync_flags
                     (initial_flags ex_config normal_args (heap w) ++ ["-n"])
                     (heap w)) w) /\
    main ex_dry ex_config normal_args w =
      main_loop ex_dry ex_config normal_args
        (set_heap (store ref_rsync_flags
                     (initial_flags ex_config normal_args (heap w)) (heap w)) w)) /\
   (exists cs, calls (trace w_end) = calls (trace w) ++ cs /\
               List.length cs = List.length (targets (profiles ex_config)) /\
               Forall (fun c => In "-n" c.1) cs) /\
   (exists argv w0',
      run_rsync ex_dry ex_config ex_bob ref_rsync_flags "/etc" w0 = (Ret true, w0') /\
      trace w0' = trace w0 ++ [EvCall argv 0] /\
      In "-n" argv /\
      ("incomplete" ∉ names_at base (fs w0')) /\
      is_Some (dir_at (base ++ [t]) (fs w0')) /\
      lookup_path (base ++ ["current"]) (fs w0') = Some (Symlink t) /\
      if (Z.of_nat (size S0) >=? backup_count ex_config)
      then exists o, o ∈ S0 /\ (forall x, x ∈ S0 -> str_le o x = true) /\
             snapshots base (fs w0') = (S0 ∪ {[t]}) ∖ {[o]} /\
             names_at junk (fs w0') = names_at junk (fs w0) ∪ {[o]}
      else snapshots base (fs w0') = S0 ∪ {[t]} /\
           names_at junk (fs w0') = names_at junk (fs w0)) /\
   ((forall n argv before,
       engine ex_dry n argv before = engine ex_dry n (without_dry argv) before) ->
    let dry := main ex_dry ex_config args w in
    let normal := main ex_dry ex_config normal_args w in
    dry.1 = normal.1 /\ fs dry.2 = fs normal.2 /\ cwd dry.2 = cwd normal.2)) /\
  (* the same synchronization, evaluated: the engine has written nothing,
     and still the oldest snapshot is in the junk directory and [current]
     names an empty snapshot *)
  (let run := run_rsync ex_dry ex_config ex_bob ref_rsync_flags "/etc" w0 in
   run.1 = Ret true /\
   lookup_path (base ++ ["current"]) (fs run.2) = Some (Symlink "2020-01-01__00-00-01") /\
   lookup_path (base ++ ["2020-01-01__00-00-01"]) (fs run.2) = Some (Dir ∅) /\
   snapshots base (fs run.2) = {["2019-12-31__00-00-00"; "2020-01-01__00-00-01"]} /\
   names_at junk (fs run.2) = {["2019-12-30__00-00-00"]}).
Proof.
  split.
  - apply (dry_run_still_promotes ex_dry ex_config ex_args_dry ex_full
             (main ex_dry ex_config ex_args_dry ex_full).2 true ex_bob "/etc"
             ex_full_dry).
    + reflexivity.
    + by vm_compute.
    + vm_compute. do 8 right. by left.
    + reflexivity.
    + split; reflexivity.
    + right. exists ["backup"; "bob"; "box"; "_etc"], "incomplete", [].
      split; [reflexivity|]. split; [eexists; reflexivity|reflexivity].
    + intros argv before. simpl. by destruct (bool_decide _).
    + apply (bool_decide_unpack _). vm_compute. reflexivity.
    + reflexivity.
    + constructor.
    + eexists. reflexivity.
    + reflexivity.
    + exact ex_full_names_valid.
    + intros _. split; [|split].
      * exists "2019-12-30__00-00-00". split; [|by vm_compute].
        apply (bool_decide_unpack _). vm_compute. reflexivity.
      * eexists. reflexivity.
      * apply (bool_decide_unpack
                 (set_Forall (fun x => x ∉ names_at ["backup"; "junk"] (fs ex_full)) _)).
        vm_compute. reflexivity.
  - cbv zeta. split; [evaluate|]. split; [evaluate|].
    split; [evaluate|]. split; evaluate.
Defined.
